(** * Time Circuits Display: calendar codec, time travel and keypad entry

    A shallow embedding of the parts of [tc_time.cpp] and [tc_keypad.cpp]
    that carry the date arithmetic and the entry logic of the Time Circuits
    Display firmware, with the properties of its specification settled
    against them.

    Conventions.
    - C integers are [Z]; a store into a [uint8_t], [uint16_t], [uint32_t]
      or [uint64_t] object is written with [wrap8] .. [wrap64].
    - [unsigned long] is 32 bits wide on the target (ESP32), so [millis()]
      arithmetic goes through [wrap32].
    - A loop is a [Fixpoint] over an explicit fuel; running out of fuel is
      the result [OutOfFuel], reading a table outside its bounds is
      [OutOfBounds].  Termination statements say that enough fuel yields
      [Ok]. *)

From Stdlib Require Import ZArith Lia Bool String.
From stdpp Require Import base list.

Local Open Scope Z_scope.

(* ================================================================== *)
(** * Part I.  Definitions                                             *)
(* ================================================================== *)

(** ** Machine arithmetic and the result monad *)

Module Machine.

Definition wrap8  (x : Z) : Z := x mod 2^8.
Definition wrap16 (x : Z) : Z := x mod 2^16.
Definition wrap32 (x : Z) : Z := x mod 2^32.
Definition wrap64 (x : Z) : Z := x mod 2^64.

(** A C truth value. *)
Definition c_bool (b : bool) : Z := if b then 1 else 0.

Inductive result (A : Type) : Type :=
| Ok (a : A)
| OutOfFuel
| OutOfBounds.

Arguments Ok {A} a.
Arguments OutOfFuel {A}.
Arguments OutOfBounds {A}.

Definition bind {A B : Type} (m : result A) (k : A -> result B) : result B :=
  match m with
  | Ok a => k a
  | OutOfFuel => OutOfFuel
  | OutOfBounds => OutOfBounds
  end.

(** [table[i]] for a C array given as a list. *)
Definition index (table : list Z) (i : Z) : result Z :=
  if (0 <=? i) && (i <? Z.of_nat (length table)) then
    match table !! Z.to_nat i with
    | Some v => Ok v
    | None => OutOfBounds
    end
  else OutOfBounds.

End Machine.

Export Machine.

Declare Scope result_scope.
Delimit Scope result_scope with result.
Notation "x <- m ;; k" := (bind m (fun x => k))
  (at level 100, m at next level, right associativity) : result_scope.
Local Open Scope result_scope.

(** ** The calendar codec of [tc_time.cpp] *)

Module Codec.

Definition monthDays : list Z :=
  [31; 28; 31; 30; 31; 30; 31; 31; 30; 31; 30; 31].

Definition mon_yday_0 : list Z :=
  [0; 31; 59; 90; 120; 151; 181; 212; 243; 273; 304; 334; 365].
Definition mon_yday_1 : list Z :=
  [0; 31; 60; 91; 121; 152; 182; 213; 244; 274; 305; 335; 366].

(** [mon_yday[row][col]], a [2 x 13] array. *)
Definition mon_yday (row col : Z) : result Z :=
  if row =? 0 then index mon_yday_0 col
  else if row =? 1 then index mon_yday_1 col
  else OutOfBounds.

Definition mins1kYears : list Z :=
  [         0;  525074400; 1050674400; 1576274400; 2101874400;
   2627474400; 3153074400; 3678674400; 4204274400; 4729874400].

Definition hours1kYears : list Z :=
  [             0;  525074400 / 60; 1050674400 / 60; 1576274400 / 60;
   2101874400 / 60; 2627474400 / 60; 3153074400 / 60; 3678674400 / 60;
   4204274400 / 60; 4729874400 / 60].

(** [bool isLeapYear(int year)].  The first test is written
    [year & 3 == 0]; in C [==] binds tighter than [&], so the condition is
    [year & (3 == 0)]. *)
Definition isLeapYear (year : Z) : bool :=
  if negb (Z.land year (c_bool (3 =? 0)) =? 0) then
    if Z.rem year 100 =? 0 then
      if Z.rem year 400 =? 0 then true else false
    else true
  else false.

(** [int daysInMonth(int month, int year)] *)
Definition daysInMonth (month year : Z) : result Z :=
  if (month =? 2) && isLeapYear year then Ok 29
  else index monthDays (month - 1).

(** The loop [while(c-- > d) total32 += isLeapYear(c) ? 8760+24 : 8760;]
    of [dateToMins]; the body sees [c] already decremented. *)
Fixpoint dateToMins_years (fuel : nat) (c d total32 : Z) : result Z :=
  match fuel with
  | O => OutOfFuel
  | S fuel' =>
      if c >? d then
        let c' := c - 1 in
        dateToMins_years fuel' c' d
          (wrap32 (total32 + (if isLeapYear c' then 8760 + 24 else 8760)))
      else Ok total32
  end.

(** [uint64_t dateToMins(int year, int month, int day, int hour, int minute)] *)
Definition dateToMins_fuel (fuel : nat) (year month day hour minute : Z)
  : result Z :=
  total32 <- index hours1kYears (year ÷ 1000) ;;
  let d := if negb (total32 =? 0) then (year ÷ 1000) * 1000 else 1 in
  total32 <- dateToMins_years fuel year d total32 ;;
  yd <- mon_yday (if isLeapYear year then 1 else 0) (month - 1) ;;
  let total32 := wrap32 (total32 + wrap32 (yd * 24)) in
  let total32 := wrap32 (total32 + (day - 1) * 24) in
  let total32 := wrap32 (total32 + hour) in
  let total64 := wrap64 (total32 * 60) in
  let total64 := wrap64 (total64 + minute) in
  Ok total64.

(** The year loop runs [year - d] times at most, so this fuel is enough
    for every input (see [CodecFacts.dateToMins_total]). *)
Definition dateToMins (year month day hour minute : Z) : result Z :=
  dateToMins_fuel (S (Z.to_nat year)) year month day hour minute.

(** The search [while(d >= 0) { if(total64 > mins1kYears[d]) break; d--; }]
    of [minsToDate]. *)
Fixpoint minsToDate_block (fuel : nat) (d total64 : Z) : result Z :=
  match fuel with
  | O => OutOfFuel
  | S fuel' =>
      if d >=? 0 then
        m <- index mins1kYears d ;;
        if total64 >? m then Ok d
        else minsToDate_block fuel' (d - 1) total64
      else Ok d
  end.

(** The loop
    [while(1) { temp = isLeapYear(c++) ? (8760+24)*60 : 8760*60;
                if(total32 < temp) break; year++; total32 -= temp; }].
    It returns [year] and [total32]. *)
Fixpoint minsToDate_years (fuel : nat) (c year total32 : Z) : result (Z * Z) :=
  match fuel with
  | O => OutOfFuel
  | S fuel' =>
      let temp := if isLeapYear c then (8760 + 24) * 60 else 8760 * 60 in
      if total32 <? temp then Ok (year, total32)
      else minsToDate_years fuel' (c + 1) (year + 1) (wrap32 (total32 - temp))
  end.

(** The loop
    [while(c < 12) { if(total32 < mon_yday[temp][c]*24*60) break; c++; }]. *)
Fixpoint minsToDate_month (fuel : nat) (temp c total32 : Z) : result Z :=
  match fuel with
  | O => OutOfFuel
  | S fuel' =>
      if c <? 12 then
        yd <- mon_yday temp c ;;
        if total32 <? wrap32 (yd * 24 * 60) then Ok c
        else minsToDate_month fuel' temp (c + 1) total32
      else Ok c
  end.

(** A calendar tuple [(year, month, day, hour, minute)]. *)
Definition date : Type := Z * Z * Z * Z * Z.

(** [void minsToDate(uint64_t total64, int& year, int& month, int& day,
                     int& hour, int& minute)] *)
Definition minsToDate_fuel (fuel : nat) (total64 : Z) : result date :=
  d <- minsToDate_block fuel 9 total64 ;;
  m <- (if d >? 0 then index mins1kYears d else Ok 0) ;;
  let total64 := if d >? 0 then wrap64 (total64 - m) else total64 in
  let c := if d >? 0 then d * 1000 else 1 in
  let year := c in
  let total32 := wrap32 total64 in
  yt <- minsToDate_years fuel c year total32 ;;
  let '(year, total32) := yt in
  let temp := if isLeapYear year then 1 else 0 in
  c <- minsToDate_month fuel temp 1 total32 ;;
  let month := c in
  yd <- mon_yday temp (c - 1) ;;
  let total32 := wrap32 (total32 - wrap32 (yd * 24 * 60)) in
  let temp := total32 / (24 * 60) in
  let day := temp + 1 in
  let total32 := wrap32 (total32 - temp * (24 * 60)) in
  let temp := total32 / 60 in
  let hour := temp in
  let minute := wrap32 (total32 - temp * 60) in
  Ok (year, month, day, hour, minute).

(** No 32-bit value survives 8172 subtractions of a year's minutes, and the
    other two loops are shorter (see [CodecFacts.minsToDate_total]). *)
Definition minsToDate_default_fuel : nat := Z.to_nat 8200.

Definition minsToDate (total64 : Z) : result date :=
  minsToDate_fuel minsToDate_default_fuel total64.

(** Days elapsed before the month [month] of a 365-day year. *)
Definition yday0 (month : Z) : Z := nth (Z.to_nat (month - 1)) mon_yday_0 0.

(** A tuple the program itself takes for a date: year 1..9999, month
    1..12, day within [daysInMonth], hour below 24, minute below 60. *)
Definition valid_date (dt : date) : bool :=
  let '(year, month, day, hour, minute) := dt in
  (1 <=? year) && (year <=? 9999) && (1 <=? month) && (month <=? 12) &&
  match daysInMonth month year with
  | Ok dim => (1 <=? day) && (day <=? dim)
  | _ => false
  end &&
  (0 <=? hour) && (hour <=? 23) && (0 <=? minute) && (minute <=? 59).

(** The Gregorian rule in the words of the specification: divisible by 4,
    and not by 100 unless also by 400. *)
Definition gregorian_leap (year : Z) : bool :=
  (year mod 4 =? 0) && (negb (year mod 100 =? 0) || (year mod 400 =? 0)).

(** Days in a month of the Gregorian calendar, for months 1..12. *)
Definition gregorian_days_in_month (month year : Z) : Z :=
  if (month =? 2) && gregorian_leap year then 29
  else nth (Z.to_nat (month - 1)) monthDays 0.

(** A calendar tuple that is valid in the supported range, with the days
    of a month counted by the Gregorian calendar. *)
Definition gregorian_valid_date (dt : date) : bool :=
  let '(year, month, day, hour, minute) := dt in
  (1 <=? year) && (year <=? 9999) && (1 <=? month) && (month <=? 12) &&
  (1 <=? day) && (day <=? gregorian_days_in_month month year) &&
  (0 <=? hour) && (hour <=? 23) && (0 <=? minute) && (minute <=? 59).

End Codec.

(** ** The clock displays *)

Module Clock.

(** Modelled from the spec: the class [clockDisplay] ([clockdisplay.cpp])
    is not among the sources.  The specification gives a ClockValue the
    fields year, month, day, hour, minute and a year offset, clamps the
    month to [1,12] and the day to [1, days-in-month] in the mutators, and
    leaves hour and minute to the caller (section 4.2).  The presentation
    fields (colon, brightness, night mode) play no part here.
    Days-in-month is the program's [daysInMonth]. *)
Record clockDisplay : Type := mkClock {
  cd_year : Z;
  cd_month : Z;
  cd_day : Z;
  cd_hour : Z;
  cd_minute : Z;
  cd_yearOffset : Z
}.

(** Modelled from the spec: the accessors of the fields. *)
Definition getYear (c : clockDisplay) : Z := cd_year c.
Definition getMonth (c : clockDisplay) : Z := cd_month c.
Definition getDay (c : clockDisplay) : Z := cd_day c.
Definition getHour (c : clockDisplay) : Z := cd_hour c.
Definition getMinute (c : clockDisplay) : Z := cd_minute c.
Definition getYearOffset (c : clockDisplay) : Z := cd_yearOffset c.

Definition clamp (lo hi x : Z) : Z :=
  if x <? lo then lo else if x >? hi then hi else x.

(** Modelled from the spec: the mutators.  The year is stored as given. *)
Definition setYear (yearNum : Z) (c : clockDisplay) : clockDisplay :=
  mkClock yearNum (cd_month c) (cd_day c) (cd_hour c) (cd_minute c)
          (cd_yearOffset c).

(** Modelled from the spec: "month clamped to [1,12]". *)
Definition setMonth (monthNum : Z) (c : clockDisplay) : clockDisplay :=
  mkClock (cd_year c) (clamp 1 12 monthNum) (cd_day c) (cd_hour c)
          (cd_minute c) (cd_yearOffset c).

(** Modelled from the spec: "day clamped to [1, days-in-month]", the
    month and the year being the ones the clock holds. *)
Definition setDay (dayNum : Z) (c : clockDisplay) : clockDisplay :=
  let maxDay := match Codec.daysInMonth (cd_month c) (cd_year c) with
                | Ok dim => dim
                | _ => 31
                end in
  mkClock (cd_year c) (cd_month c) (clamp 1 maxDay dayNum) (cd_hour c)
          (cd_minute c) (cd_yearOffset c).

(** Modelled from the spec: "hour/minute validated by caller". *)
Definition setHour (hourNum : Z) (c : clockDisplay) : clockDisplay :=
  mkClock (cd_year c) (cd_month c) (cd_day c) hourNum (cd_minute c)
          (cd_yearOffset c).

(** Modelled from the spec: "hour/minute validated by caller". *)
Definition setMinute (minNum : Z) (c : clockDisplay) : clockDisplay :=
  mkClock (cd_year c) (cd_month c) (cd_day c) (cd_hour c) minNum
          (cd_yearOffset c).

(** Modelled from the spec: the year offset is stored as given. *)
Definition setYearOffset (yearOffs : Z) (c : clockDisplay) : clockDisplay :=
  mkClock (cd_year c) (cd_month c) (cd_day c) (cd_hour c) (cd_minute c)
          yearOffs.

(** Modelled from the spec: the effective date of a clock, its fields with
    [effectiveYear() = year - yearOffset]. *)
Definition effective (c : clockDisplay) : Codec.date :=
  (cd_year c - cd_yearOffset c, cd_month c, cd_day c, cd_hour c, cd_minute c).

(** [struct dateStruct] of the preset tables. *)
Record dateStruct : Type := mkDate {
  ds_year : Z; ds_month : Z; ds_day : Z; ds_hour : Z; ds_minute : Z
}.

(** Modelled from the spec: [clockDisplay::setFromStruct] is not among the
    sources; the scheduler "loads the corresponding presets", which is
    taken as the five mutators in turn. *)
Definition setFromStruct (s : dateStruct) (c : clockDisplay) : clockDisplay :=
  setMinute (ds_minute s) (setHour (ds_hour s) (setDay (ds_day s)
    (setMonth (ds_month s) (setYear (ds_year s) c)))).

(** What the hardware clock hands out ([DateTime] of the RTC library). *)
Record DateTime : Type := mkDateTime {
  dt_year : Z; dt_month : Z; dt_day : Z; dt_hour : Z; dt_minute : Z;
  dt_second : Z
}.

End Clock.

(** ** Time travel, rollover and the rotation of presets ([tc_time.cpp]) *)

Module Time.
Import Codec Clock.

(** Calls into the collaborators, in the order they are made. *)
Inductive event : Type :=
| PlayFile (name : string)
| Call (name : string).

(** The pause of the preset rotation. *)
Record autoInt : Type := mkAutoInt {
  autoPaused : bool;
  pauseNow : Z;
  pauseDelay : Z;
  autoIntDone : bool;
  autoTime : Z
}.

(** The time travel sequence and the offset of the present time. *)
Record travel : Type := mkTravel {
  timeDifference : Z;
  timeDiffUp : bool;
  timetravelNow : Z;
  timeTraveled : bool;
  timetravelP1Now : Z;
  timetravelP1Delay : Z;
  timeTravelP1 : Z
}.

(** The globals of [tc_time.cpp] that the functions below touch; [rtc] is
    what the hardware clock holds, [log] the calls made so far. *)
Record tcd : Type := mkTcd {
  presentTime : clockDisplay;
  destinationTime : clockDisplay;
  departedTime : clockDisplay;
  tr : travel;
  ai : autoInt;
  rtc : DateTime;
  log : list event
}.

Definition set_presentTime (c : clockDisplay) (s : tcd) : tcd :=
  mkTcd c (destinationTime s) (departedTime s) (tr s) (ai s) (rtc s) (log s).
Definition set_destinationTime (c : clockDisplay) (s : tcd) : tcd :=
  mkTcd (presentTime s) c (departedTime s) (tr s) (ai s) (rtc s) (log s).
Definition set_departedTime (c : clockDisplay) (s : tcd) : tcd :=
  mkTcd (presentTime s) (destinationTime s) c (tr s) (ai s) (rtc s) (log s).
Definition set_tr (t : travel) (s : tcd) : tcd :=
  mkTcd (presentTime s) (destinationTime s) (departedTime s) t (ai s) (rtc s)
        (log s).
Definition set_ai (a : autoInt) (s : tcd) : tcd :=
  mkTcd (presentTime s) (destinationTime s) (departedTime s) (tr s) a (rtc s)
        (log s).
Definition set_rtc (d : DateTime) (s : tcd) : tcd :=
  mkTcd (presentTime s) (destinationTime s) (departedTime s) (tr s) (ai s) d
        (log s).
Definition emit (e : event) (s : tcd) : tcd :=
  mkTcd (presentTime s) (destinationTime s) (departedTime s) (tr s) (ai s)
        (rtc s) (log s ++ [e]).

(** What the functions read but do not own: the rotation interval
    [autoTimeIntervals[autoInterval]] and the macro [TT_P1_DELAY_P1] are
    declared outside the sources; [timetravelPersistent] is set once at
    start-up and [FPBUnitIsOn] follows the fake power switch; [millis] is
    the value [millis()] returns during the call. *)
Record env : Type := mkEnv {
  interval : Z;
  TT_P1_DELAY_P1 : Z;
  timetravelPersistent : bool;
  FPBUnitIsOn : bool;
  millis : Z
}.

Definition destinationTimes : list dateStruct :=
  [mkDate 1985 10 26 1 21; mkDate 1985 10 26 1 24; mkDate 1955 11 5 6 0;
   mkDate 1985 10 27 11 0; mkDate 2015 10 21 16 29; mkDate 1955 11 12 6 0;
   mkDate 1885 1 1 0 0; mkDate 1885 9 2 12 0].

Definition departedTimes : list dateStruct :=
  [mkDate 1985 10 26 1 20; mkDate 1955 11 12 22 4; mkDate 1985 10 26 1 34;
   mkDate 1885 9 7 9 10; mkDate 1985 10 26 11 35; mkDate 1985 10 27 2 42;
   mkDate 1955 11 12 21 44; mkDate 1955 11 13 12 0].

Definition preset (table : list dateStruct) (i : Z) : result dateStruct :=
  if (0 <=? i) && (i <? Z.of_nat (length table)) then
    match table !! Z.to_nat i with
    | Some v => Ok v
    | None => OutOfBounds
    end
  else OutOfBounds.

(** [DateTime myrtcnow()]: the reading of the hardware clock.  The
    function re-reads up to 30 times while the fields are implausible; the
    value it ends with is the one the clock holds. *)
Definition myrtcnow (s : tcd) : DateTime := rtc s.

(** [void pauseAuto(void)] *)
Definition pauseAuto (e : env) (a : autoInt) : autoInt :=
  if negb (interval e =? 0) then
    mkAutoInt true (millis e) (30 * 60 * 1000) (autoIntDone a) (autoTime a)
  else a.

(** The test [!autoPaused || (millis() - pauseNow >= pauseDelay)] shared by
    [checkIfAutoPaused] and [time_loop]. *)
Definition pauseOver (e : env) (a : autoInt) : bool :=
  negb (autoPaused a) || (wrap32 (millis e - pauseNow a) >=? pauseDelay a).

(** [bool checkIfAutoPaused()] *)
Definition checkIfAutoPaused (e : env) (a : autoInt) : bool :=
  if pauseOver e a then false else true.

(** [void timeTravel(bool makeLong)] *)
Definition timeTravel (e : env) (makeLong : bool) (s : tcd) : result tcd :=
  let s := set_ai (pauseAuto e (ai s)) s in
  if makeLong then
    let s := emit (PlayFile "/travelstart.mp3") s in
    let t := tr s in
    Ok (set_tr (mkTravel (timeDifference t) (timeDiffUp t) (timetravelNow t)
                         (timeTraveled t) (millis e) (TT_P1_DELAY_P1 e) 1) s)
  else
    let t := tr s in
    let s := set_tr (mkTravel (timeDifference t) (timeDiffUp t) (millis e) true
                              (timetravelP1Now t) (timetravelP1Delay t)
                              (timeTravelP1 t)) s in
    let s := emit (PlayFile "/timetravel.mp3") s in
    let s := emit (Call "allOff") s in
    let p := presentTime s in
    let s := set_departedTime
               (setYearOffset 0
                 (setMinute (getMinute p)
                   (setHour (getHour p)
                     (setDay (getDay p)
                       (setMonth (getMonth p)
                         (setYear (getYear p - getYearOffset p)
                                  (departedTime s))))))) s in
    let s := if timetravelPersistent e
             then emit (Call "departedTime.save") s else s in
    let dt := myrtcnow s in
    rtcTime <- dateToMins (dt_year dt - getYearOffset (presentTime s))
                          (dt_month dt) (dt_day dt) (dt_hour dt)
                          (dt_minute dt) ;;
    let d := destinationTime s in
    newTime <- dateToMins (getYear d) (getMonth d) (getDay d) (getHour d)
                          (getMinute d) ;;
    let t := tr s in
    let s := if rtcTime <? newTime then
               set_tr (mkTravel (wrap64 (newTime - rtcTime)) true
                                (timetravelNow t) (timeTraveled t)
                                (timetravelP1Now t) (timetravelP1Delay t)
                                (timeTravelP1 t)) s
             else
               set_tr (mkTravel (wrap64 (rtcTime - newTime)) false
                                (timetravelNow t) (timeTraveled t)
                                (timetravelP1Now t) (timetravelP1Delay t)
                                (timeTravelP1 t)) s in
    let s := if timetravelPersistent e
             then emit (Call "presentTime.save") s else s in
    Ok s.

(** The rollover block of [time_loop], entered with the reading [dt] of the
    hardware clock; it hands back the reading the loop goes on with. *)
Definition time_loop_rollover (e : env) (dt : DateTime) (s : tcd)
  : tcd * DateTime :=
  if dt_year dt - getYearOffset (presentTime s) >? 9999 then
    let s := emit (Call "Serial.println") s in
    let t := tr s in
    let s := if negb (timeDifference t =? 0) then
               set_tr (mkTravel (wrap64 (5255474400 - timeDifference t))
                                (negb (timeDiffUp t))
                                (timetravelNow t) (timeTraveled t)
                                (timetravelP1Now t) (timetravelP1Delay t)
                                (timeTravelP1 t)) s
             else s in
    let s := set_presentTime (setYearOffset 2016 (presentTime s)) s in
    let dt := myrtcnow s in
    let s := set_rtc (mkDateTime 2017 (dt_month dt) (dt_day dt) (dt_hour dt)
                                 (dt_minute dt) (dt_second dt)) s in
    let s := if timetravelPersistent e
             then emit (Call "presentTime.save") s
             else emit (Call "presentTime.saveYOffs") s in
    let dt := myrtcnow s in
    (s, dt)
  else (s, dt).

(** The rotation block of [time_loop] ("Handle autoInterval"), entered with
    the reading [dt]. *)
Definition time_loop_autoInterval (e : env) (dt : DateTime) (s : tcd)
  : result tcd :=
  let minNext := if dt_minute dt =? 59 then 0 else dt_minute dt + 1 in
  let a := ai s in
  if (dt_second dt =? 59) && pauseOver e a && negb (interval e =? 0) &&
     (Z.rem minNext (interval e) =? 0) then
    if negb (autoIntDone a) then
      let autoTime' := if autoTime a + 1 >? 7 then 0 else autoTime a + 1 in
      let s := set_ai (mkAutoInt false (pauseNow a) (pauseDelay a) true
                                 autoTime') s in
      dest <- preset destinationTimes autoTime' ;;
      dep <- preset departedTimes autoTime' ;;
      let s := set_destinationTime (setFromStruct dest (destinationTime s)) s in
      let s := set_departedTime (setFromStruct dep (departedTime s)) s in
      let s := emit (Call "allOff") s in
      let s := emit (Call "presentTime.setDateTimeDiff") s in
      let s := if FPBUnitIsOn e then emit (Call "animate") s else s in
      Ok s
    else Ok s
  else
    Ok (set_ai (mkAutoInt (autoPaused a) (pauseNow a) (pauseDelay a) false
                          (autoTime a)) s).

(** Modelled from the spec: [clockDisplay::setDateTimeDiff], which turns a
    reading of the hardware clock into the present display, is not among
    the sources.  The glossary has the virtual offset as "the signed minute
    delta applied to true time to produce the present display"; the delta is
    [timeDifference], added when [timeDiffUp] is set and subtracted
    otherwise. *)
Definition applyOffset (t : travel) (trueTime : Z) : Z :=
  if timeDiffUp t then trueTime + timeDifference t
  else trueTime - timeDifference t.

(** Modelled from the spec: the minutes elapsed since 1/1/1 00:00
    ("EpochMinutes"), counted in the program's calendar of 365-day years.
    It is the count [dateToMins] returns for the years 1 to 9999 (see
    [TimeFacts.epochMinutes_dateToMins]) and goes on past them, where the
    table of [dateToMins] ends. *)
Definition epochMinutes (year month day hour minute : Z) : Z :=
  (((year - 1) * 8760 + (yday0 month + day - 1) * 24 + hour) * 60) + minute.

(** The interval checks made one after the other. *)
Fixpoint run_checks (checks : list (env * DateTime)) (s : tcd) : result tcd :=
  match checks with
  | [] => Ok s
  | (e, dt) :: rest =>
      s' <- time_loop_autoInterval e dt s ;; run_checks rest s'
  end.

(** A device at rest on 26 October 2015, 01:21, showing the first preset;
    the example state of the instances below. *)
Definition tcd0 : tcd :=
  mkTcd (mkClock 2015 10 26 1 21 0)
        (mkClock 1985 10 26 1 21 0)
        (mkClock 1985 10 26 1 20 0)
        (mkTravel 0 false 0 false 0 0 0)
        (mkAutoInt false 0 0 false 0)
        (mkDateTime 2015 10 26 1 21 30)
        [].

Definition env0 : env := mkEnv 5 1400 true true 1000.

(** The same device with the destination set to 1 January of the year 0,
    which the keypad admits. *)
Definition tcd_year0 : tcd := set_destinationTime (mkClock 0 1 1 0 0 0) tcd0.

(** A device whose present time runs a day ahead of its hardware clock,
    at the moment the effective year of the latter turns 10000. *)
Definition tcd_rollover_ahead : tcd :=
  mkTcd (mkClock 2050 1 2 0 0 (-7950))
        (mkClock 1985 10 26 1 21 0)
        (mkClock 1985 10 26 1 20 0)
        (mkTravel 1440 true 0 false 0 0 0)
        (mkAutoInt false 0 0 false 0)
        (mkDateTime 2050 1 1 0 0 0)
        [].

(** The same device with the present time a day behind. *)
Definition tcd_rollover_behind : tcd :=
  set_presentTime (mkClock 2049 12 31 0 0 (-7950))
    (set_tr (mkTravel 1440 false 0 false 0 0 0) tcd_rollover_ahead).

End Time.

(** ** The keypad ([tc_keypad.cpp]) *)

Module Keypad.
Import Codec Clock Time.

Definition DATELEN_ALL : Z := 12.
Definition DATELEN_REM : Z := 10.
Definition DATELEN_DATE : Z := 8.
Definition DATELEN_QALM : Z := 6.
Definition DATELEN_INT : Z := 5.
Definition DATELEN_TIME : Z := 4.
Definition DATELEN_CODE : Z := 3.
Definition DATELEN_ALSH : Z := 2.
Definition DATELEN_CMIN : Z := DATELEN_ALSH.
Definition DATELEN_CMAX : Z := DATELEN_QALM.
Definition DATELEN_MAX : Z := DATELEN_ALL.

Definition BADDATE_DELAY : Z := 400.
(** 600 unless [TWSOUND] is defined. *)
Definition ENTER_DELAY : Z := 600.
Definition EE2_DELAY : Z := 600.
Definition EE3_DELAY : Z := 500.
Definition EE4_DELAY : Z := 3000.

(** The statics of [tc_keypad.cpp]; [dateBuffer] is
    [char dateBuffer[DATELEN_MAX + 2]]. *)
Record keypad : Type := mkKeypad {
  dateBuffer : list Z;
  dateIndex : Z;
  lastKeyPressed : Z;
  isEnterKeyPressed : bool;
  enterWasPressed : bool;
  needDepTime : bool;
  timeNow : Z;
  enterDelay : Z
}.

(** Globals of other files that the entry logic writes. *)
Record display : Type := mkDisplay {
  specDisp : Z; destShowAlt : Z; depShowAlt : Z
}.
Record alarm : Type := mkAlarm {
  alarmHour : Z; alarmMinute : Z; alarmOnOff : bool
}.
Record reminder : Type := mkReminder {
  remMonth : Z; remDay : Z; remHour : Z; remMin : Z
}.
Record countdown : Type := mkCountdown { ctDown : Z; ctDownNow : Z }.
Record beep : Type := mkBeep {
  muteBeep : bool; beepMode : Z; beepTimer : bool; beepTimerNow : Z;
  beepTimeout : Z
}.

Record device : Type := mkDevice {
  kp : keypad;
  disp : display;
  al : alarm;
  rem : reminder;
  cdn : countdown;
  bp : beep;
  tc : tcd
}.

Definition set_kp (x : keypad) (d : device) : device :=
  mkDevice x (disp d) (al d) (rem d) (cdn d) (bp d) (tc d).
Definition set_disp (x : display) (d : device) : device :=
  mkDevice (kp d) x (al d) (rem d) (cdn d) (bp d) (tc d).
Definition set_al (x : alarm) (d : device) : device :=
  mkDevice (kp d) (disp d) x (rem d) (cdn d) (bp d) (tc d).
Definition set_rem (x : reminder) (d : device) : device :=
  mkDevice (kp d) (disp d) (al d) x (cdn d) (bp d) (tc d).
Definition set_cdn (x : countdown) (d : device) : device :=
  mkDevice (kp d) (disp d) (al d) (rem d) x (bp d) (tc d).
Definition set_bp (x : beep) (d : device) : device :=
  mkDevice (kp d) (disp d) (al d) (rem d) (cdn d) x (tc d).
Definition set_tc (x : tcd) (d : device) : device :=
  mkDevice (kp d) (disp d) (al d) (rem d) (cdn d) (bp d) x.

Definition call (name : string) (d : device) : device :=
  set_tc (emit (Call name) (tc d)) d.
Definition play_file (name : string) (d : device) : device :=
  set_tc (emit (PlayFile name) (tc d)) d.

Definition set_specDisp (v : Z) (d : device) : device :=
  set_disp (mkDisplay v (destShowAlt (disp d)) (depShowAlt (disp d))) d.
Definition reset_ShowAlt (d : device) : device :=
  set_disp (mkDisplay (specDisp (disp d)) 0 0) d.
Definition set_enterDelay (v : Z) (d : device) : device :=
  let k := kp d in
  set_kp (mkKeypad (dateBuffer k) (dateIndex k) (lastKeyPressed k)
                   (isEnterKeyPressed k) (enterWasPressed k) (needDepTime k)
                   (timeNow k) v) d.
Definition set_needDepTime (v : bool) (d : device) : device :=
  let k := kp d in
  set_kp (mkKeypad (dateBuffer k) (dateIndex k) (lastKeyPressed k)
                   (isEnterKeyPressed k) (enterWasPressed k) v
                   (timeNow k) (enterDelay k)) d.
Definition set_destination (c : clockDisplay) (d : device) : device :=
  set_tc (set_destinationTime c (tc d)) d.
Definition set_departed (c : clockDisplay) (d : device) : device :=
  set_tc (set_departedTime c (tc d)) d.

(** What the entry logic asks of its collaborators.  The answers of
    functions that are not among the sources are given per call site
    ([setup_isWcMode] is [isWcMode()] as [setupWCMode] sees it, after the
    toggling).  [getHrs1KYrs] is a function of another file, and so are the
    loads of a clock from storage and [setDatesTimesWC], which puts the world
    clock times into the destination and the departed clock (the two [wc_]
    functions); [BEEPM2_SECS] and [BEEPM3_SECS] are macros of a header.
    [TC_HAVETEMP] is the compile-time switch of that name; the text on the
    displays and the speedometer ([TC_HAVESPEEDO]) are left out. *)
Record kenv : Type := mkKenv {
  te : env;
  TC_HAVETEMP : bool;
  haveMusic : bool;
  mpActive : bool;
  haveRcMode : bool;
  haveWcMode : bool;
  WcHaveTZ1 : bool;
  WcHaveTZ2 : bool;
  isRcMode : bool;
  isWcMode : bool;
  setup_isWcMode : bool;
  haveHum : bool;
  getHrs1KYrs : Z -> Z;
  load_destinationTime : clockDisplay -> clockDisplay;
  load_departedTime : clockDisplay -> clockDisplay;
  wc_destinationTime : clockDisplay -> clockDisplay;
  wc_departedTime : clockDisplay -> clockDisplay;
  BEEPM2_SECS : Z;
  BEEPM3_SECS : Z
}.

(** A store into a C array. *)
Definition store (buf : list Z) (i v : Z) : result (list Z) :=
  if (0 <=? i) && (i <? Z.of_nat (length buf)) then
    Ok (<[Z.to_nat i := v]> buf)
  else OutOfBounds.

(** [strlen]: the index of the first NUL, if the array holds one. *)
Fixpoint strlen_from (n : Z) (buf : list Z) : result Z :=
  match buf with
  | [] => OutOfBounds
  | c :: rest => if c =? 0 then Ok n else strlen_from (n + 1) rest
  end.
Definition strlen (buf : list Z) : result Z := strlen_from 0 buf.

(** [atoi]: white space, an optional sign, then decimal digits. *)
Definition isspace (c : Z) : bool := (c =? 32) || ((9 <=? c) && (c <=? 13)).
Definition isdigit (c : Z) : bool := (48 <=? c) && (c <=? 57).

Fixpoint atoi_digits (acc : Z) (buf : list Z) : Z :=
  match buf with
  | c :: rest => if isdigit c then atoi_digits (acc * 10 + (c - 48)) rest
                 else acc
  | [] => acc
  end.
Fixpoint atoi (buf : list Z) : Z :=
  match buf with
  | c :: rest =>
      if isspace c then atoi rest
      else if c =? 45 then - atoi_digits 0 rest
      else if c =? 43 then atoi_digits 0 rest
      else atoi_digits 0 buf
  | [] => 0
  end.

(** [strncmp(buf, lit, n) == 0] for a literal of [n] characters none of
    which is NUL. *)
Definition starts_with (lit buf : list Z) : bool :=
  bool_decide (take (length lit) buf = lit).

(** The character codes of a string of keypad characters. *)
Definition chars (s : string) : list Z :=
  map (fun a => Z.of_nat (Ascii.nat_of_ascii a)) (list_ascii_of_string s).

(** [static void recordKey(char key)] *)
Definition recordKey (now key : Z) (k : keypad) : result keypad :=
  buf <- store (dateBuffer k) (dateIndex k) key ;;
  let idx := dateIndex k + 1 in
  buf <- store buf idx 0 ;;
  let idx := if idx >=? DATELEN_MAX then DATELEN_MAX - 1 else idx in
  Ok (mkKeypad buf idx now (isEnterKeyPressed k) (enterWasPressed k)
               (needDepTime k) (timeNow k) (enterDelay k)).

(** [static uint8_t read2digs(uint8_t idx)] *)
Definition read2digs (buf : list Z) (idx : Z) : result Z :=
  c0 <- index buf idx ;;
  c1 <- index buf (idx + 1) ;;
  Ok (wrap8 ((c0 - 48) * 10 + (c1 - 48))).

(** The first statement of [keypad_loop] after the scan: "Discard keypad
    input after 2 minutes of inactivity". *)
Definition keypad_loop_discard (now : Z) (k : keypad) : result keypad :=
  if wrap32 (now - lastKeyPressed k) >=? 2 * 60 * 1000 then
    buf <- store (dateBuffer k) 0 0 ;;
    Ok (mkKeypad buf 0 (lastKeyPressed k) (isEnterKeyPressed k)
                 (enterWasPressed k) (needDepTime k) (timeNow k)
                 (enterDelay k))
  else Ok k.

(** [void setBeepMode(int mode)] *)
Definition setBeepMode (e : kenv) (mode : Z) (b : beep) : beep :=
  if mode =? 0 then mkBeep true 0 false (beepTimerNow b) (beepTimeout b)
  else if mode =? 1 then mkBeep false 1 false (beepTimerNow b) (beepTimeout b)
  else if mode =? 2 then
    let b := if beepMode b =? 1
             then mkBeep (muteBeep b) (beepMode b) true (millis (te e))
                         (beepTimeout b)
             else b in
    mkBeep (muteBeep b) 2 (beepTimer b) (beepTimerNow b) (BEEPM2_SECS e * 1000)
  else if mode =? 3 then
    let b := if beepMode b =? 1
             then mkBeep (muteBeep b) (beepMode b) true (millis (te e))
                         (beepTimeout b)
             else b in
    mkBeep (muteBeep b) 3 (beepTimer b) (beepTimerNow b) (BEEPM3_SECS e * 1000)
  else b.

(** [void startBeepTimer()] *)
Definition startBeepTimer (e : kenv) (b : beep) : beep :=
  if beepMode b >=? 2 then
    mkBeep false (beepMode b) true (millis (te e)) (beepTimeout b)
  else b.

(** [static void setupWCMode()] *)
Definition setupWCMode (e : kenv) (d : device) : result device :=
  if setup_isWcMode e then
    let d := call "myrtcnow" d in
    let d := set_destination (wc_destinationTime e (destinationTime (tc d))) d in
    Ok (set_departed (wc_departedTime e (departedTime (tc d))) d)
  else if (interval (te e) =? 0)
          || (timetravelPersistent (te e)
              && checkIfAutoPaused (te e) (ai (tc d))) then
    let d := if WcHaveTZ1 e
             then set_destination
                    (load_destinationTime e (destinationTime (tc d))) d
             else d in
    let d := if WcHaveTZ2 e
             then set_departed (load_departedTime e (departedTime (tc d))) d
             else d in
    Ok d
  else
    d <- (if WcHaveTZ1 e then
            s <- preset destinationTimes (autoTime (ai (tc d))) ;;
            Ok (set_destination (setFromStruct s (destinationTime (tc d))) d)
          else Ok d) ;;
    (if WcHaveTZ2 e then
       s <- preset departedTimes (autoTime (ai (tc d))) ;;
       Ok (set_departed (setFromStruct s (departedTime (tc d))) d)
     else Ok d).

(** What a branch of the entry logic leaves behind: the device, the two
    flags [validEntry] and [invalidEntry], and whether
    [enterInterruptsMusic] is [PA_INTRMUS] (a non-zero flag) rather than 0;
    or the restart of the device. *)
Inductive branch : Type :=
| Continue (d : device) (validEntry invalidEntry enterInterruptsMusic : bool)
| Restart (d : device).

Definition show_status (d : device) : device :=
  set_specDisp 10 (call "destinationTime.showTextDirect" d).

(** The branch [strLen == DATELEN_ALSH]: the status queries. *)
Definition enter_2digits (e : kenv) (d : device) : branch :=
  let code := wrap8 (atoi (dateBuffer (kp d))) in
  if code =? 11 then
    Continue (show_status (call "getAlarm" d)) true false false
  else if code =? 44 then Continue (show_status d) true false false
  else if code =? 77 then Continue (show_status d) true false false
  else if ((code =? 88) || (code =? 55)) && haveMusic e then
    Continue (show_status d) true false false
  else Continue d false true false.

(** The branch [strLen == DATELEN_CODE]: the special codes. *)
Definition enter_3digits (e : kenv) (d : device) : result branch :=
  let code := wrap16 (atoi (dateBuffer (kp d))) in
  let code := if (code =? 113) && (negb (haveRcMode e) || negb (haveWcMode e))
              then (if haveRcMode e then 111 else 112) else code in
  if (code =? 111) && TC_HAVETEMP e then
    if haveRcMode e then
      let d := call "toggleRcMode" d in
      let d := if haveHum e || isWcMode e
               then set_needDepTime true (call "departedTime.off" d) else d in
      Ok (Continue d true false false)
    else Ok (Continue d false true false)
  else if code =? 112 then
    if haveWcMode e then
      let d := call "toggleWcMode" d in
      let d := if WcHaveTZ2 e || isRcMode e
               then set_needDepTime true (call "departedTime.off" d) else d in
      d <- setupWCMode e d ;;
      Ok (Continue (reset_ShowAlt d) true false false)
    else Ok (Continue d false true false)
  else if code =? 113 then
    let d := set_needDepTime true (call "departedTime.off" d) in
    let d := call "toggleRcMode" d in
    let d := call "enableWcMode" d in
    d <- setupWCMode e d ;;
    Ok (Continue (reset_ShowAlt d) true false false)
  else if (code =? 222) || (code =? 555) then
    if haveMusic e then
      Ok (Continue (show_status (call "mp_makeShuffle" d)) true false false)
    else Ok (Continue d false true false)
  else if code =? 888 then
    if haveMusic e then
      Ok (Continue (show_status (call "mp_gotonum" d)) true false false)
    else Ok (Continue d false true false)
  else if code =? 440 then
    let d := call "destinationTime.showTextDirect" d in
    let d := set_cdn (mkCountdown 0 (ctDownNow (cdn d))) d in
    Ok (Continue (set_specDisp 10 d) true false false)
  else if code =? 770 then
    let d := set_rem (mkReminder 0 0 0 0) d in
    let d := call "saveReminder" d in
    Ok (Continue (show_status d) true false false)
  else if code =? 777 then
    Ok (Continue (show_status d) true false false)
  else if (code =? 0) || (code =? 1) || (code =? 2) || (code =? 3) then
    let d := set_bp (setBeepMode e code (bp d)) d in
    let d := call "destinationTime.showTextDirect" d in
    let d := set_enterDelay ENTER_DELAY d in
    Ok (Continue (set_specDisp 10 d) false false false)
  else Ok (Continue d false true false).

(** The branch [strLen == DATELEN_INT]: the restart code. *)
Definition enter_5digits (e : kenv) (d : device) : branch :=
  if starts_with (chars "64738") (dateBuffer (kp d)) then
    let d := call "allOff" (call "stopAudio" (call "mp_stop" d)) in
    let d := call "destinationTime.resetBrightness" d in
    let d := call "destinationTime.showTextDirect" d in
    let d := call "destinationTime.on" d in
    let d := call "delay" d in
    let d := call "digitalWrite(WHITE_LED_PIN, LOW)" d in
    Restart (call "esp_restart" d)
  else Continue d false true false.

(** The branch [strLen == DATELEN_QALM]: alarm, reminder date, song. *)
Definition enter_6digits (e : kenv) (d : device) : result branch :=
  let buf := dateBuffer (kp d) in
  code <- read2digs buf 0 ;;
  if code =? 11 then
    aHour <- read2digs buf 2 ;;
    aMin <- read2digs buf 4 ;;
    if (aHour <=? 23) && (aMin <=? 59) then
      let a := al d in
      let d := if negb (alarmHour a =? aHour) || negb (alarmMinute a =? aMin)
                  || negb (alarmOnOff a)
               then call "saveAlarm" (set_al (mkAlarm aHour aMin true) d)
               else d in
      Ok (Continue (show_status d) true false false)
    else Ok (Continue d false true false)
  else if code =? 77 then
    sMon <- read2digs buf 2 ;;
    sDay <- read2digs buf 4 ;;
    if (sMon <=? 12) && ((sDay >=? 1) && (sDay <=? 31)) then
      dim <- (if sMon =? 0 then Ok 0 else daysInMonth sMon 2000) ;;
      if (sMon =? 0) || (sDay <=? dim) then
        let r := rem d in
        let d := if negb (remMonth r =? sMon) || negb (remDay r =? sDay) then
                   let remHour' := if (remHour r =? 0) && (remMin r =? 0)
                                   then 9 else remHour r in
                   call "saveReminder"
                     (set_rem (mkReminder sMon sDay remHour' (remMin r)) d)
                 else d in
        Ok (Continue (show_status d) true false false)
      else Ok (Continue d false true false)
    else Ok (Continue d false true false)
  else if haveMusic e && starts_with (chars "888") buf then
    c3 <- index buf 3 ;;
    lo <- read2digs buf 4 ;;
    let num := wrap16 ((c3 - 48) * 100 + lo) in
    Ok (Continue (show_status (call "mp_gotonum" d)) true false false)
  else Ok (Continue d false true false).

(** The branch [strLen == DATELEN_TIME && read2digs(0) == 44]: the
    countdown timer. *)
Definition enter_timer (e : kenv) (d : device) : result branch :=
  mins <- read2digs (dateBuffer (kp d)) 2 ;;
  let d := if mins =? 0 then set_cdn (mkCountdown 0 (ctDownNow (cdn d))) d
           else set_cdn (mkCountdown (mins * 60 * 1000) (millis (te e))) d in
  Ok (Continue (show_status d) true false false).

(** The branch [strLen == DATELEN_REM]: the full reminder. *)
Definition enter_10digits (e : kenv) (d : device) : result branch :=
  let buf := dateBuffer (kp d) in
  code <- read2digs buf 0 ;;
  if code =? 77 then
    sMon <- read2digs buf 2 ;;
    sDay <- read2digs buf 4 ;;
    sHour <- read2digs buf 6 ;;
    sMin <- read2digs buf 8 ;;
    if (sMon <=? 12) && ((sDay >=? 1) && (sDay <=? 31)) && (sHour <=? 23)
       && (sMin <=? 59) then
      dim <- (if sMon =? 0 then Ok 0 else daysInMonth sMon 2000) ;;
      if (sMon =? 0) || (sDay <=? dim) then
        let r := rem d in
        let d := if negb (remMonth r =? sMon) || negb (remDay r =? sDay)
                    || negb (remHour r =? sHour) || negb (remMin r =? sMin)
                 then call "saveReminder"
                        (set_rem (mkReminder sMon sDay sHour sMin) d)
                 else d in
        Ok (Continue (show_status d) true false false)
      else Ok (Continue d false true false)
    else Ok (Continue d false true false)
  else Ok (Continue d false true false).

(** The fields a date or time entry is parsed into; [-1] stands for "not
    entered". *)
Record parsed : Type := mkParsed {
  _setMonth : Z; _setDay : Z; _setYear : Z; _setHour : Z; _setMin : Z;
  special : Z
}.

(** The parsing of the last branch: two digits a field, the month and the
    day brought into range, the table of special dates consulted. *)
Definition parse_date (e : kenv) (strLen : Z) (buf : list Z) : result parsed :=
  temp1 <- read2digs buf 0 ;;
  temp2 <- read2digs buf 2 ;;
  if strLen =? DATELEN_TIME then
    Ok (mkParsed (-1) (-1) (-1) temp1 temp2 0)
  else
    let _setMonth := temp1 in
    let _setDay := temp2 in
    hi <- read2digs buf 4 ;;
    lo <- read2digs buf 6 ;;
    let _setYear := hi * 100 + lo in
    hm <- (if strLen =? DATELEN_ALL then
             h <- read2digs buf 8 ;;
             m <- read2digs buf 10 ;;
             Ok (h, m)
           else Ok (-1, -1)) ;;
    let _setHour := fst hm in
    let _setMin := snd hm in
    let _setMonth := if _setMonth <? 1 then 1 else _setMonth in
    let _setMonth := if _setMonth >? 12 then 12 else _setMonth in
    let _setDay := if _setDay <? 1 then 1 else _setDay in
    dim <- daysInMonth _setMonth _setYear ;;
    let _setDay := if _setDay >? dim then dim else _setDay in
    let spTmp := wrap32 (Z.lor (Z.lor (Z.shiftl _setYear 16)
                                      (Z.shiftl _setMonth 8)) _setDay) in
    let special :=
      if Z.lxor spTmp (getHrs1KYrs e 7) =? 70667637 then 1
      else if Z.lxor spTmp (getHrs1KYrs e 8) =? 59572453 then
        (if (_setHour >=? 9) && (_setHour <=? 12) then 2 else 0)
      else if Z.lxor spTmp (getHrs1KYrs e 6) =? 97681642 then 3
      else if Z.lxor spTmp (getHrs1KYrs e 8) =? 65998071 then 4
      else 0 in
    Ok (mkParsed _setMonth _setDay _setYear _setHour _setMin special).

(** "Copy date to destination time". *)
Definition copy_to_destination (p : parsed) (c : clockDisplay) : clockDisplay :=
  let c := if _setYear p >=? 0 then setYear (_setYear p) c else c in
  let c := if _setMonth p >? 0 then setMonth (_setMonth p) c else c in
  let c := if _setDay p >? 0 then setDay (_setDay p) c else c in
  let c := if _setHour p >=? 0 then setHour (_setHour p) c else c in
  let c := if _setMin p >=? 0 then setMinute (_setMin p) c else c in
  c.

(** The last branch: a date, a date and time, or a time. *)
Definition enter_date (e : kenv) (strLen : Z) (d : device) : result branch :=
  p <- parse_date e strLen (dateBuffer (kp d)) ;;
  let '(d, validEntry) :=
    if special p =? 1 then
      (set_specDisp 1 (call "destinationTime.showTextDirect" d), true)
    else if special p =? 2 then
      (set_enterDelay EE2_DELAY (play_file "/ee2.mp3" d), false)
    else if special p =? 3 then
      (set_enterDelay EE3_DELAY (play_file "/ee3.mp3" d), false)
    else if special p =? 4 then
      (set_enterDelay EE4_DELAY (play_file "/ee4.mp3" d), false)
    else (d, true) in
  let d := set_destination (copy_to_destination p (destinationTime (tc d))) d in
  let d := if timetravelPersistent (te e)
           then call "destinationTime.save" d else d in
  let d := if TC_HAVETEMP e && isRcMode e && (haveHum e || isWcMode e)
           then set_needDepTime true (call "departedTime.off" d) else d in
  let d := call "enableRcMode" d in
  d <- (if isWcMode e && WcHaveTZ1 e then
          d <- (if WcHaveTZ2 e then
                  d <- (if (interval (te e) =? 0)
                           || (timetravelPersistent (te e)
                               && checkIfAutoPaused (te e) (ai (tc d)))
                        then Ok (set_departed
                                   (load_departedTime e (departedTime (tc d))) d)
                        else
                          s <- preset departedTimes (autoTime (ai (tc d))) ;;
                          Ok (set_departed
                                (setFromStruct s (departedTime (tc d))) d)) ;;
                  Ok (set_needDepTime true (call "departedTime.off" d))
                else Ok d) ;;
          Ok (call "enableWcMode" d)
        else Ok d) ;;
  let d := set_tc (set_ai (pauseAuto (te e) (ai (tc d))) (tc d)) d in
  let d := set_bp (startBeepTimer e (bp d)) d in
  Ok (Continue d validEntry false true).

(** The choice of the branch by the length of the entry. *)
Definition enter_dispatch (e : kenv) (strLen : Z) (d : device) : result branch :=
  if negb (strLen =? DATELEN_ALL) && negb (strLen =? DATELEN_REM)
     && negb (strLen =? DATELEN_DATE)
     && ((strLen <? DATELEN_CMIN) || (strLen >? DATELEN_CMAX)) then
    Ok (Continue d false true false)
  else if strLen =? DATELEN_ALSH then Ok (enter_2digits e d)
  else if strLen =? DATELEN_CODE then enter_3digits e d
  else if strLen =? DATELEN_INT then Ok (enter_5digits e d)
  else if strLen =? DATELEN_QALM then enter_6digits e d
  else if strLen =? DATELEN_TIME then
    code <- read2digs (dateBuffer (kp d)) 0 ;;
    if code =? 44 then enter_timer e d else enter_date e strLen d
  else if strLen =? DATELEN_REM then enter_10digits e d
  else enter_date e strLen d.

(** How a pass through the entry logic ends. *)
Inductive outcome : Type :=
| Returned (d : device) (validEntry invalidEntry : bool)
| Restarted (d : device).

(** The block [if(isEnterKeyPressed) { ... }] of [keypad_loop]. *)
Definition keypad_loop_enter (e : kenv) (d : device) : result outcome :=
  strLen <- strlen (dateBuffer (kp d)) ;;
  let k := kp d in
  let d := set_kp (mkKeypad (dateBuffer k) (dateIndex k) (lastKeyPressed k)
                            false true (needDepTime k) (timeNow k)
                            (enterDelay k)) d in
  let d := call "cancelETTAnim" d in
  let d := call "digitalWrite(WHITE_LED_PIN, HIGH)" d in
  let d := call "destinationTime.off" d in
  let k := kp d in
  let d := set_kp (mkKeypad (dateBuffer k) (dateIndex k) (lastKeyPressed k)
                            (isEnterKeyPressed k) (enterWasPressed k)
                            (needDepTime k) (millis (te e)) (enterDelay k)) d in
  b <- enter_dispatch e strLen d ;;
  match b with
  | Restart d => Ok (Restarted d)
  | Continue d validEntry invalidEntry enterInterruptsMusic =>
      let d :=
        if validEntry then
          set_enterDelay ENTER_DELAY (play_file "/enter.mp3" d)
        else if invalidEntry then
          let d := set_enterDelay BADDATE_DELAY (play_file "/baddate.mp3" d) in
          if negb enterInterruptsMusic && mpActive e
          then set_specDisp 10 (call "destinationTime.showTextDirect" d)
          else d
        else d in
      let k := kp d in
      buf <- store (dateBuffer k) 0 0 ;;
      let d := set_kp (mkKeypad buf 0 (lastKeyPressed k) (isEnterKeyPressed k)
                                (enterWasPressed k) (needDepTime k) (timeNow k)
                                (enterDelay k)) d in
      Ok (Returned d validEntry invalidEntry)
  end.

(** The keypad after [keypad_setup]: an empty buffer. *)
Definition keypad0 : keypad :=
  mkKeypad (replicate 14 0) 0 0 false false false 0 0.

(** A key press, an idle pass of the loop, and a pass with the enter key
    pressed, as the keypad meets them one after the other.  After a restart
    the statics of the keypad are initialised anew. *)
Inductive input : Type :=
| Key (now key : Z)
| Idle (now : Z)
| Enter (e : kenv).

Definition step (i : input) (d : device) : result device :=
  match i with
  | Key now key => k <- recordKey now key (kp d) ;; Ok (set_kp k d)
  | Idle now => k <- keypad_loop_discard now (kp d) ;; Ok (set_kp k d)
  | Enter e =>
      k <- keypad_loop_discard (millis (te e)) (kp d) ;;
      o <- keypad_loop_enter e (set_kp k d) ;;
      match o with
      | Returned d _ _ => Ok d
      | Restarted d => Ok (set_kp keypad0 d)
      end
  end.

Fixpoint run (inputs : list input) (d : device) : result device :=
  match inputs with
  | [] => Ok d
  | i :: rest => d' <- step i d ;; run rest d'
  end.

Definition device0 : device :=
  mkDevice keypad0 (mkDisplay 0 0 0) (mkAlarm 0 0 false) (mkReminder 0 0 0 0)
           (mkCountdown 0 0) (mkBeep false 0 false 0 0) tcd0.

Definition kenv0 : kenv :=
  mkKenv env0 false false false false false false false false false false
         false (fun _ => 0) (fun c => c) (fun c => c) (fun c => c) (fun c => c)
         30 60.

(** The buffer holds a string of at most [DATELEN_MAX] characters whose
    NUL lies within the array, and the index is one of the array. *)
Definition buffer_ok (k : keypad) : Prop :=
  length (dateBuffer k) = 14%nat /\
  0 <= dateIndex k <= DATELEN_MAX - 1 /\
  exists n, strlen (dateBuffer k) = Ok n /\ 0 <= n <= DATELEN_MAX.

(** The buffer is empty. *)
Definition buffer_clear (k : keypad) : Prop :=
  strlen (dateBuffer k) = Ok 0 /\ dateIndex k = 0.

(** What a branch may do to the device: it keeps the buffer and the index
    of the presets, and leaves the device alone when it finds the entry
    invalid. *)
Definition branch_ok (d : device) (b : branch) : Prop :=
  match b with
  | Continue d' v i m =>
      dateBuffer (kp d') = dateBuffer (kp d) /\
      autoTime (ai (tc d')) = autoTime (ai (tc d)) /\
      (i = true -> d' = d /\ v = false /\ m = false)
  | Restart d' => autoTime (ai (tc d')) = autoTime (ai (tc d))
  end.

(** Whether a branch ends with the restart of the device. *)
Definition restarts (b : branch) : bool :=
  match b with
  | Restart _ => true
  | Continue _ _ _ _ => false
  end.

(** The calls every pass through the entry logic starts with. *)
Definition enter_prelude : list event :=
  [Call "cancelETTAnim"; Call "digitalWrite(WHITE_LED_PIN, HIGH)";
   Call "destinationTime.off"].

(** What is left of the device [d] in [d'] after an entry that was found
    invalid: the clocks, the offset, the rotation, the alarm, the reminder,
    the countdown and the beep mode are the ones of [d], and the calls made
    are the prelude, the error sound and, with the music player active, the
    error text. *)
Definition rejected (e : kenv) (d d' : device) : Prop :=
  presentTime (tc d') = presentTime (tc d) /\
  destinationTime (tc d') = destinationTime (tc d) /\
  departedTime (tc d') = departedTime (tc d) /\
  tr (tc d') = tr (tc d) /\ ai (tc d') = ai (tc d) /\
  rtc (tc d') = rtc (tc d) /\
  al d' = al d /\ rem d' = rem d /\ cdn d' = cdn d /\ bp d' = bp d /\
  log (tc d') = log (tc d) ++ enter_prelude ++ [PlayFile "/baddate.mp3"]
                ++ (if mpActive e then [Call "destinationTime.showTextDirect"]
                    else []).

(** What a pass through the entry logic leaves to look at: the two flags,
    the destination clock and the calls made. *)
Definition observe (o : outcome)
  : result (bool * bool * clockDisplay * list event) :=
  match o with
  | Returned d v i => Ok (v, i, destinationTime (tc d), log (tc d))
  | Restarted _ => OutOfBounds
  end.

(** The device with the alarm entry "119960" (hour 99, minute 60) in the
    buffer. *)
Definition device_119960 : device :=
  mkDevice (mkKeypad (chars "119960" ++ replicate 8 0) 6 0 false false false
                     0 0)
           (mkDisplay 0 0 0) (mkAlarm 0 0 false) (mkReminder 0 0 0 0)
           (mkCountdown 0 0) (mkBeep false 0 false 0 0) tcd0.

(** The device with the characters of [s] typed in. *)
Definition typed (s : string) (d : device) : result device :=
  run (map (Key 0) (chars s)) d.

End Keypad.

(** ** String helpers of the configuration portal ([tc_wifi.cpp]) *)

Module Wifi.

(** A C string is given by the array it lives in, from the pointer on;
    [*str] is the head, [str++] the tail, and reading behind the array is
    [OutOfBounds]. *)

(** The loop of [static bool isIp(char *str)] with its three counters.
    [num] never exceeds 2559, so the [int] arithmetic does not wrap. *)
Fixpoint isIp_loop (str : list Z) (segs digcnt num : Z) : result bool :=
  match str with
  | [] => OutOfBounds
  | c :: rest =>
      if c =? 0 then Ok true
      else if c =? 46 then
        if (digcnt =? 0) || (segs + 1 =? 4) then Ok false
        else isIp_loop rest (segs + 1) 0 0
      else if (c <? 48) || (c >? 57) then Ok false
      else
        let num := num * 10 + (c - 48) in
        if num >? 255 then Ok false
        else isIp_loop rest segs (digcnt + 1) num
  end.

(** [static bool isIp(char *str)] *)
Definition isIp (str : list Z) : result bool := isIp_loop str 0 0 0.

(** What [%d] prints for a [uint8_t]. *)
Definition sprintf_d (n : Z) : list Z :=
  if n <? 10 then [48 + n]
  else if n <? 100 then [48 + n / 10; 48 + n mod 10]
  else [48 + n / 100; 48 + n / 10 mod 10; 48 + n mod 10].

(** [static void ipToString(char *str, IPAddress ip)]: the characters
    [sprintf(str, "%d.%d.%d.%d", ip[0], ip[1], ip[2], ip[3])] writes,
    the NUL included. *)
Definition ipToString (ip : Z * Z * Z * Z) : list Z :=
  let '(a, b, c, d) := ip in
  sprintf_d a ++ [46] ++ sprintf_d b ++ [46] ++ sprintf_d c ++ [46]
  ++ sprintf_d d ++ [0].

(** [static bool myisspace(char mychar)] *)
Definition myisspace (mychar : Z) : bool :=
  (mychar =? 32) || (mychar =? 10) || (mychar =? 9) || (mychar =? 11)
  || (mychar =? 12) || (mychar =? 13).

(** [static bool myisgoodchar(char mychar)] *)
Definition myisgoodchar (mychar : Z) : bool :=
  ((mychar >=? 48) && (mychar <=? 57)) || ((mychar >=? 97) && (mychar <=? 122))
  || ((mychar >=? 65) && (mychar <=? 90)) || (mychar =? 45).

(** [static bool myisgoodchar2(char mychar)] *)
Definition myisgoodchar2 (mychar : Z) : bool := mychar =? 32.

(** A store into the destination array. *)
Definition poke (buf : list Z) (i v : Z) : result (list Z) :=
  if (0 <=? i) && (i <? Z.of_nat (length buf)) then
    Ok (<[Z.to_nat i := v]> buf)
  else OutOfBounds.

(** The loop [do { if keep then *destination++ = *source; source++; }
    while *source] that [strcpytrim] and [strcpyfilter] share but for the
    test [keep] on [*source]; [di] is how far [destination] has moved.  The
    body runs before the first test, so the first character is looked at
    even when it is the NUL. *)
Fixpoint copy_loop (keep : Z -> bool) (source dest : list Z) (di : Z)
  : result (list Z * Z) :=
  match source with
  | [] => OutOfBounds
  | c :: rest =>
      r <- (if keep c then
              dest' <- poke dest di c ;; Ok (dest', di + 1)
            else Ok (dest, di)) ;;
      match rest with
      | [] => OutOfBounds
      | c' :: _ =>
          if negb (c' =? 0) then copy_loop keep rest (fst r) (snd r)
          else Ok r
      end
  end.

(** The test of [strcpytrim]. *)
Definition trim_keep (doFilter : bool) (c : Z) : bool :=
  negb (myisspace c) && (negb doFilter || myisgoodchar c).

(** The test of [strcpyfilter]. *)
Definition filter_keep (c : Z) : bool := myisgoodchar c || myisgoodchar2 c.

(** [static char* strcpytrim(char* destination, const char* source,
                             bool doFilter)]; the result is the
    destination array. *)
Definition strcpytrim (destination source : list Z) (doFilter : bool)
  : result (list Z) :=
  r <- copy_loop (trim_keep doFilter) source destination 0 ;;
  poke (fst r) (snd r) 0.

(** [static char* strcpyfilter(char* destination, const char* source)] *)
Definition strcpyfilter (destination source : list Z) : result (list Z) :=
  r <- copy_loop filter_keep source destination 0 ;;
  poke (fst r) (snd r) 0.

(** The characters of a C string: what stands before the first NUL. *)
Fixpoint c_str (buf : list Z) : list Z :=
  match buf with
  | [] => []
  | c :: rest => if c =? 0 then [] else c :: c_str rest
  end.

(** What the copy loop looks at: the first character, whatever it is, and
    the ones after it up to the next NUL. *)
Definition scanned (source : list Z) : list Z :=
  match source with
  | [] => []
  | c :: rest => c :: c_str rest
  end.

(** The number of dots in a string. *)
Definition dots (s : list Z) : nat := length (filter (fun c => c = 46) s).

(** The decimal value of a run of digits, read from the left with [num]
    already read. *)
Definition value_from (num : Z) (g : list Z) : Z :=
  fold_left (fun n c => n * 10 + (c - 48)) g num.
Definition value (g : list Z) : Z := value_from 0 g.

(** The fields [gs] put one after the other with a dot between two of
    them. *)
Fixpoint join_dots (gs : list (list Z)) : list Z :=
  match gs with
  | [] => []
  | [g] => g
  | g :: rest => g ++ 46 :: join_dots rest
  end.

Definition is_digit (c : Z) : bool := (48 <=? c) && (c <=? 57).

(** One to four fields of digits worth 255 at most each, none but the last
    of them empty. *)
Definition dotted_fields (gs : list (list Z)) : Prop :=
  (1 <= length gs <= 4)%nat /\
  Forall (fun g => forallb is_digit g = true /\ value g <= 255) gs /\
  Forall (fun g => g <> []) (removelast gs).

End Wifi.

(** ** More of [tc_time.cpp]: the return from a time travel, the travel
       sequence, the reading of the hardware clock, the sounds *)

Module TimeLoop.
Import Codec Clock Time.

(** [void resetPresentTime()] *)
Definition resetPresentTime (e : env) (s : tcd) : tcd :=
  let t := tr s in
  let s := set_tr (mkTravel (timeDifference t) (timeDiffUp t) (millis e) true
                            (timetravelP1Now t) (timetravelP1Delay t)
                            (timeTravelP1 t)) s in
  let s := if negb (timeDifference (tr s) =? 0)
           then emit (PlayFile "/timetravel.mp3") s else s in
  let s := emit (Call "allOff") s in
  let p := presentTime s in
  let s := set_departedTime
             (setYearOffset 0
               (setMinute (getMinute p)
                 (setHour (getHour p)
                   (setDay (getDay p)
                     (setMonth (getMonth p)
                       (setYear (getYear p - getYearOffset p)
                                (departedTime s))))))) s in
  let s := if timetravelPersistent e
           then emit (Call "departedTime.save") s else s in
  let t := tr s in
  let s := set_tr (mkTravel 0 (timeDiffUp t) (timetravelNow t) (timeTraveled t)
                            (timetravelP1Now t) (timetravelP1Delay t)
                            (timeTravelP1 t)) s in
  let s := if timetravelPersistent e
           then emit (Call "presentTime.save") s else s in
  s.

(** What [time_loop] reads besides [env]: the delays of the travel
    sequence, macros of a header that is not among the sources. *)
Record loop_env : Type := mkLoopEnv {
  le : env;
  TT_P1_DELAY_P2 : Z;
  TT_P1_DELAY_P3 : Z;
  TT_P1_DELAY_P4 : Z;
  TT_P1_DELAY_P5 : Z;
  TIMETRAVEL_DELAY : Z
}.

Definition set_P1 (now delay phase : Z) (s : tcd) : tcd :=
  let t := tr s in
  set_tr (mkTravel (timeDifference t) (timeDiffUp t) (timetravelNow t)
                   (timeTraveled t) now delay phase) s.

(** The blocks "Time travel animation" and "Turn display back on after
    time traveling" of [time_loop]. *)
Definition time_loop_travel (e : loop_env) (s : tcd) : result tcd :=
  let now := millis (le e) in
  let t := tr s in
  s <- (if negb (timeTravelP1 t =? 0)
           && (wrap32 (now - timetravelP1Now t) >=? timetravelP1Delay t) then
          let phase := timeTravelP1 t + 1 in
          let s := set_P1 now (timetravelP1Delay t) phase s in
          if phase =? 2 then
            Ok (set_P1 now (TT_P1_DELAY_P2 e) phase (emit (Call "allOff") s))
          else if phase =? 3 then Ok (set_P1 now (TT_P1_DELAY_P3 e) phase s)
          else if phase =? 4 then Ok (set_P1 now (TT_P1_DELAY_P4 e) phase s)
          else if phase =? 5 then Ok (set_P1 now (TT_P1_DELAY_P5 e) phase s)
          else timeTravel (le e) false (set_P1 now (timetravelP1Delay t) 0 s)
        else Ok s) ;;
  let t := tr s in
  if timeTraveled t && (wrap32 (now - timetravelNow t) >=? TIMETRAVEL_DELAY e)
  then
    let s := emit (Call "animate") s in
    Ok (set_tr (mkTravel (timeDifference t) (timeDiffUp t) (timetravelNow t)
                         false (timetravelP1Now t) (timetravelP1Delay t)
                         (timeTravelP1 t)) s)
  else Ok s.

(** What runs between two runs of these blocks (the rest of the pass of
    [time_loop], its half-second block above all, and the rest of the main
    loop) is not modelled; [keeps_sequence s s'] says of it that it took
    [s] to [s'] without writing one of the five variables of the travel
    sequence. *)
Definition keeps_sequence (s s' : tcd) : Prop :=
  timeTravelP1 (tr s') = timeTravelP1 (tr s) /\
  timetravelP1Now (tr s') = timetravelP1Now (tr s) /\
  timetravelP1Delay (tr s') = timetravelP1Delay (tr s) /\
  timeTraveled (tr s') = timeTraveled (tr s) /\
  timetravelNow (tr s') = timetravelNow (tr s).

(** What the sequence leaves alone: the offset of the present time, the
    three clocks and the reading of the hardware clock. *)
Definition travel_frame (s s' : tcd) : Prop :=
  timeDifference (tr s') = timeDifference (tr s) /\
  timeDiffUp (tr s') = timeDiffUp (tr s) /\
  presentTime s' = presentTime s /\
  destinationTime s' = destinationTime s /\
  departedTime s' = departedTime s /\
  rtc s' = rtc s.

(** The delay a phase of the sequence starts with. *)
Definition phase_delay (e : loop_env) (phase : Z) : Z :=
  if phase =? 2 then TT_P1_DELAY_P2 e
  else if phase =? 3 then TT_P1_DELAY_P3 e
  else if phase =? 4 then TT_P1_DELAY_P4 e
  else TT_P1_DELAY_P5 e.

(** A store into an [int16_t]. *)
Definition wrap16s (x : Z) : Z := (x + 2^15) mod 2^16 - 2^15.

(** The loop [while(newYear > 2050) { newYear -= 28; newYOffs -= 28; }] of
    [getNTPTime] and, with other names, of [time_loop]; [newYear] is a
    [uint16_t], [newYOffs] an [int16_t]. *)
Fixpoint year_window (fuel : nat) (newYear newYOffs : Z) : result (Z * Z) :=
  match fuel with
  | O => OutOfFuel
  | S fuel' =>
      if newYear >? 2050 then
        year_window fuel' (wrap16 (newYear - 28)) (wrap16s (newYOffs - 28))
      else Ok (newYear, newYOffs)
  end.

(** A [uint16_t] above 2050 is brought below in 2268 rounds at most. *)
Definition year_window_fuel : nat := Z.to_nat 2300.

(** The year [getNTPTime] writes to the hardware clock and the year offset
    it gives the present time, for the [tm_year] of the network time. *)
Definition getNTPTime_year (tm_year : Z) : result (Z * Z) :=
  year_window year_window_fuel (wrap16 (tm_year + 1900)) 0.

(** The same in the branch of [time_loop] taken when the network time is
    not to be had: for a year of the hardware clock above 2050, the year
    written back and the new offset; nothing otherwise. *)
Definition time_loop_year (dt_year : Z) : result (option (Z * Z)) :=
  let myYear := wrap16 dt_year in
  if myYear >? 2050 then
    r <- year_window year_window_fuel myYear 0 ;; Ok (Some r)
  else Ok None.

(** The test of [myrtcnow] on a reading. *)
Definition implausible (dt : DateTime) : bool :=
  (dt_month dt <? 1) || (dt_month dt >? 12) || (dt_day dt <? 1)
  || (dt_day dt >? 31) || (dt_hour dt >? 23) || (dt_minute dt <? 0)
  || (dt_minute dt >? 59).

(** The loop of [myrtcnow]; [rtc_now k] is what the [k]-th call of
    [rtc.now()] returns, [reads] the calls made so far, [delays] the
    arguments of [mydelay]. *)
Fixpoint myrtcnow_loop (fuel : nat) (rtc_now : nat -> DateTime) (reads : nat)
    (dt : DateTime) (retries : Z) (delays : list Z)
  : result (DateTime * Z * list Z) :=
  match fuel with
  | O => OutOfFuel
  | S fuel' =>
      if implausible dt && (retries <? 30) then
        let delays := delays ++ [if retries <? 5 then 50 else 100] in
        myrtcnow_loop fuel' rtc_now (S reads) (rtc_now reads) (retries + 1)
                      delays
      else Ok (dt, retries, delays)
  end.

(** [DateTime myrtcnow()], with the number of retries and the delays. *)
Definition myrtcnow (rtc_now : nat -> DateTime)
  : result (DateTime * Z * list Z) :=
  myrtcnow_loop 31 rtc_now 1 (rtc_now O) 0 [].

Definition sum (l : list Z) : Z := fold_right Z.add 0 l.

(** The flags of the hourly sound and of the alarm. *)
Record chimes : Type := mkChimes {
  hourlySoundDone : bool;
  alarmDone : bool
}.

(** What the sound block of [time_loop] reads: [alarmRTC] and [startup]
    of this file, the alarm (variables of another file) and the night
    mode of the present time display. *)
Record chime_env : Type := mkChimeEnv {
  ce : env;
  alarmRTC : bool;
  nightMode : bool;
  startup : bool;
  alarmOnOff : bool;
  alarmHour : Z;
  alarmMinute : Z
}.

(** The block of [time_loop] with the hourly sound and the alarm, entered
    with the reading [dt]. *)
Definition time_loop_sounds (e : chime_env) (dt : DateTime) (sc : tcd * chimes)
  : tcd * chimes :=
  let '(s, c) := sc in
  let compHour := if alarmRTC e then dt_hour dt else getHour (presentTime s) in
  let compMin := if alarmRTC e then dt_minute dt
                 else getMinute (presentTime s) in
  let '(s, c) :=
    if compMin =? 0 then
      let c := if nightMode e || negb (FPBUnitIsOn (ce e)) || startup e
                  || timeTraveled (tr s) || negb (timeTravelP1 (tr s) =? 0)
                  || (alarmOnOff e && (alarmHour e =? compHour)
                      && (alarmMinute e =? compMin))
               then mkChimes true (alarmDone c) else c in
      if negb (hourlySoundDone c)
      then (emit (PlayFile "/hour.mp3") s, mkChimes true (alarmDone c))
      else (s, c)
    else (s, mkChimes false (alarmDone c)) in
  if alarmOnOff e then
    if (alarmHour e =? compHour) && (alarmMinute e =? compMin) then
      if negb (alarmDone c)
      then (emit (PlayFile "/alarm.mp3") s, mkChimes (hourlySoundDone c) true)
      else (s, c)
    else (s, mkChimes (hourlySoundDone c) false)
  else (s, c).

(** The passes of the block made one after the other. *)
Fixpoint run_sounds (passes : list (chime_env * DateTime)) (sc : tcd * chimes)
  : tcd * chimes :=
  match passes with
  | [] => sc
  | (e, dt) :: rest => run_sounds rest (time_loop_sounds e dt sc)
  end.

(** How often the file [name] was played. *)
Definition is_play (name : string) (ev : event) : bool :=
  match ev with
  | PlayFile n => String.eqb n name
  | Call _ => false
  end.
Definition played (name : string) (l : list event) : nat :=
  length (List.filter (is_play name) l).

(** The time the block compares the alarm with. *)
Definition comp_time (e : chime_env) (dt : DateTime) (s : tcd) : Z * Z :=
  if alarmRTC e then (dt_hour dt, dt_minute dt)
  else (getHour (presentTime s), getMinute (presentTime s)).

(** The level last seen on the seconds pin and the seconds counted, the
    globals [x] and [timeout] (a [uint8_t]). *)
Record ticker : Type := mkTicker { tk_x : bool; timeout : Z }.

(** [bool checkTimeOut()], with [y] the level [digitalRead] returns and
    [maxTime] a macro of a header. *)
Definition checkTimeOut (maxTime : Z) (y : bool) (k : ticker) : ticker * bool :=
  let k := if negb (eqb (tk_x k) y) then
             mkTicker y (if negb y then wrap8 (timeout k + 1) else timeout k)
           else k in
  (k, timeout k >=? maxTime).

(** The calls of [checkTimeOut] made one after the other. *)
Fixpoint poll (maxTime : Z) (ys : list bool) (k : ticker) : ticker :=
  match ys with
  | [] => k
  | y :: rest => poll maxTime rest (fst (checkTimeOut maxTime y k))
  end.

(** The transitions from high to low in a run of levels that follows the
    level [x]. *)
Fixpoint falling_edges (x : bool) (ys : list bool) : Z :=
  match ys with
  | [] => 0
  | y :: rest => (if x && negb y then 1 else 0) + falling_edges y rest
  end.

(** What keeps the hourly sound from being played on a pass at minute 0. *)
Definition hour_blocked (e : chime_env) (dt : DateTime) (s : tcd) : bool :=
  nightMode e || negb (FPBUnitIsOn (ce e)) || startup e
  || timeTraveled (tr s) || negb (timeTravelP1 (tr s) =? 0)
  || (alarmOnOff e && (alarmHour e =? fst (comp_time e dt s))
      && (alarmMinute e =? snd (comp_time e dt s))).

End TimeLoop.

(** ** More of [tc_keypad.cpp]: the key events, the buffer of the menu,
       the displays after an entry *)

Module KeypadEvents.
Import Codec Clock Time Keypad.

Definition SPEC_DELAY : Z := 3000.
Definition EE1_DELAY2 : Z := 3000.
Definition EE1_DELAY3 : Z := 2000.

(** [bool keypadIsIdle()] *)
Definition keypadIsIdle (now : Z) (k : keypad) : bool :=
  (lastKeyPressed k =? 0) || (wrap32 (now - lastKeyPressed k) >=? 2 * 60 * 1000).

Definition set_entered (pressed : bool) (now delay : Z) (d : device) : device :=
  let k := kp d in
  set_kp (mkKeypad (dateBuffer k) (dateIndex k) (lastKeyPressed k)
                   (isEnterKeyPressed k) pressed (needDepTime k) now delay) d.

Definition clear_entered (d : device) : device :=
  let k := kp d in
  set_kp (mkKeypad (dateBuffer k) (dateIndex k) (lastKeyPressed k)
                   (isEnterKeyPressed k) false false (timeNow k)
                   (enterDelay k)) d.

(** The two steps of the animation that brings the displays back; [n] is
    1 or 2. *)
Definition show_animate (e : kenv) (n : string) (d : device) : device :=
  if TC_HAVETEMP e && isRcMode e then
    let d := if negb (isWcMode e) || negb (WcHaveTZ1 e)
             then call "destinationTime.showTempDirect" d
             else call ("destinationTime.showAnimate" ++ n) d in
    if needDepTime (kp d) then
      if isWcMode e && WcHaveTZ1 e then call "departedTime.showTempDirect" d
      else if negb (isWcMode e) && haveHum e
           then call "departedTime.showHumDirect" d
           else call ("departedTime.showAnimate" ++ n) d
    else d
  else
    let d := call ("destinationTime.showAnimate" ++ n) d in
    if needDepTime (kp d) then call ("departedTime.showAnimate" ++ n) d else d.

(** The end of the block below, [if(!specDisp) { ... }]: the animation,
    then the flags cleared. *)
Definition show_end (e : kenv) (d : device) : device :=
  let d := show_animate e "1" d in
  let d := call "mydelay" d in
  let d := show_animate e "2" d in
  let d := reset_ShowAlt d in
  let d := call "digitalWrite(WHITE_LED_PIN, LOW)" d in
  clear_entered d.

(** The block "Turn everything back on after entering date" of
    [keypad_loop]; the texts and the part under [TC_HAVEMQTT] are left
    out. *)
Definition keypad_loop_show (e : kenv) (d : device) : device :=
  let now := millis (te e) in
  if enterWasPressed (kp d)
     && (wrap32 (now - timeNow (kp d)) >? enterDelay (kp d)) then
    let sd := specDisp (disp d) in
    let d :=
      if sd =? 0 then d
      else if (sd =? 2) || (sd =? 10) then
        let d := set_specDisp (sd + 1) d in
        let d := if sd + 1 =? 3 then call "destinationTime.onCond" d
                 else call "destinationTime.on"
                        (call "destinationTime.resetBrightness" d) in
        let d := call "digitalWrite(WHITE_LED_PIN, LOW)" d in
        set_entered true now (if sd + 1 =? 3 then EE1_DELAY2 else SPEC_DELAY) d
      else if sd =? 3 then
        let d := set_specDisp (sd + 1) d in
        let d := call "destinationTime.showTextDirect" d in
        let d := set_entered true now EE1_DELAY3 d in
        play_file "/ee1.mp3" d
      else if (sd =? 4) || (sd =? 11) then set_specDisp 0 d
      else set_specDisp (sd + 1) d in
    if specDisp (disp d) =? 0 then show_end e d else d
  else d.


(** The values [specDisp] takes: 0 at rest, 10 and 11 while a text is
    shown, 1 to 4 during the sequence of the special date. *)
Definition specDisp_ok (sd : Z) : bool :=
  ((0 <=? sd) && (sd <=? 4)) || (sd =? 10) || (sd =? 11).

(** The passes of the block that it takes to bring the displays back. *)
Definition show_rank (sd : Z) : nat :=
  if sd =? 1 then 4 else if sd =? 2 then 3 else if sd =? 3 then 2
  else if sd =? 10 then 2 else 1.

(** [n] passes of the block, each made when the delay set before it was
    over. *)
Inductive shown : nat -> device -> device -> Prop :=
| shown_O d : shown O d d
| shown_S n e d d' :
    wrap32 (millis (te e) - timeNow (kp d)) > enterDelay (kp d) ->
    shown n (keypad_loop_show e d) d' ->
    shown (S n) d d'.

(** The state of a key the keypad driver reports; the enumeration is
    declared in the driver's header, and [keypadEvent] names three of its
    members. *)
Inductive KeyState : Type :=
| TCKS_IDLE
| TCKS_PRESSED
| TCKS_HOLD
| TCKS_RELEASED.

(** The device with the statics of the key handler: [doKey], the buffer
    [char timeBuffer[8]] of the keypad menu with its two indices, and the
    night mode.  Modelled from the spec: the night mode of a display
    ([nightMode: bool] of a ClockValue, set by [setNightMode]) belongs to the
    class [clockDisplay]; the three displays are set alike, and [nightMode]
    is what [destinationTime.getNightMode()] returns. *)
Record pad : Type := mkPad {
  dev : device;
  doKey : bool;
  timeBuffer : list Z;
  timeIndex : Z;
  yearIndex : Z;
  nightMode : bool;
  manualNightMode : Z;
  manualNMNow : Z;
  syncTrigger : bool
}.

Definition set_dev (x : device) (p : pad) : pad :=
  mkPad x (doKey p) (timeBuffer p) (timeIndex p) (yearIndex p) (nightMode p)
        (manualNightMode p) (manualNMNow p) (syncTrigger p).
Definition set_doKey (x : bool) (p : pad) : pad :=
  mkPad (dev p) x (timeBuffer p) (timeIndex p) (yearIndex p) (nightMode p)
        (manualNightMode p) (manualNMNow p) (syncTrigger p).
Definition set_nightMode (x : bool) (p : pad) : pad :=
  mkPad (dev p) (doKey p) (timeBuffer p) (timeIndex p) (yearIndex p) x
        (manualNightMode p) (manualNMNow p) (syncTrigger p).
Definition pcall (name : string) (p : pad) : pad := set_dev (call name (dev p)) p.
Definition pplay (name : string) (p : pad) : pad :=
  set_dev (play_file name (dev p)) p.

(** What the key handler asks of its collaborators: [startup] of
    [tc_time.cpp], the two phase counters [timeTravelP0] and [timeTravelRE]
    and the state of the keypad menu, all declared outside the sources, and
    the answers of [toggleAlarm], [wifiOnWillBlock] and [mp_stop]. *)
Record evenv : Type := mkEvenv {
  ke : kenv;
  ev_startup : bool;
  timeTravelP0 : Z;
  timeTravelRE : Z;
  keypadInMenu : bool;
  isYearUpdate : bool;
  toggleAlarm : Z;
  wifiOnWillBlock : bool;
  mp_stop : bool
}.

(** [static void recordSetTimeKey(char key)] *)
Definition recordSetTimeKey (key : Z) (p : pad) : result pad :=
  buf <- store (timeBuffer p) (timeIndex p) key ;;
  let idx := timeIndex p + 1 in
  buf <- store buf idx 0 ;;
  Ok (mkPad (dev p) (doKey p) buf (Z.land idx 1) (yearIndex p) (nightMode p)
            (manualNightMode p) (manualNMNow p) (syncTrigger p)).

(** [static void recordSetYearKey(char key)] *)
Definition recordSetYearKey (key : Z) (p : pad) : result pad :=
  buf <- store (timeBuffer p) (yearIndex p) key ;;
  let idx := yearIndex p + 1 in
  buf <- store buf idx 0 ;;
  Ok (mkPad (dev p) (doKey p) buf (timeIndex p) (Z.land idx 3) (nightMode p)
            (manualNightMode p) (manualNMNow p) (syncTrigger p)).

(** [void resetTimebufIndices()] *)
Definition resetTimebufIndices (p : pad) : pad :=
  mkPad (dev p) (doKey p) (timeBuffer p) 0 0 (nightMode p)
        (manualNightMode p) (manualNMNow p) (syncTrigger p).

(** [void leds_on()] and [void leds_off()] *)
Definition leds_on (e : evenv) (p : pad) : pad :=
  if FPBUnitIsOn (te (ke e)) && negb (nightMode p)
  then pcall "digitalWrite(LEDS_PIN, HIGH)" p else p.
Definition leds_off (p : pad) : pad := pcall "digitalWrite(LEDS_PIN, LOW)" p.

(** [void nightModeOn()], [void nightModeOff()] and
    [bool toggleNightMode()], which hands back the pad and its result. *)
Definition nightModeOn (p : pad) : pad := leds_off (set_nightMode true p).
Definition nightModeOff (e : evenv) (p : pad) : pad :=
  leds_on e (set_nightMode false p).
Definition toggleNightMode (e : evenv) (p : pad) : pad * bool :=
  if nightMode p then (nightModeOff e p, false) else (nightModeOn p, true).

(** The branch [case TCKS_HOLD] of [keypadEvent] outside the menu.  The
    [timeTravel] called here takes two arguments and is not the one of
    [tc_time.cpp] above; it is a call like those to the music player. *)
Definition keypadEvent_hold (e : evenv) (key : Z) (p : pad) : pad :=
  let bad p := pplay "/baddate.mp3" p in
  if key =? 48 then pcall "timeTravel(true, true)" (set_doKey false p)
  else if key =? 57 then
    let p := set_doKey false p in
    set_dev (set_tc (TimeLoop.resetPresentTime (te (ke e)) (tc (dev p)))
                    (dev p)) p
  else if key =? 49 then
    let p := pcall "toggleAlarm" (set_doKey false p) in
    if toggleAlarm e =? -1 then bad p
    else if toggleAlarm e =? 0 then pplay "/alarmoff.mp3" p
    else if toggleAlarm e =? 1 then pplay "/alarmon.mp3" p
    else p
  else if key =? 52 then
    let p := set_doKey false p in
    let '(p, on) := toggleNightMode e p in
    let p := if on then pplay "/nmon.mp3" p else pplay "/nmoff.mp3" p in
    mkPad (dev p) (doKey p) (timeBuffer p) (timeIndex p) (yearIndex p)
          (nightMode p) (if on then 1 else 0) (millis (te (ke e)))
          (syncTrigger p)
  else if key =? 51 then pplay "/key3.mp3" (set_doKey false p)
  else if key =? 54 then pplay "/key6.mp3" (set_doKey false p)
  else if key =? 55 then
    let p := set_doKey false p in
    let '(p, mpWasActive) :=
      if negb (wifiOnWillBlock e) then (pplay "/ping.mp3" p, false)
      else
        let '(p, was) := if haveMusic (ke e) then (pcall "mp_stop" p, mp_stop e)
                         else (p, false) in
        (pcall "waitAudioDone" (pplay "/ping.mp3" p), was) in
    let p := pcall "wifiOn" p in
    let p := mkPad (dev p) (doKey p) (timeBuffer p) (timeIndex p) (yearIndex p)
                   (nightMode p) (manualNightMode p) (manualNMNow p) true in
    if mpWasActive then pcall "mp_play" p else p
  else if key =? 50 then
    let p := set_doKey false p in
    if haveMusic (ke e) then pcall "mp_prev" p else bad p
  else if key =? 53 then
    let p := set_doKey false p in
    if haveMusic (ke e) then
      if mpActive (ke e) then pcall "mp_stop" p else pcall "mp_play" p
    else bad p
  else if key =? 56 then
    let p := set_doKey false p in
    if haveMusic (ke e) then pcall "mp_next" p else bad p
  else p.

(** [static void keypadEvent(char key, KeyState kstate)] *)
Definition keypadEvent (e : evenv) (key : Z) (kstate : KeyState) (p : pad)
  : result pad :=
  if negb (FPBUnitIsOn (te (ke e))) || ev_startup e
     || negb (timeTravelP0 e =? 0)
     || negb (timeTravelP1 (tr (tc (dev p))) =? 0)
     || negb (timeTravelRE e =? 0) then Ok p
  else
    let p := pcall "pwrNeedFullNow" p in
    match kstate with
    | TCKS_PRESSED =>
        if negb (key =? 35) && negb (key =? 42)
        then Ok (set_doKey true (pcall "play_keypad_sound" p))
        else Ok p
    | TCKS_HOLD =>
        if keypadInMenu e then Ok p else Ok (keypadEvent_hold e key p)
    | TCKS_RELEASED =>
        if doKey p then
          if keypadInMenu e then
            if isYearUpdate e then recordSetYearKey key p
            else recordSetTimeKey key p
          else
            k <- recordKey (millis (te (ke e))) key (kp (dev p)) ;;
            Ok (set_dev (set_kp k (dev p)) p)
        else Ok p
    | TCKS_IDLE => Ok p
    end.

(** What is done to the buffer of the keypad menu. *)
Inductive menu_input : Type :=
| TimeKey (key : Z)
| YearKey (key : Z)
| ResetIndices.

Definition menu_step (i : menu_input) (p : pad) : result pad :=
  match i with
  | TimeKey key => recordSetTimeKey key p
  | YearKey key => recordSetYearKey key p
  | ResetIndices => Ok (resetTimebufIndices p)
  end.

Fixpoint menu_run (inputs : list menu_input) (p : pad) : result pad :=
  match inputs with
  | [] => Ok p
  | i :: rest => p' <- menu_step i p ;; menu_run rest p'
  end.

(** The pad after [keypad_setup]: nothing typed, [timeBuffer[0]] the NUL. *)
Definition pad0 : pad :=
  mkPad device0 false (replicate 8 0) 0 0 false 0 0 false.

Definition evenv0 : evenv :=
  mkEvenv kenv0 false 0 0 false false 1 false false.

(** The buffer of the menu holds a string of at most four characters, and
    the two indices are within their ranges. *)
Definition timebuf_ok (p : pad) : Prop :=
  length (timeBuffer p) = 8%nat /\
  0 <= timeIndex p <= 1 /\ 0 <= yearIndex p <= 3 /\
  exists n, strlen (timeBuffer p) = Ok n /\ 0 <= n <= 4.

(** The two characters of a number below 100, and the four of one below
    10000, as they are typed. *)
Definition two_digits (n : Z) : list Z := [48 + n / 10; 48 + n mod 10].
Definition four_digits (n : Z) : list Z :=
  two_digits (n / 100) ++ two_digits (n mod 100).

(** What the display block leaves alone: the alarm, the reminder, the
    countdown, the beep, the digits typed and all of the time keeping but
    the log of the calls. *)
Definition show_frame (d d' : device) : Prop :=
  al d' = al d /\ rem d' = rem d /\ cdn d' = cdn d /\ bp d' = bp d /\
  dateBuffer (kp d') = dateBuffer (kp d) /\
  dateIndex (kp d') = dateIndex (kp d) /\
  lastKeyPressed (kp d') = lastKeyPressed (kp d) /\
  presentTime (tc d') = presentTime (tc d) /\
  destinationTime (tc d') = destinationTime (tc d) /\
  departedTime (tc d') = departedTime (tc d) /\
  tr (tc d') = tr (tc d) /\ ai (tc d') = ai (tc d) /\ rtc (tc d') = rtc (tc d).

(** The test [keypadEvent] starts with: the keys are dead while the
    device is switched off, starts up or travels. *)
Definition keys_blocked (e : evenv) (p : pad) : bool :=
  negb (FPBUnitIsOn (te (ke e))) || ev_startup e
  || negb (timeTravelP0 e =? 0)
  || negb (timeTravelP1 (tr (tc (dev p))) =? 0)
  || negb (timeTravelRE e =? 0).

(** Nothing but the log of the calls differs between [d] and [d']. *)
Definition quiet (d d' : device) : Prop :=
  kp d' = kp d /\ disp d' = disp d /\ show_frame d d'.

(** The device as the entry logic hands it to the branch it chooses:
    [isEnterKeyPressed] cleared, [enterWasPressed] set, the white LED on,
    the destination display off and [timeNow] taken. *)
Definition enter_start (e : kenv) (d : device) : device :=
  let k := kp d in
  let d := set_kp (mkKeypad (dateBuffer k) (dateIndex k) (lastKeyPressed k)
                            false true (needDepTime k) (timeNow k)
                            (enterDelay k)) d in
  let d := call "cancelETTAnim" d in
  let d := call "digitalWrite(WHITE_LED_PIN, HIGH)" d in
  let d := call "destinationTime.off" d in
  let k := kp d in
  set_kp (mkKeypad (dateBuffer k) (dateIndex k) (lastKeyPressed k)
                   (isEnterKeyPressed k) (enterWasPressed k)
                   (needDepTime k) (millis (te e)) (enterDelay k)) d.

End KeypadEvents.

(* ------------------------------------------------------------------ *)
(** ** The order of the calendar *)

Module CodecOrder.
Import Codec.

(** [a] is an earlier date than [b]: the comparison of year, month, day,
    hour and minute in this order. *)
Definition date_ltb (a b : date) : bool :=
  let '(y1, mo1, d1, h1, mi1) := a in
  let '(y2, mo2, d2, h2, mi2) := b in
  (y1 <? y2) || (y1 =? y2) &&
  ((mo1 <? mo2) || (mo1 =? mo2) &&
   ((d1 <? d2) || (d1 =? d2) &&
    ((h1 <? h2) || (h1 =? h2) && (mi1 <? mi2)))).

End CodecOrder.

(* ================================================================== *)
(** * Part II.  Properties                                             *)
(* ================================================================== *)

Module CodecFacts.
Import Codec.

(** *** Machine arithmetic *)

Lemma wrap32_small x : 0 <= x < 2^32 -> wrap32 x = x.
Proof. intros H. unfold wrap32. apply Z.mod_small. exact H. Qed.

Lemma wrap64_small x : 0 <= x < 2^64 -> wrap64 x = x.
Proof. intros H. unfold wrap64. apply Z.mod_small. exact H. Qed.

Lemma wrap32_range x : 0 <= wrap32 x < 2^32.
Proof. unfold wrap32. apply Z.mod_pos_bound. reflexivity. Qed.

Lemma wrap64_range x : 0 <= wrap64 x < 2^64.
Proof. unfold wrap64. apply Z.mod_pos_bound. reflexivity. Qed.

Lemma wrap32_add_l x y : wrap32 (wrap32 x + y) = wrap32 (x + y).
Proof. unfold wrap32. apply Zplus_mod_idemp_l. Qed.

Create HintDb machine.
#[export] Hint Resolve wrap32_range wrap64_range : machine.

(** Drop every wrap whose argument is in range already. *)
Ltac unwrap :=
  repeat match goal with
    | |- context [wrap32 ?x] => rewrite (wrap32_small x) by lia
    | |- context [wrap64 ?x] => rewrite (wrap64_small x) by lia
    end.

Lemma index_Ok table i v :
  0 <= i -> table !! Z.to_nat i = Some v -> index table i = Ok v.
Proof.
  intros Hi Hl. unfold index.
  assert (Hlt : (Z.to_nat i < length table)%nat)
    by (apply lookup_lt_is_Some; eauto).
  replace (0 <=? i) with true by (symmetry; apply Z.leb_le; lia).
  replace (i <? Z.of_nat (length table)) with true
    by (symmetry; apply Z.ltb_lt; lia).
  cbn. rewrite Hl. reflexivity.
Qed.

Lemma index_inv table i v :
  index table i = Ok v -> 0 <= i < Z.of_nat (length table).
Proof.
  unfold index. destruct (Z.leb_spec 0 i), (Z.ltb_spec i (Z.of_nat (length table)));
    cbn; try discriminate. intros _. lia.
Qed.

Lemma index_fuel table i : index table i <> OutOfFuel.
Proof.
  unfold index. destruct ((0 <=? i) && (i <? Z.of_nat (length table)));
    [destruct (table !! Z.to_nat i)|]; discriminate.
Qed.

(** *** The leap-year predicate as written *)

Lemma isLeapYear_false year : isLeapYear year = false.
Proof.
  unfold isLeapYear. cbn [c_bool Z.eqb]. rewrite Z.land_0_r. reflexivity.
Qed.

(** *** The loops of [dateToMins] and [minsToDate] *)

(** The year loop of [dateToMins] stops after [c - d] rounds, whatever the
    start values are, and adds [8760] hours per round. *)
Lemma dateToMins_years_run (n : nat) :
  forall fuel c d total32,
    c - d <= Z.of_nat n -> (n < fuel)%nat -> 0 <= total32 < 2^32 ->
    dateToMins_years fuel c d total32
    = Ok (wrap32 (total32 + 8760 * Z.max 0 (c - d))).
Proof.
  induction n as [|n IH]; intros fuel c d t Hcd Hfuel Ht;
    (destruct fuel as [|fuel]; [lia|]); cbn [dateToMins_years].
  - destruct (Z.gtb_spec c d) as [Hgt|Hle]; [lia|].
    rewrite Z.max_l by lia. rewrite Z.mul_0_r, Z.add_0_r, wrap32_small; auto.
  - destruct (Z.gtb_spec c d) as [Hgt|Hle].
    + rewrite isLeapYear_false. cbv zeta.
      rewrite IH by (try lia; auto with machine).
      rewrite wrap32_add_l. f_equal. f_equal. lia.
    + rewrite Z.max_l by lia. rewrite Z.mul_0_r, Z.add_0_r, wrap32_small; auto.
Qed.

Lemma dateToMins_years_terminates c d total32 :
  0 <= total32 < 2^32 ->
  exists v, dateToMins_years (S (Z.to_nat (c - d))) c d total32 = Ok v.
Proof.
  intros Ht. eexists. apply (dateToMins_years_run (Z.to_nat (c - d))); lia.
Qed.

(** The block search only ever moves its index down, and stops at [-1] at
    the latest. *)
Lemma minsToDate_block_run (n : nat) :
  forall fuel d total64,
    d + 1 <= Z.of_nat n -> (n < fuel)%nat -> -1 <= d <= 9 ->
    exists d', minsToDate_block fuel d total64 = Ok d' /\ -1 <= d' /\
               (d < 0 -> d' = d) /\ (0 <= d -> d' <= d) /\
               (0 <= d' -> exists m, index mins1kYears d' = Ok m /\ total64 > m) /\
               (forall k m, d' < k <= d -> index mins1kYears k = Ok m ->
                            total64 <= m).
Proof.
  induction n as [|n IH]; intros fuel d t Hd Hfuel H9;
    (destruct fuel as [|fuel]; [lia|]); cbn [minsToDate_block].
  - destruct (Z.geb_spec d 0) as [Hge|Hlt]; [lia|].
    exists d. repeat split; try lia; intros; lia.
  - destruct (Z.geb_spec d 0) as [Hge|Hlt].
    + assert (Hin : exists m, index mins1kYears d = Ok m).
      { assert (Hc : d = 0 \/ d = 1 \/ d = 2 \/ d = 3 \/ d = 4 \/ d = 5 \/
                     d = 6 \/ d = 7 \/ d = 8 \/ d = 9) by lia.
        repeat (destruct Hc as [->|Hc]; [eexists; reflexivity|]).
        subst d. eexists; reflexivity. }
      destruct Hin as [m Hm]. rewrite Hm. cbn [bind].
      destruct (Z.gtb_spec t m) as [Hgt|Hle].
      * exists d. repeat split; try lia.
        intros _. exists m. split; [exact Hm|lia].
      * destruct (IH fuel (d - 1) t) as (d' & Hrun & Hlo & Hneg & Hpos & Hfound & Hskip);
          try lia.
        exists d'. rewrite Hrun.
        split; [reflexivity|]. split; [lia|]. split; [lia|].
        split; [|split; [exact Hfound|]].
        -- intros _. destruct (Z.le_gt_cases 0 (d - 1)) as [H|H];
             [specialize (Hpos H); lia|specialize (Hneg H); lia].
        -- intros k m' Hk Hm'. destruct (Z.eq_dec k d) as [->|Hne].
           ++ rewrite Hm in Hm'. injection Hm' as <-. exact Hle.
           ++ apply (Hskip k m'); [lia|exact Hm'].
    + exists d. repeat split; try lia; intros; lia.
Qed.

(** Every round of the year loop of [minsToDate] takes a year's minutes
    (at least 525600) off the count, so it stops within
    [total32 / 525600 + 1] rounds. *)
Lemma minsToDate_years_run (n : nat) :
  forall fuel c year total32,
    total32 / 525600 <= Z.of_nat n -> (n < fuel)%nat -> 0 <= total32 < 2^32 ->
    minsToDate_years fuel c year total32
    = Ok (year + total32 / 525600, total32 mod 525600).
Proof.
  induction n as [|n IH]; intros fuel c year t Hq Hfuel Ht;
    (destruct fuel as [|fuel]; [lia|]); cbn [minsToDate_years];
    rewrite isLeapYear_false; cbv zeta;
    change (8760 * 60) with 525600;
    destruct (Z.ltb_spec t 525600) as [Hlt|Hge].
  - rewrite Z.div_small, Z.mod_small by lia. rewrite Z.add_0_r. reflexivity.
  - assert (1 <= t / 525600) by (apply Z.div_le_lower_bound; lia). lia.
  - rewrite Z.div_small, Z.mod_small by lia. rewrite Z.add_0_r. reflexivity.
  - assert (Hq1 : t / 525600 = (t - 525600) / 525600 + 1).
    { replace t with ((t - 525600) + 1 * 525600) at 1 by lia.
      rewrite Z.div_add by lia. reflexivity. }
    assert (Hr1 : t mod 525600 = (t - 525600) mod 525600).
    { replace t with ((t - 525600) + 1 * 525600) at 1 by lia.
      rewrite Z.mod_add by lia. reflexivity. }
    rewrite wrap32_small by lia.
    rewrite IH by lia. rewrite Hq1, Hr1. f_equal. f_equal. lia.
Qed.

Lemma month_cases c :
  1 <= c <= 12 ->
  c = 1 \/ c = 2 \/ c = 3 \/ c = 4 \/ c = 5 \/ c = 6 \/
  c = 7 \/ c = 8 \/ c = 9 \/ c = 10 \/ c = 11 \/ c = 12.
Proof. lia. Qed.

Ltac each_month H :=
  apply month_cases in H;
  repeat (destruct H as [H|H]; [subst|]); [..|subst].

Lemma mon_yday_0_Ok month :
  1 <= month <= 12 -> mon_yday 0 (month - 1) = Ok (yday0 month).
Proof. intros H. each_month H; reflexivity. Qed.

Lemma mon_yday_0_next c :
  1 <= c <= 12 -> mon_yday 0 c = Ok (yday0 (c + 1)).
Proof. intros H. each_month H; reflexivity. Qed.

Lemma yday0_range month : 1 <= month <= 13 -> 0 <= yday0 month <= 365.
Proof.
  intros H. assert (Hc : 1 <= month <= 12 \/ month = 13) by lia.
  destruct Hc as [Hc| ->]; [each_month Hc|]; cbv; split; discriminate.
Qed.

Lemma yday0_next month :
  1 <= month <= 12 ->
  exists dim, index monthDays (month - 1) = Ok dim /\
              yday0 (month + 1) = yday0 month + dim /\ 28 <= dim <= 31.
Proof.
  intros H. each_month H; eexists; (split; [reflexivity|]); cbv;
    (split; [reflexivity|split; discriminate]).
Qed.

Lemma yday0_mono a b : 1 <= a <= b -> b <= 13 -> yday0 a <= yday0 b.
Proof.
  intros Hab Hb.
  assert (Hgen : forall n : nat, forall a, 1 <= a -> a + Z.of_nat n <= 13 ->
                                 yday0 a <= yday0 (a + Z.of_nat n)).
  { induction n as [|n IH]; intros a' Ha' Hn.
    - rewrite Z.add_0_r. lia.
    - replace (a' + Z.of_nat (S n)) with ((a' + Z.of_nat n) + 1) by lia.
      destruct (yday0_next (a' + Z.of_nat n)) as (dim & _ & -> & Hdim); [lia|].
      specialize (IH a' Ha'). lia. }
  replace b with (a + Z.of_nat (Z.to_nat (b - a))) by lia.
  apply Hgen; lia.
Qed.

(** One round of the month loop. *)
Lemma minsToDate_month_step fuel c total32 :
  1 <= c < 12 ->
  minsToDate_month (S fuel) 0 c total32
  = if total32 <? yday0 (c + 1) * 1440 then Ok c
    else minsToDate_month fuel 0 (c + 1) total32.
Proof.
  intros H. assert (Hc : 1 <= c <= 12) by lia.
  each_month Hc; try lia; reflexivity.
Qed.

Lemma minsToDate_month_run (n : nat) :
  forall fuel c month total32,
    month - c = Z.of_nat n -> 1 <= c -> month <= 12 -> (n < fuel)%nat ->
    yday0 month * 1440 <= total32 ->
    (month < 12 -> total32 < yday0 (month + 1) * 1440) ->
    minsToDate_month fuel 0 c total32 = Ok month.
Proof.
  induction n as [|n IH]; intros fuel c month t Hn Hc Hm Hfuel Hlo Hhi;
    (destruct fuel as [|fuel]; [lia|]).
  - assert (c = month) by lia. subst c.
    destruct (Z.eq_dec month 12) as [->|Hne]; [reflexivity|].
    rewrite minsToDate_month_step by lia.
    destruct (Z.ltb_spec t (yday0 (month + 1) * 1440)); [reflexivity|lia].
  - rewrite minsToDate_month_step by lia.
    pose proof (yday0_mono (c + 1) month ltac:(lia) ltac:(lia)).
    destruct (Z.ltb_spec t (yday0 (c + 1) * 1440)); [lia|].
    apply IH; lia.
Qed.

(** The month loop is bounded by 12 whatever count it is given. *)
Lemma minsToDate_month_terminates (n : nat) :
  forall fuel c total32,
    12 - c = Z.of_nat n -> 1 <= c -> (n < fuel)%nat ->
    exists month, minsToDate_month fuel 0 c total32 = Ok month /\
                  c <= month <= 12.
Proof.
  induction n as [|n IH]; intros fuel c t Hn Hc Hfuel;
    (destruct fuel as [|fuel]; [lia|]).
  - assert (c = 12) by lia. subst c. exists 12. split; [reflexivity|lia].
  - rewrite minsToDate_month_step by lia.
    destruct (Z.ltb_spec t (yday0 (c + 1) * 1440)).
    + exists c. split; [reflexivity|lia].
    + destruct (IH fuel (c + 1) t) as (month & Hrun & Hrange); try lia.
      exists month. split; [exact Hrun|lia].
Qed.

(** *** [minsToDate] and [dateToMins] return for every input *)

Lemma mins1kYears_val d :
  1 <= d <= 9 -> index mins1kYears d = Ok ((1000 * d - 1) * 525600).
Proof.
  intros H. assert (Hc : 1 <= d <= 12) by lia.
  each_month Hc; try lia; reflexivity.
Qed.

Lemma hours1kYears_val k :
  0 <= k <= 9 ->
  index hours1kYears k = Ok (if k =? 0 then 0 else (1000 * k - 1) * 8760).
Proof.
  intros H. destruct (Z.eq_dec k 0) as [->|Hne]; [reflexivity|].
  assert (Hc : 1 <= k <= 12) by lia.
  each_month Hc; try lia; reflexivity.
Qed.

Lemma minsToDate_fuel_total fuel total64 :
  (Z.to_nat 8172 <= fuel)%nat ->
  exists dt, minsToDate_fuel fuel total64 = Ok dt.
Proof.
  intros Hfuel. unfold minsToDate_fuel.
  destruct (minsToDate_block_run 10 fuel 9 total64)
    as (d & -> & Hlo & _ & Hhi & Hfound & _); try lia.
  specialize (Hhi ltac:(lia)). cbn [bind].
  assert (Hm : exists m, (if d >? 0 then index mins1kYears d else Ok 0) = Ok m).
  { destruct (Z.gtb_spec d 0); [|eauto]. apply Hfound in Hlo as (m & -> & _) || idtac.
    rewrite mins1kYears_val by lia. eauto. }
  destruct Hm as [m ->]. cbn [bind].
  set (t64 := if d >? 0 then wrap64 (total64 - m) else total64).
  set (c := if d >? 0 then d * 1000 else 1).
  pose proof (wrap32_range t64) as Ht.
  assert (Hq : 0 <= wrap32 t64 / 525600 < 8172).
  { split; [apply Z.div_pos; lia|apply Z.div_lt_upper_bound; lia]. }
  rewrite (minsToDate_years_run (Z.to_nat (wrap32 t64 / 525600))) by lia.
  cbn [bind]. rewrite isLeapYear_false.
  destruct (minsToDate_month_terminates 11 fuel 1 (wrap32 t64 mod 525600))
    as (month & -> & Hmonth); try lia.
  cbn [bind]. rewrite mon_yday_0_Ok by lia. cbn [bind]. eauto.
Qed.

Lemma Z_to_nat_8172 : (Z.to_nat 8172 <= minsToDate_default_fuel)%nat.
Proof. unfold minsToDate_default_fuel. lia. Qed.

Lemma minsToDate_total total64 : exists dt, minsToDate total64 = Ok dt.
Proof. apply minsToDate_fuel_total, Z_to_nat_8172. Qed.

(** [dateToMins] never runs out of fuel; it stops with [OutOfBounds] only
    when [year / 1000] or [month - 1] is no index of its table. *)
Lemma dateToMins_total year month day hour minute :
  dateToMins year month day hour minute <> OutOfFuel /\
  (0 <= year ÷ 1000 <= 9 -> 1 <= month <= 13 ->
   exists m, dateToMins year month day hour minute = Ok m /\ 0 <= m < 2^64).
Proof.
  unfold dateToMins, dateToMins_fuel.
  destruct (index hours1kYears (year ÷ 1000)) as [h| |] eqn:Hh; cbn [bind].
  2: { exfalso. exact (index_fuel _ _ Hh). }
  2: { split; [discriminate|].
       intros Hk. rewrite hours1kYears_val in Hh by lia. discriminate. }
  pose proof (index_inv _ _ _ Hh) as Hk. change (Z.of_nat (length hours1kYears)) with 10 in Hk.
  rewrite hours1kYears_val in Hh by lia. injection Hh as Hh.
  set (d := if negb (h =? 0) then year ÷ 1000 * 1000 else 1).
  assert (Hh32 : 0 <= h < 2^32).
  { subst h. destruct (Z.eqb_spec (year ÷ 1000) 0); lia. }
  assert (Hd : 1 <= d).
  { subst d h. destruct (Z.eqb_spec (year ÷ 1000) 0) as [->|]; cbn [negb Z.eqb]; [lia|].
    destruct (Z.eqb_spec ((1000 * (year ÷ 1000) - 1) * 8760) 0); cbn [negb]; lia. }
  rewrite (dateToMins_years_run (Z.to_nat year)) by lia. cbn [bind].
  rewrite isLeapYear_false.
  destruct (mon_yday 0 (month - 1)) as [yd| |] eqn:Hyd; cbn [bind].
  - split; [discriminate|]. intros _ _. eexists. split; [reflexivity|auto with machine].
  - exfalso. unfold mon_yday in Hyd. cbn [Z.eqb] in Hyd. exact (index_fuel _ _ Hyd).
  - split; [discriminate|]. intros _ Hm.
    assert (Hc : 1 <= month <= 12 \/ month = 13) by lia.
    destruct Hc as [Hc| ->]; [rewrite mon_yday_0_Ok in Hyd by lia|]; discriminate.
Qed.

(** *** Closed forms on the supported range *)

(** The minute count of a date in the program's calendar, every year of
    which has 365 days. *)
Lemma dateToMins_closed year month day hour minute :
  0 <= year <= 9999 -> 1 <= month <= 12 ->
  1 <= day <= 256 -> 0 <= hour < 256 -> 0 <= minute < 256 ->
  dateToMins year month day hour minute
  = Ok ((((Z.max year 1 - 1) * 8760 + (yday0 month + day - 1) * 24 + hour) * 60)
        + minute).
Proof.
  intros Hy Hmo Hd Hh Hmi. unfold dateToMins, dateToMins_fuel.
  rewrite Z.quot_div_nonneg by lia.
  assert (Hk : 0 <= year / 1000 <= 9).
  { split; [apply Z.div_pos; lia|].
    assert (year / 1000 < 10) by (apply Z.div_lt_upper_bound; lia). lia. }
  assert (Hyk : 1000 * (year / 1000) <= year < 1000 * (year / 1000) + 1000).
  { pose proof (Z.mul_div_le year 1000 ltac:(lia)).
    pose proof (Z.mul_succ_div_gt year 1000 ltac:(lia)). lia. }
  rewrite hours1kYears_val by lia. cbn [bind].
  set (k := year / 1000) in *.
  pose proof (yday0_range month ltac:(lia)) as Hyd.
  destruct (Z.eqb_spec k 0) as [Hk0|Hk0].
  - cbn [Z.eqb negb].
    rewrite (dateToMins_years_run (Z.to_nat year)) by lia. cbn [bind].
    rewrite isLeapYear_false, mon_yday_0_Ok by lia. cbn [bind].
    unwrap. f_equal. lia.
  - destruct (Z.eqb_spec ((1000 * k - 1) * 8760) 0) as [Hz|Hz]; [lia|].
    cbn [negb].
    rewrite (dateToMins_years_run (Z.to_nat year)) by lia. cbn [bind].
    rewrite isLeapYear_false, mon_yday_0_Ok by lia. cbn [bind].
    unwrap. f_equal. lia.
Qed.

(** [minsToDate] on a count below 9999 years, split into whole years,
    the month, and the rest. *)
Lemma minsToDate_closed year month rest :
  1 <= year <= 9999 -> 1 <= month <= 12 ->
  yday0 month * 1440 <= rest < yday0 (month + 1) * 1440 ->
  minsToDate ((year - 1) * 525600 + rest)
  = Ok (year, month,
        (rest - yday0 month * 1440) / 1440 + 1,
        (rest - yday0 month * 1440) mod 1440 / 60,
        (rest - yday0 month * 1440) mod 1440 mod 60).
Proof.
  intros Hy Hmo Hrest.
  pose proof (yday0_range month ltac:(lia)) as Hyd.
  pose proof (yday0_range (month + 1) ltac:(lia)) as Hyd1.
  set (M := (year - 1) * 525600 + rest).
  unfold minsToDate, minsToDate_fuel.
  pose proof Z_to_nat_8172 as Hfuel.
  set (fuel := minsToDate_default_fuel) in *.
  destruct (minsToDate_block_run 10 fuel 9 M)
    as (d & -> & Hlo & _ & Hhi & Hfound & Hskip); try lia.
  specialize (Hhi ltac:(lia)). cbn [bind].
  assert (Hyears :
    exists m, (if d >? 0 then index mins1kYears d else Ok 0) = Ok m /\
      0 <= (if d >? 0 then wrap64 (M - m) else M) < 2^32 /\
      (if d >? 0 then wrap64 (M - m) else M)
      = (year - (if d >? 0 then d * 1000 else 1)) * 525600 + rest /\
      (if d >? 0 then d * 1000 else 1) <= year).
  { destruct (Z.gtb_spec d 0) as [Hpos|Hneg].
    - exists ((1000 * d - 1) * 525600). split; [apply mins1kYears_val; lia|].
      destruct (Hfound ltac:(lia)) as (m & Hm & Hgt).
      rewrite mins1kYears_val in Hm by lia. injection Hm as <-.
      assert (Hup : M - (1000 * d - 1) * 525600 <= 1000 * 525600).
      { destruct (Z.eq_dec d 9) as [->|Hne]; [subst M; lia|].
        specialize (Hskip (d + 1) _ ltac:(lia) (mins1kYears_val (d + 1) ltac:(lia))).
        lia. }
      rewrite wrap64_small by lia. subst M. lia.
    - exists 0. split; [reflexivity|].
      specialize (Hskip 1 _ ltac:(lia) (mins1kYears_val 1 ltac:(lia))).
      subst M. lia. }
  destruct Hyears as (m & -> & Hrange & Heq & Hbase). cbn [bind].
  set (t64 := if d >? 0 then wrap64 (M - m) else M) in *.
  set (c := if d >? 0 then d * 1000 else 1) in *.
  rewrite (wrap32_small t64) by lia.
  assert (Hq : t64 / 525600 = year - c)
    by (symmetry; apply (Z.div_unique t64 525600 (year - c) rest); lia).
  assert (Hr : t64 mod 525600 = rest)
    by (symmetry; apply (Z.mod_unique t64 525600 (year - c) rest); lia).
  rewrite (minsToDate_years_run (Z.to_nat (year - c))) by lia.
  cbn [bind]. rewrite Hq, Hr. replace (c + (year - c)) with year by lia.
  rewrite isLeapYear_false.
  rewrite (minsToDate_month_run (Z.to_nat (month - 1)) fuel 1 month) by lia.
  cbn [bind]. rewrite mon_yday_0_Ok by lia. cbn [bind].
  replace (yday0 month * 24 * 60) with (yday0 month * 1440) by lia.
  change (24 * 60) with 1440.
  rewrite (wrap32_small (yday0 month * 1440)) by lia.
  set (T := rest - yday0 month * 1440).
  assert (HT : 0 <= T < 525600) by (subst T; lia).
  rewrite (wrap32_small T) by lia.
  pose proof (Z.mod_pos_bound T 1440 ltac:(lia)) as Hmod.
  assert (HTm : T - T / 1440 * 1440 = T mod 1440)
    by (rewrite Z.mod_eq by lia; lia).
  rewrite HTm. rewrite (wrap32_small (T mod 1440)) by lia.
  pose proof (Z.mod_pos_bound (T mod 1440) 60 ltac:(lia)) as Hmod60.
  assert (HTh : T mod 1440 - T mod 1440 / 60 * 60 = T mod 1440 mod 60)
    by (rewrite (Z.mod_eq (T mod 1440) 60) by lia; lia).
  rewrite HTh. rewrite wrap32_small by lia. reflexivity.
Qed.

(** *** The codec on the program's own calendar *)

Example dateToMins_origin : dateToMins 1 1 1 0 0 = Ok 0.
Proof. vm_compute. reflexivity. Qed.

Example dateToMins_last_minute : dateToMins 9999 12 31 23 59 = Ok 5255474399.
Proof. vm_compute. reflexivity. Qed.

(** The first minute of the year 1000 is the second entry of
    [mins1kYears]; the search passes it by ([>] is strict) and the year loop
    makes up for it. *)
Example minsToDate_block_edge : minsToDate 525074400 = Ok (1000, 1, 1, 0, 0).
Proof. vm_compute. reflexivity. Qed.

Example minsToDate_preset :
  (m <- dateToMins 1985 10 26 1 21 ;; minsToDate m) = Ok (1985, 10, 26, 1, 21).
Proof. vm_compute. reflexivity. Qed.

Lemma daysInMonth_table month year :
  daysInMonth month year = index monthDays (month - 1).
Proof.
  unfold daysInMonth. rewrite isLeapYear_false, andb_false_r. reflexivity.
Qed.

Lemma valid_date_inv year month day hour minute :
  valid_date (year, month, day, hour, minute) = true ->
  1 <= year <= 9999 /\ 1 <= month <= 12 /\
  (exists dim, daysInMonth month year = Ok dim /\ 1 <= day <= dim) /\
  0 <= hour <= 23 /\ 0 <= minute <= 59.
Proof.
  unfold valid_date. intros H.
  repeat (apply andb_prop in H as [H ?]).
  destruct (daysInMonth month year) as [dim| |]; try discriminate.
  repeat match goal with
         | H : _ && _ = true |- _ => apply andb_prop in H as [? ?]
         | H : (_ <=? _) = true |- _ => apply Z.leb_le in H
         end.
  repeat split; try lia. exists dim. split; [reflexivity|lia].
Qed.

(** The minutes of a date past the start of its month. *)
Lemma in_month_split day hour minute :
  0 <= hour <= 23 -> 0 <= minute <= 59 ->
  let T := (day - 1) * 1440 + hour * 60 + minute in
  T / 1440 + 1 = day /\ T mod 1440 / 60 = hour /\ T mod 1440 mod 60 = minute.
Proof.
  intros Hh Hmi T.
  assert (Hq : T / 1440 = day - 1)
    by (symmetry; apply (Z.div_unique T 1440 (day - 1) (hour * 60 + minute));
        subst T; lia).
  assert (Hr : T mod 1440 = hour * 60 + minute)
    by (symmetry; apply (Z.mod_unique T 1440 (day - 1) (hour * 60 + minute));
        subst T; lia).
  rewrite Hq, Hr. split; [lia|]. split.
  - symmetry. apply (Z.div_unique _ 60 hour minute); lia.
  - symmetry. apply (Z.mod_unique _ 60 hour minute); lia.
Qed.

(** [minsToDate] undoes [dateToMins] on every date of the program's
    calendar (in which February has 28 days in every year). *)
Lemma roundtrip_program_calendar year month day hour minute :
  valid_date (year, month, day, hour, minute) = true ->
  exists m, dateToMins year month day hour minute = Ok m /\
            0 <= m < 5255474400 /\
            minsToDate m = Ok (year, month, day, hour, minute).
Proof.
  intros Hv. apply valid_date_inv in Hv as (Hy & Hmo & (dim & Hdim & Hd) & Hh & Hmi).
  rewrite daysInMonth_table in Hdim.
  destruct (yday0_next month Hmo) as (dim' & Hdim' & Hnext & Hrange).
  rewrite Hdim in Hdim'. injection Hdim' as <-.
  pose proof (yday0_range month ltac:(lia)) as Hyd.
  pose proof (yday0_range (month + 1) ltac:(lia)) as Hyd1.
  rewrite dateToMins_closed by lia.
  eexists. split; [reflexivity|]. rewrite Z.max_l by lia.
  split; [lia|].
  set (T := (day - 1) * 1440 + hour * 60 + minute).
  replace (((year - 1) * 8760 + (yday0 month + day - 1) * 24 + hour) * 60 + minute)
    with ((year - 1) * 525600 + (yday0 month * 1440 + T)) by (subst T; lia).
  rewrite (minsToDate_closed year month) by (subst T; lia).
  replace (yday0 month * 1440 + T - yday0 month * 1440) with T by lia.
  subst T. destruct (in_month_split day hour minute Hh Hmi) as (-> & -> & ->).
  reflexivity.
Qed.

(** Two dates of the program's calendar with one minute count are one
    date. *)
Lemma dateToMins_injective (a b : date) m :
  valid_date a = true -> valid_date b = true ->
  (let '(y, mo, d, h, mi) := a in dateToMins y mo d h mi) = Ok m ->
  (let '(y, mo, d, h, mi) := b in dateToMins y mo d h mi) = Ok m ->
  a = b.
Proof.
  destruct a as [[[[y1 mo1] d1] h1] mi1], b as [[[[y2 mo2] d2] h2] mi2].
  intros Ha Hb Hma Hmb.
  destruct (roundtrip_program_calendar _ _ _ _ _ Ha) as (ma & Ha1 & _ & Ha2).
  destruct (roundtrip_program_calendar _ _ _ _ _ Hb) as (mb & Hb1 & _ & Hb2).
  rewrite Ha1 in Hma. rewrite Hb1 in Hmb.
  injection Hma as ->. injection Hmb as ->.
  rewrite Ha2 in Hb2. injection Hb2 as -> -> -> -> ->. reflexivity.
Qed.

Lemma month_of_rest rest :
  0 <= rest < 525600 ->
  exists month, 1 <= month <= 12 /\
                yday0 month * 1440 <= rest < yday0 (month + 1) * 1440.
Proof.
  intros Hr.
  assert (Hgen : forall n : nat, forall c, 12 - c = Z.of_nat n -> 1 <= c ->
            yday0 c * 1440 <= rest ->
            exists month, 1 <= month <= 12 /\
                          yday0 month * 1440 <= rest < yday0 (month + 1) * 1440).
  { induction n as [|n IH]; intros c Hn Hc Hlo.
    - assert (c = 12) by lia. subst c. exists 12. split; [lia|].
      split; [exact Hlo|]. change (yday0 (12 + 1) * 1440) with 525600. lia.
    - destruct (Z.lt_ge_cases rest (yday0 (c + 1) * 1440)) as [Hlt|Hge].
      + exists c. lia.
      + apply (IH (c + 1)); lia. }
  apply (Hgen 11%nat 1); [reflexivity|lia|].
  change (yday0 1 * 1440) with 0. lia.
Qed.

(** Every count below 9999 years of minutes is the count of exactly one
    date of the program's calendar, and [minsToDate] finds it. *)
Lemma minsToDate_onto m :
  0 <= m < 5255474400 ->
  exists dt, valid_date dt = true /\ minsToDate m = Ok dt /\
             (let '(y, mo, d, h, mi) := dt in dateToMins y mo d h mi) = Ok m.
Proof.
  intros Hm.
  pose proof (Z.div_mod m 525600 ltac:(lia)) as Hdm.
  pose proof (Z.mod_pos_bound m 525600 ltac:(lia)) as Hrest.
  assert (Hq : 0 <= m / 525600 < 9999).
  { split; [apply Z.div_pos; lia|apply Z.div_lt_upper_bound; lia]. }
  set (q := m / 525600) in *. set (rest := m mod 525600) in *.
  destruct (month_of_rest rest Hrest) as (month & Hmo & Hin).
  destruct (yday0_next month Hmo) as (dim & Hdim & Hnext & Hrange).
  pose proof (yday0_range month ltac:(lia)) as Hyd.
  set (T := rest - yday0 month * 1440) in *.
  assert (HT : 0 <= T < dim * 1440) by (subst T; lia).
  pose proof (Z.div_mod T 1440 ltac:(lia)) as HdT.
  pose proof (Z.mod_pos_bound T 1440 ltac:(lia)) as HrT.
  assert (HqT : 0 <= T / 1440 < dim).
  { split; [apply Z.div_pos; lia|apply Z.div_lt_upper_bound; lia]. }
  pose proof (Z.div_mod (T mod 1440) 60 ltac:(lia)) as Hdh.
  pose proof (Z.mod_pos_bound (T mod 1440) 60 ltac:(lia)) as Hrh.
  assert (Hqh : 0 <= T mod 1440 / 60 < 24).
  { split; [apply Z.div_pos; lia|apply Z.div_lt_upper_bound; lia]. }
  exists (q + 1, month, T / 1440 + 1, T mod 1440 / 60, T mod 1440 mod 60).
  split; [|split].
  - unfold valid_date. rewrite daysInMonth_table, Hdim.
    repeat (apply andb_true_intro; split); apply Z.leb_le; lia.
  - replace m with ((q + 1 - 1) * 525600 + rest) by lia.
    apply minsToDate_closed; lia.
  - rewrite dateToMins_closed by lia. f_equal. rewrite Z.max_l by lia. lia.
Qed.

Lemma minsToDate_month_bounded (n : nat) :
  forall fuel temp c total32,
    temp = 0 \/ temp = 1 -> 12 - c = Z.of_nat n -> 1 <= c -> (n < fuel)%nat ->
    exists month, minsToDate_month fuel temp c total32 = Ok month /\
                  c <= month <= 12.
Proof.
  induction n as [|n IH]; intros fuel temp c t Htemp Hn Hc Hfuel;
    (destruct fuel as [|fuel]; [lia|]); cbn [minsToDate_month].
  - destruct (Z.ltb_spec c 12); [lia|]. exists c. split; [reflexivity|lia].
  - destruct (Z.ltb_spec c 12); [|lia].
    assert (Hyd : exists yd, mon_yday temp c = Ok yd).
    { assert (Hcc : 1 <= c <= 12) by lia.
      destruct Htemp as [-> | ->]; each_month Hcc; try lia; eexists; reflexivity. }
    destruct Hyd as [yd ->]. cbn [bind].
    destruct (t <? wrap32 (yd * 24 * 60)).
    + exists c. split; [reflexivity|lia].
    + destruct (IH fuel temp (c + 1) t) as (month & Hrun & Hrange); try lia.
      exists month. split; [exact Hrun|lia].
Qed.

(** *** The statements of the specification about the codec *)

(** C2 (the leap-year predicate follows the Gregorian rule).  The
    predicate of the program answers [false] for the leap years 2000 and
    2004, which the Gregorian rule of the specification accepts; it agrees
    with the rule on 1900, 2100 and 2023 only because it answers [false]
    for every year. *)
Theorem isLeapYear_misses_leap_years :
  isLeapYear 2000 = false /\ gregorian_leap 2000 = true /\
  isLeapYear 2004 = false /\ gregorian_leap 2004 = true /\
  isLeapYear 1900 = false /\ isLeapYear 2100 = false /\
  isLeapYear 2023 = false /\
  forall year, isLeapYear year = false.
Proof.
  repeat (split; [reflexivity|]). exact isLeapYear_false.
Qed.

(** C1 (the codec restores every valid date of the supported range).
    29 February 2004 is a valid date of the Gregorian calendar; the
    program gives it the minute count of 1 March 2004 and therefore
    returns 1 March 2004 for it, so that two valid dates share one count. *)
Theorem leap_day_not_restored :
  gregorian_valid_date (2004, 2, 29, 0, 0) = true /\
  gregorian_valid_date (2004, 3, 1, 0, 0) = true /\
  dateToMins 2004 2 29 0 0 = dateToMins 2004 3 1 0 0 /\
  (m <- dateToMins 2004 2 29 0 0 ;; minsToDate m) = Ok (2004, 3, 1, 0, 0).
Proof. vm_compute. repeat split. Qed.

(** C10 (both conversions terminate on every input).  [minsToDate]
    returns a tuple for every minute count: its block search moves the
    index down from 9 and stops at -1 at the latest, its year loop takes
    525600 minutes off the 32-bit count in every round and so stops within
    [total32 / 525600 + 1] rounds, and its month loop stops at 12.
    [dateToMins] never runs out of fuel, and its year loop stops after
    [c - d] rounds from any start. *)
Theorem codec_terminates :
  (forall total64, exists dt, minsToDate total64 = Ok dt) /\
  (forall fuel d total64,
      -1 <= d <= 9 -> (Z.to_nat (d + 1) < fuel)%nat ->
      exists d', minsToDate_block fuel d total64 = Ok d' /\ -1 <= d' <= d) /\
  (forall fuel c year total32,
      0 <= total32 < 2^32 -> (Z.to_nat (total32 / 525600) < fuel)%nat ->
      exists rounds,
        0 <= rounds /\
        minsToDate_years fuel c year total32
        = Ok (year + rounds, total32 - 525600 * rounds) /\
        0 <= total32 - 525600 * rounds < 525600) /\
  (forall fuel temp total32,
      temp = 0 \/ temp = 1 -> (11 < fuel)%nat ->
      exists month, minsToDate_month fuel temp 1 total32 = Ok month /\
                    1 <= month <= 12) /\
  (forall year month day hour minute,
      dateToMins year month day hour minute <> OutOfFuel) /\
  (forall c d total32,
      0 <= total32 < 2^32 ->
      exists v, dateToMins_years (S (Z.to_nat (c - d))) c d total32 = Ok v).
Proof.
  split; [exact minsToDate_total|].
  split.
  { intros fuel d t Hd Hfuel.
    destruct (minsToDate_block_run (Z.to_nat (d + 1)) fuel d t)
      as (d' & Hrun & Hlo & Hneg & Hpos & _); try lia.
    exists d'. split; [exact Hrun|].
    destruct (Z.le_gt_cases 0 d) as [H|H]; [specialize (Hpos H)|specialize (Hneg H)]; lia. }
  split.
  { intros fuel c year t Ht Hfuel.
    pose proof (Z.div_mod t 525600 ltac:(lia)) as Hdm.
    pose proof (Z.mod_pos_bound t 525600 ltac:(lia)) as Hr.
    assert (0 <= t / 525600) by (apply Z.div_pos; lia).
    exists (t / 525600). split; [lia|].
    rewrite (minsToDate_years_run (Z.to_nat (t / 525600))) by lia.
    split; [f_equal; f_equal; lia|lia]. }
  split.
  { intros fuel temp t Htemp Hfuel.
    apply (minsToDate_month_bounded 11); try lia; assumption. }
  split.
  { intros. apply dateToMins_total. }
  intros c d t Ht. apply dateToMins_years_terminates, Ht.
Qed.

(** An instance: the largest 64-bit count, the block search from 9 on the
    count 0, and the month loop on the last minute of a year. *)
Lemma codec_terminates_witness :
  (exists dt, minsToDate (2^64 - 1) = Ok dt) /\
  (exists d', minsToDate_block 11 9 0 = Ok d' /\ -1 <= d' <= 9) /\
  (exists month, minsToDate_month 12 0 1 525599 = Ok month /\ 1 <= month <= 12).
Proof.
  destruct codec_terminates as (Hall & Hblock & _ & Hmonth & _).
  split; [apply Hall|]. split.
  - apply Hblock; [lia|vm_compute; lia].
  - apply Hmonth; [left; reflexivity|lia].
Defined.

End CodecFacts.

Module TimeFacts.
Import Codec Clock Time CodecFacts.

Lemma clamp_id lo hi x : lo <= x <= hi -> clamp lo hi x = x.
Proof.
  intros H. unfold clamp.
  destruct (Z.ltb_spec x lo); [lia|]. destruct (Z.gtb_spec x hi); [lia|].
  reflexivity.
Qed.

(** [epochMinutes] is the count of [dateToMins] wherever the latter has
    one. *)
Lemma epochMinutes_dateToMins year month day hour minute :
  1 <= year <= 9999 -> 1 <= month <= 12 ->
  1 <= day <= 256 -> 0 <= hour < 256 -> 0 <= minute < 256 ->
  dateToMins year month day hour minute
  = Ok (epochMinutes year month day hour minute).
Proof.
  intros Hy Hmo Hd Hh Hmi. rewrite dateToMins_closed by lia.
  unfold epochMinutes. rewrite Z.max_l by lia. reflexivity.
Qed.

(** *** The pause of the rotation *)

Lemma pauseOver_early e a now P :
  autoPaused a = true -> pauseNow a = wrap32 P -> millis e = wrap32 now ->
  P <= now < P + pauseDelay a -> pauseDelay a <= 2^32 ->
  pauseOver e a = false.
Proof.
  intros Hp HP Hnow Hrange Hdelay. unfold pauseOver.
  rewrite Hp, HP, Hnow. cbn [negb orb].
  unfold wrap32. rewrite <- Zminus_mod. rewrite Z.mod_small by lia.
  destruct (Z.geb_spec (now - P) (pauseDelay a)); [lia|reflexivity].
Qed.

Lemma pauseOver_late e a now P :
  pauseNow a = wrap32 P -> millis e = wrap32 now ->
  P + pauseDelay a <= now < P + 2^32 ->  0 <= pauseDelay a ->
  pauseOver e a = true.
Proof.
  intros HP Hnow Hrange Hdelay. unfold pauseOver.
  rewrite HP, Hnow. unfold wrap32. rewrite <- Zminus_mod.
  rewrite Z.mod_small by lia.
  destruct (Z.geb_spec (now - P) (pauseDelay a)); [|lia].
  apply orb_true_r.
Qed.

(** A check during the pause changes nothing but [autoIntDone]. *)
Lemma check_during_pause e dt s now P :
  autoPaused (ai s) = true -> pauseNow (ai s) = wrap32 P ->
  pauseDelay (ai s) = 30 * 60 * 1000 -> millis e = wrap32 now ->
  P <= now < P + 30 * 60 * 1000 ->
  time_loop_autoInterval e dt s
  = Ok (set_ai (mkAutoInt true (wrap32 P) (30 * 60 * 1000) false
                          (autoTime (ai s))) s).
Proof.
  intros Hp HP Hd Hnow Hrange. unfold time_loop_autoInterval.
  rewrite (pauseOver_early e (ai s) now P) by (rewrite ?Hd; auto; lia).
  rewrite andb_false_r. cbn [andb]. rewrite Hp, HP, Hd. reflexivity.
Qed.

Lemma run_checks_during_pause checks :
  forall s P,
    autoPaused (ai s) = true -> pauseNow (ai s) = wrap32 P ->
    pauseDelay (ai s) = 30 * 60 * 1000 ->
    Forall (fun c : env * DateTime =>
              exists now, P <= now < P + 30 * 60 * 1000 /\
                          millis (fst c) = wrap32 now) checks ->
    exists s', run_checks checks s = Ok s' /\
               autoTime (ai s') = autoTime (ai s) /\
               destinationTime s' = destinationTime s /\
               departedTime s' = departedTime s /\
               autoPaused (ai s') = true /\ pauseNow (ai s') = wrap32 P /\
               pauseDelay (ai s') = 30 * 60 * 1000.
Proof.
  induction checks as [|[e dt] rest IH]; intros s P Hp HP Hd Hall.
  - exists s. cbn. repeat split; auto.
  - apply Forall_cons in Hall as [(now & Hnow & Hmillis) Hrest].
    cbn [run_checks]. cbn [fst] in Hmillis.
    rewrite (check_during_pause e dt s now P) by auto. cbn [bind].
    destruct (IH (set_ai (mkAutoInt true (wrap32 P) (30 * 60 * 1000) false
                                    (autoTime (ai s))) s) P)
      as (s' & Hrun & Hauto & Hdest & Hdep & Hp' & HP' & Hd'); auto.
    exists s'. repeat split; auto.
Qed.

(** C7 (a pause suppresses the rotation for 30 minutes).  After
    [pauseAuto] at the time [P], with a rotation interval configured, no
    interval check made before [P + 30 min] advances the preset; a check
    that does advance it comes at [P + pauseDelay] or later, and one at
    that time on a matching minute does advance it.  Times are counted in
    milliseconds on the integers; [millis()] shows them modulo [2^32]. *)
Theorem pause_suppresses_rotation e0 s P checks :
  interval e0 <> 0 -> millis e0 = wrap32 P ->
  Forall (fun c : env * DateTime =>
            exists now, P <= now < P + 30 * 60 * 1000 /\
                        millis (fst c) = wrap32 now) checks ->
  exists s',
    run_checks checks (set_ai (pauseAuto e0 (ai s)) s) = Ok s' /\
    autoTime (ai s') = autoTime (ai s) /\
    destinationTime s' = destinationTime s /\
    departedTime s' = departedTime s /\
    autoPaused (ai s') = true /\
    pauseDelay (ai s') = 30 * 60 * 1000 /\
    (forall e dt s2 now,
        millis e = wrap32 now -> P <= now < P + 2^32 ->
        time_loop_autoInterval e dt s' = Ok s2 ->
        autoTime (ai s2) <> autoTime (ai s') ->
        P + pauseDelay (ai s') <= now) /\
    (forall e dt now,
        millis e = wrap32 now -> P + pauseDelay (ai s') <= now < P + 2^32 ->
        interval e = interval e0 -> dt_second dt = 59 ->
        Z.rem (if dt_minute dt =? 59 then 0 else dt_minute dt + 1)
              (interval e) = 0 ->
        autoIntDone (ai s') = false -> 0 <= autoTime (ai s') <= 7 ->
        exists s2,
          time_loop_autoInterval e dt s' = Ok s2 /\
          autoTime (ai s2)
          = (if autoTime (ai s') + 1 >? 7 then 0 else autoTime (ai s') + 1) /\
          autoPaused (ai s2) = false).
Proof.
  intros Hint HP Hall.
  set (s0 := set_ai (pauseAuto e0 (ai s)) s).
  assert (Hs0 : ai s0 = mkAutoInt true (wrap32 P) (30 * 60 * 1000)
                                  (autoIntDone (ai s)) (autoTime (ai s))).
  { subst s0. unfold pauseAuto. destruct (Z.eqb_spec (interval e0) 0); [lia|].
    cbn. rewrite HP. reflexivity. }
  destruct (run_checks_during_pause checks s0 P)
    as (s' & Hrun & Hauto & Hdest & Hdep & Hp' & HP' & Hd'); auto;
    try (rewrite Hs0; reflexivity).
  exists s'. rewrite Hs0 in Hauto. cbn in Hauto.
  split; [exact Hrun|]. split; [exact Hauto|].
  split; [exact Hdest|]. split; [exact Hdep|]. split; [exact Hp'|].
  split; [exact Hd'|]. split.
  - intros e dt s2 now Hmillis Hnow Hstep Hadv. rewrite Hd'.
    destruct (Z.le_gt_cases (P + 30 * 60 * 1000) now) as [Hle|Hgt]; [exact Hle|].
    exfalso. apply Hadv.
    rewrite (check_during_pause e dt s' now P) in Hstep by (auto; lia).
    injection Hstep as <-. reflexivity.
  - intros e dt now Hmillis Hnow Hsame Hsec Hmin Hdone Hrange.
    unfold time_loop_autoInterval.
    rewrite Hsec, Hmin, Hsame.
    rewrite (pauseOver_late e (ai s') now P) by (auto; lia).
    destruct (Z.eqb_spec (interval e0) 0); [lia|]. cbn [Z.eqb andb negb].
    rewrite Hdone. cbn [negb].
    set (next := if autoTime (ai s') + 1 >? 7 then 0 else autoTime (ai s') + 1).
    assert (Hnext : 0 <= next <= 7)
      by (subst next; destruct (Z.gtb_spec (autoTime (ai s') + 1) 7); lia).
    assert (Hpre : forall table, length table = 8%nat ->
                                 exists v, preset table next = Ok v).
    { intros table Hlen. unfold preset. rewrite Hlen.
      destruct (Z.leb_spec 0 next); [|lia].
      destruct (Z.ltb_spec next (Z.of_nat 8)); [|lia]. cbn [andb].
      destruct (table !! Z.to_nat next) eqn:Hl; [eauto|].
      apply lookup_ge_None in Hl. lia. }
    destruct (Hpre destinationTimes eq_refl) as [dest ->].
    destruct (Hpre departedTimes eq_refl) as [dep ->]. cbn [bind].
    eexists. split; [reflexivity|]. destruct (FPBUnitIsOn e); split; reflexivity.
Qed.

(** An instance: a pause at second 1 and a check a minute later, on a
    minute:59 that matches the interval of 5. *)
Lemma pause_suppresses_rotation_witness :
  exists s',
    run_checks [(mkEnv 5 1400 true true 61000, mkDateTime 2015 10 26 1 24 59)]
               (set_ai (pauseAuto env0 (ai tcd0)) tcd0) = Ok s' /\
    autoTime (ai s') = 0.
Proof.
  assert (Hint : interval env0 <> 0) by (cbn; lia).
  assert (HP : millis env0 = wrap32 1000) by reflexivity.
  assert (Hall : Forall (fun c : env * DateTime =>
                           exists now, 1000 <= now < 1000 + 30 * 60 * 1000 /\
                                       millis (fst c) = wrap32 now)
                        [(mkEnv 5 1400 true true 61000,
                          mkDateTime 2015 10 26 1 24 59)]).
  { constructor; [|constructor].
    exists 61000. split; [lia|reflexivity]. }
  destruct (pause_suppresses_rotation env0 tcd0 1000 _ Hint HP Hall)
    as (s' & Hrun & Hauto & _).
  exists s'. split; [exact Hrun|exact Hauto].
Defined.

(** *** The short commit of a time travel *)

(** C3, as the program has it.  With the present clock holding a date
    the mutators accept, the hardware clock in the years 1 to 9999 and the
    destination a date of the codec's range, [timeTravel(false)] leaves in
    the departed clock the effective date of the present clock with year
    offset 0, stores the absolute difference of the two minute counts with
    [timeDiffUp] set exactly when the destination is later, and the offset
    so stored takes the hardware clock's count to the destination's, which
    [minsToDate] turns back into the destination date. *)
Theorem timeTravel_short_commit e s :
  1 <= cd_month (presentTime s) <= 12 ->
  (exists dim,
      daysInMonth (cd_month (presentTime s))
                  (cd_year (presentTime s) - cd_yearOffset (presentTime s))
      = Ok dim /\ 1 <= cd_day (presentTime s) <= dim) ->
  1 <= dt_year (rtc s) - cd_yearOffset (presentTime s) <= 9999 ->
  1 <= dt_month (rtc s) <= 12 ->
  valid_date (cd_year (destinationTime s), cd_month (destinationTime s),
              cd_day (destinationTime s), cd_hour (destinationTime s),
              cd_minute (destinationTime s)) = true ->
  exists s' rtcTime newTime,
    timeTravel e false s = Ok s' /\
    dateToMins (dt_year (rtc s) - cd_yearOffset (presentTime s))
               (dt_month (rtc s)) (dt_day (rtc s)) (dt_hour (rtc s))
               (dt_minute (rtc s)) = Ok rtcTime /\
    dateToMins (cd_year (destinationTime s)) (cd_month (destinationTime s))
               (cd_day (destinationTime s)) (cd_hour (destinationTime s))
               (cd_minute (destinationTime s)) = Ok newTime /\
    effective (departedTime s') = effective (presentTime s) /\
    cd_yearOffset (departedTime s') = 0 /\
    timeDifference (tr s') = Z.abs (newTime - rtcTime) /\
    timeDiffUp (tr s') = (rtcTime <? newTime) /\
    applyOffset (tr s') rtcTime = newTime /\
    minsToDate (applyOffset (tr s') rtcTime)
    = Ok (cd_year (destinationTime s), cd_month (destinationTime s),
          cd_day (destinationTime s), cd_hour (destinationTime s),
          cd_minute (destinationTime s)) /\
    destinationTime s' = destinationTime s /\
    presentTime s' = presentTime s.
Proof.
  intros Hpm (dim & Hdim & Hpd) Hry Hrm Hdest.
  destruct (roundtrip_program_calendar _ _ _ _ _ Hdest) as (newTime & Hnew & Hnr & Hback).
  destruct (dateToMins_total (dt_year (rtc s) - cd_yearOffset (presentTime s))
              (dt_month (rtc s)) (dt_day (rtc s)) (dt_hour (rtc s))
              (dt_minute (rtc s))) as [_ Hrtc].
  destruct Hrtc as (rtcTime & Hrtc & Hrr); [|lia|].
  { rewrite Z.quot_div_nonneg by lia.
    split; [apply Z.div_pos; lia|].
    assert ((dt_year (rtc s) - cd_yearOffset (presentTime s)) / 1000 < 10)
      by (apply Z.div_lt_upper_bound; lia). lia. }
  destruct s as [p d dep t a r l]. cbn [presentTime destinationTime rtc] in *.
  assert (Hdep : forall dep',
    effective (setYearOffset 0 (setMinute (cd_minute p) (setHour (cd_hour p)
                (setDay (cd_day p) (setMonth (cd_month p)
                  (setYear (cd_year p - cd_yearOffset p) dep'))))))
    = effective p /\
    cd_yearOffset (setYearOffset 0 (setMinute (cd_minute p) (setHour (cd_hour p)
                (setDay (cd_day p) (setMonth (cd_month p)
                  (setYear (cd_year p - cd_yearOffset p) dep')))))) = 0).
  { intros dep'. unfold effective, setYearOffset, setMinute, setHour, setDay,
      setMonth, setYear. cbn [cd_year cd_month cd_day cd_hour cd_minute
                              cd_yearOffset].
    rewrite (clamp_id 1 12) by lia. rewrite Hdim.
    rewrite (clamp_id 1 dim) by lia.
    split; [|reflexivity]. f_equal. f_equal. f_equal. f_equal. lia. }
  unfold timeTravel, getYear, getMonth, getDay, getHour, getMinute,
    getYearOffset. cbv zeta.
  destruct (timetravelPersistent e);
    cbn [set_ai set_tr set_departedTime emit presentTime destinationTime
         departedTime tr ai rtc log myrtcnow getYear getMonth getDay getHour
         getMinute getYearOffset negb];
    rewrite Hrtc; cbn [bind]; rewrite Hnew; cbn [bind];
    destruct (Z.ltb_spec rtcTime newTime) as [Hlt|Hge];
    eexists; exists rtcTime, newTime;
    (split; [reflexivity|]); (split; [reflexivity|]); (split; [reflexivity|]);
    cbn [presentTime destinationTime departedTime tr timeDifference timeDiffUp
         emit set_tr set_departedTime set_ai];
    (split; [apply Hdep|]); (split; [apply Hdep|]);
    unfold applyOffset; cbn [timeDifference timeDiffUp];
    rewrite wrap64_small by lia;
    (split; [lia|]);
    (split; [first [symmetry; apply Z.ltb_lt; lia
                   |symmetry; apply Z.ltb_ge; lia]|]);
    match goal with
    | |- ?x = newTime /\ _ => replace x with newTime by lia
    end;
    (split; [reflexivity|]); (split; [exact Hback|]); split; reflexivity.
Qed.

(** An instance: the travel from 26 October 2015 to 26 October 1985. *)
Lemma timeTravel_short_commit_witness :
  exists s' rtcTime newTime,
    timeTravel env0 false tcd0 = Ok s' /\
    timeDifference (tr s') = Z.abs (newTime - rtcTime) /\
    minsToDate (applyOffset (tr s') rtcTime) = Ok (1985, 10, 26, 1, 21).
Proof.
  assert (H1 : 1 <= cd_month (presentTime tcd0) <= 12) by (cbn; lia).
  assert (H2 : exists dim,
             daysInMonth (cd_month (presentTime tcd0))
                         (cd_year (presentTime tcd0)
                          - cd_yearOffset (presentTime tcd0)) = Ok dim /\
             1 <= cd_day (presentTime tcd0) <= dim)
    by (exists 31; split; [reflexivity|cbn; lia]).
  assert (H3 : 1 <= dt_year (rtc tcd0) - cd_yearOffset (presentTime tcd0)
               <= 9999) by (cbn; lia).
  assert (H4 : 1 <= dt_month (rtc tcd0) <= 12) by (cbn; lia).
  assert (H5 : valid_date (cd_year (destinationTime tcd0),
                           cd_month (destinationTime tcd0),
                           cd_day (destinationTime tcd0),
                           cd_hour (destinationTime tcd0),
                           cd_minute (destinationTime tcd0)) = true)
    by reflexivity.
  destruct (timeTravel_short_commit env0 tcd0 H1 H2 H3 H4 H5)
    as (s' & rtcTime & newTime & Hrun & _ & _ & _ & _ & Hdiff & _ & _ & Hshow & _).
  exists s', rtcTime, newTime. split; [exact Hrun|]. split; [exact Hdiff|].
  exact Hshow.
Defined.

(** C3 as stated, for every prior state: with the destination in the year
    0, which the keypad admits and [dateToMins] counts as the year 1, the
    present time after the commit is 1 January of the year 1 and not the
    destination. *)
Lemma timeTravel_to_year_0 :
  exists s' rtcTime shown,
    timeTravel env0 false tcd_year0 = Ok s' /\
    dateToMins (dt_year (rtc tcd_year0)
                - cd_yearOffset (presentTime tcd_year0))
               (dt_month (rtc tcd_year0)) (dt_day (rtc tcd_year0))
               (dt_hour (rtc tcd_year0)) (dt_minute (rtc tcd_year0))
    = Ok rtcTime /\
    minsToDate (applyOffset (tr s') rtcTime) = Ok shown /\
    shown = (1, 1, 1, 0, 0) /\
    effective (destinationTime s') = (0, 1, 1, 0, 0) /\
    shown <> effective (destinationTime s').
Proof.
  destruct (timeTravel env0 false tcd_year0) as [s'| |] eqn:Hrun;
    [|vm_compute in Hrun; discriminate..].
  exists s', 1058987601, (1, 1, 1, 0, 0).
  vm_compute in Hrun. injection Hrun as <-.
  split; [reflexivity|]. split; [vm_compute; reflexivity|].
  split; [vm_compute; reflexivity|]. split; [reflexivity|].
  split; [reflexivity|]. discriminate.
Qed.

(** *** The rollover of the year 9999 *)

(** C6, as the program has it.  When the effective year of the hardware
    clock is past 9999, the block sets the clock's year to 2017 and the
    year offset to 2016, keeps the other fields, and turns a non-zero
    [timeDifference] into [5255474400 - timeDifference] with the opposite
    direction; no sound is played.  At the rollover itself (effective year
    10000) the present time after the block is the one before it up to
    whole cycles of 5255474400 minutes (9999 years), and is exactly the one
    before it when the offset was a subtracting one. *)
Theorem rollover_remaps e s :
  dt_year (rtc s) - cd_yearOffset (presentTime s) > 9999 ->
  1 <= dt_month (rtc s) <= 12 -> 1 <= dt_day (rtc s) <= 31 ->
  0 <= dt_hour (rtc s) <= 23 -> 0 <= dt_minute (rtc s) <= 59 ->
  0 <= timeDifference (tr s) <= 5255474400 ->
  exists s' dt' after,
    time_loop_rollover e (rtc s) s = (s', dt') /\
    dt' = mkDateTime 2017 (dt_month (rtc s)) (dt_day (rtc s))
                     (dt_hour (rtc s)) (dt_minute (rtc s))
                     (dt_second (rtc s)) /\
    rtc s' = dt' /\
    cd_yearOffset (presentTime s') = 2016 /\
    (timeDifference (tr s) <> 0 ->
     timeDifference (tr s') = 5255474400 - timeDifference (tr s) /\
     timeDiffUp (tr s') = negb (timeDiffUp (tr s))) /\
    (timeDifference (tr s) = 0 -> tr s' = tr s) /\
    (exists save, log s' = log s ++ [Call "Serial.println"; Call save]) /\
    dateToMins (dt_year dt' - cd_yearOffset (presentTime s')) (dt_month dt')
               (dt_day dt') (dt_hour dt') (dt_minute dt') = Ok after /\
    (dt_year (rtc s) - cd_yearOffset (presentTime s) = 10000 ->
     let before := epochMinutes 10000 (dt_month (rtc s)) (dt_day (rtc s))
                                (dt_hour (rtc s)) (dt_minute (rtc s)) in
     (applyOffset (tr s) before - applyOffset (tr s') after) mod 5255474400 = 0 /\
     (timeDifference (tr s) <> 0 -> timeDiffUp (tr s) = false ->
      applyOffset (tr s') after = applyOffset (tr s) before)).
Proof.
  intros Hyear Hmo Hd Hh Hmi Hdiff.
  destruct s as [p d dep t a r l].
  cbn [presentTime rtc tr log] in *.
  unfold time_loop_rollover, getYearOffset. cbn [presentTime].
  destruct (Z.gtb_spec (dt_year r - cd_yearOffset p) 9999) as [_|Hle]; [|lia].
  cbv zeta.
  cbn [emit set_tr set_presentTime set_rtc presentTime destinationTime
       departedTime tr ai rtc log myrtcnow].
  set (after := epochMinutes 1 (dt_month r) (dt_day r) (dt_hour r) (dt_minute r)).
  assert (Hafter : dateToMins (2017 - 2016) (dt_month r) (dt_day r) (dt_hour r)
                              (dt_minute r) = Ok after)
    by (apply epochMinutes_dateToMins; lia).
  assert (Hcycle : epochMinutes 10000 (dt_month r) (dt_day r) (dt_hour r)
                                (dt_minute r) = after + 5255474400)
    by (subst after; unfold epochMinutes; lia).
  destruct (Z.eqb_spec (timeDifference t) 0) as [Hz|Hnz]; cbn [negb];
    destruct (timetravelPersistent e);
    cbn [emit set_tr set_presentTime set_rtc presentTime destinationTime
         departedTime tr ai rtc log];
    eexists; eexists; exists after;
    (split; [reflexivity|]); (split; [reflexivity|]); (split; [reflexivity|]);
    (split; [reflexivity|]);
    cbn [presentTime tr rtc log timeDifference timeDiffUp setYearOffset
         cd_yearOffset dt_year dt_month dt_day dt_hour dt_minute
         emit set_tr set_presentTime set_rtc myrtcnow];
    (split; [intros Hne; try lia; rewrite wrap64_small by lia; split; reflexivity|]);
    (split; [intros He; try lia; reflexivity|]);
    (split; [eexists; rewrite <- app_assoc; reflexivity|]);
    (split; [exact Hafter|]);
    intros _; cbv zeta; rewrite Hcycle; unfold applyOffset;
    cbn [timeDifference timeDiffUp]; rewrite ?wrap64_small by lia;
    destruct (timeDiffUp t); cbn [negb];
    (split;
     [match goal with
      | |- ?x mod _ = 0 =>
          first [replace x with (0 * 5255474400) by lia
                |replace x with (1 * 5255474400) by lia
                |replace x with (2 * 5255474400) by lia];
          apply Z.mod_mul; lia
      end
     |intros; first [lia|discriminate]]).
Qed.

(** An instance: the present time a day behind the hardware clock at the
    rollover. *)
Lemma rollover_remaps_witness :
  exists s' dt',
    time_loop_rollover env0 (rtc tcd_rollover_behind) tcd_rollover_behind
    = (s', dt') /\
    applyOffset (tr s') 0 = applyOffset (tr tcd_rollover_behind) 5255474400.
Proof.
  assert (H1 : dt_year (rtc tcd_rollover_behind)
               - cd_yearOffset (presentTime tcd_rollover_behind) > 9999)
    by (cbn; lia).
  assert (H2 : 1 <= dt_month (rtc tcd_rollover_behind) <= 12) by (cbn; lia).
  assert (H3 : 1 <= dt_day (rtc tcd_rollover_behind) <= 31) by (cbn; lia).
  assert (H4 : 0 <= dt_hour (rtc tcd_rollover_behind) <= 23) by (cbn; lia).
  assert (H5 : 0 <= dt_minute (rtc tcd_rollover_behind) <= 59) by (cbn; lia).
  assert (H6 : 0 <= timeDifference (tr tcd_rollover_behind) <= 5255474400)
    by (cbn; lia).
  destruct (rollover_remaps env0 tcd_rollover_behind H1 H2 H3 H4 H5 H6)
    as (s' & dt' & after & Hrun & _ & _ & _ & _ & _ & _ & _ & _).
  exists s', dt'. split; [exact Hrun|].
  vm_compute in Hrun. injection Hrun as <- <-. reflexivity.
Defined.

(** C6 as stated: with the present time a day ahead of the hardware clock
    at the rollover, the offset after the block is 5255472960 minutes to be
    subtracted, and the present time it gives (1440 - 5255474400) is not
    the one before the block (5255474400 + 1440). *)
Lemma rollover_moves_display_when_ahead :
  let s := tcd_rollover_ahead in
  let '(s', dt') := time_loop_rollover env0 (rtc s) s in
  dt_year (rtc s) - cd_yearOffset (presentTime s) > 9999 /\
  dateToMins (dt_year dt' - cd_yearOffset (presentTime s')) (dt_month dt')
             (dt_day dt') (dt_hour dt') (dt_minute dt') = Ok 0 /\
  tr s' = mkTravel 5255472960 false 0 false 0 0 0 /\
  applyOffset (tr s') 0 = 1440 - 5255474400 /\
  applyOffset (tr s) (epochMinutes 10000 1 1 0 0) = 5255474400 + 1440 /\
  applyOffset (tr s') 0 <> applyOffset (tr s) (epochMinutes 10000 1 1 0 0).
Proof. vm_compute. repeat split; try discriminate. Qed.

End TimeFacts.

Module KeypadFacts.
Import Codec Clock Time Keypad CodecFacts TimeFacts.

(** *** The buffer *)

Lemma store_Ok buf i v :
  0 <= i < Z.of_nat (length buf) -> store buf i v = Ok (<[Z.to_nat i := v]> buf).
Proof.
  intros H. unfold store.
  destruct (Z.leb_spec 0 i); [|lia].
  destruct (Z.ltb_spec i (Z.of_nat (length buf))); [|lia]. reflexivity.
Qed.

Lemma index_total table i :
  0 <= i < Z.of_nat (length table) -> exists v, index table i = Ok v.
Proof.
  intros H. destruct (table !! Z.to_nat i) eqn:Hl.
  - exists z. apply index_Ok; [lia|exact Hl].
  - apply lookup_ge_None in Hl. lia.
Qed.

Lemma strlen_from_bound buf :
  forall n k, buf !! k = Some 0 ->
              exists m, strlen_from n buf = Ok m /\ n <= m <= n + Z.of_nat k.
Proof.
  induction buf as [|c rest IH]; intros n k Hk; [discriminate|].
  cbn [strlen_from]. destruct (Z.eqb_spec c 0) as [->|Hc].
  - exists n. split; [reflexivity|lia].
  - destruct k as [|k]; [cbn in Hk; congruence|]. cbn in Hk.
    destruct (IH (n + 1) k Hk) as (m & Hm & Hrange).
    exists m. split; [exact Hm|lia].
Qed.

Lemma strlen_bound buf k :
  buf !! k = Some 0 ->
  exists m, strlen buf = Ok m /\ 0 <= m <= Z.of_nat k.
Proof. intros H. apply (strlen_from_bound buf 0 k H). Qed.

Lemma strlen_cleared (buf : list Z) :
  (0 < length buf)%nat -> strlen (<[0%nat := 0]> buf) = Ok 0.
Proof. destruct buf; cbn; [lia|reflexivity]. Qed.

(** A key goes into the buffer without a write outside of it, and the
    buffer stays a string of at most 12 characters. *)
Lemma recordKey_ok now key k :
  buffer_ok k -> exists k', recordKey now key k = Ok k' /\ buffer_ok k'.
Proof.
  intros (Hlen & Hidx & _). unfold DATELEN_MAX, DATELEN_ALL in Hidx.
  unfold recordKey.
  rewrite store_Ok by lia. cbn [bind].
  rewrite store_Ok by (rewrite length_insert; lia). cbn [bind].
  eexists. split; [reflexivity|].
  unfold buffer_ok. cbn [dateBuffer dateIndex]. rewrite !length_insert.
  unfold DATELEN_MAX, DATELEN_ALL.
  split; [exact Hlen|]. split.
  - destruct (Z.geb_spec (dateIndex k + 1) 12); lia.
  - destruct (strlen_bound
                (<[Z.to_nat (dateIndex k + 1) := 0]>
                   (<[Z.to_nat (dateIndex k) := key]> (dateBuffer k)))
                (Z.to_nat (dateIndex k + 1))) as (m & Hm & Hrange).
    + apply list_lookup_insert_eq. rewrite length_insert. lia.
    + exists m. split; [exact Hm|lia].
Qed.

Lemma discard_ok now k :
  buffer_ok k ->
  exists k', keypad_loop_discard now k = Ok k' /\ buffer_ok k' /\
             (2 * 60 * 1000 <= wrap32 (now - lastKeyPressed k) ->
              buffer_clear k').
Proof.
  intros (Hlen & Hidx & Hstr). unfold keypad_loop_discard.
  destruct (Z.geb_spec (wrap32 (now - lastKeyPressed k)) (2 * 60 * 1000)).
  - rewrite store_Ok by lia. cbn [bind]. eexists. split; [reflexivity|].
    assert (Hz : strlen (<[0%nat := 0]> (dateBuffer k)) = Ok 0)
      by (apply strlen_cleared; lia).
    split.
    + unfold buffer_ok. cbn [dateBuffer dateIndex]. rewrite length_insert.
      unfold DATELEN_MAX, DATELEN_ALL. split; [exact Hlen|]. split; [lia|].
      exists 0. split; [exact Hz|lia].
    + intros _. split; [exact Hz|reflexivity].
  - exists k. split; [reflexivity|].
    split; [exact (conj Hlen (conj Hidx Hstr))|lia].
Qed.

(** *** The branches of the entry logic *)

Lemma read2digs_total buf idx :
  length buf = 14%nat -> 0 <= idx <= 12 ->
  exists v, read2digs buf idx = Ok v /\ 0 <= v < 256.
Proof.
  intros Hlen Hidx. unfold read2digs.
  destruct (index_total buf idx) as [c0 ->]; [lia|].
  destruct (index_total buf (idx + 1)) as [c1 ->]; [lia|]. cbn [bind].
  eexists. split; [reflexivity|]. unfold wrap8. apply Z.mod_pos_bound. lia.
Qed.

Lemma daysInMonth_total month year :
  1 <= month <= 12 ->
  exists dim, daysInMonth month year = Ok dim /\ 28 <= dim <= 31.
Proof.
  intros H. rewrite daysInMonth_table.
  destruct (yday0_next month H) as (dim & -> & _ & Hdim). eauto.
Qed.

Lemma preset_total table i :
  length table = 8%nat -> 0 <= i <= 7 -> exists v, preset table i = Ok v.
Proof.
  intros Hlen Hi. unfold preset. rewrite Hlen.
  destruct (Z.leb_spec 0 i); [|lia].
  destruct (Z.ltb_spec i (Z.of_nat 8)); [|lia]. cbn [andb].
  destruct (table !! Z.to_nat i) eqn:Hl; [eauto|].
  apply lookup_ge_None in Hl. lia.
Qed.

(** Close a goal [branch_ok d (Continue ...)] once the branch is
    computed. *)
Ltac branch_done :=
  cbn; repeat split; try reflexivity;
  try (intros; discriminate); try (intros; repeat split; reflexivity).

Ltac split_ifs :=
  repeat match goal with
    | |- context [if ?c then _ else _] => destruct c
    end.

(** Read the next pair of digits of a buffer of 14 characters. *)
Ltac read_digits Hlen :=
  match goal with
  | |- context [read2digs ?buf ?idx] =>
      let v := fresh "v" in
      let Hv := fresh "Hv" in
      destruct (read2digs_total buf idx Hlen ltac:(lia)) as (v & -> & Hv);
      cbn [bind]
  end.

Lemma setupWCMode_ok e d :
  0 <= autoTime (ai (tc d)) <= 7 ->
  exists d', setupWCMode e d = Ok d' /\
             dateBuffer (kp d') = dateBuffer (kp d) /\
             autoTime (ai (tc d')) = autoTime (ai (tc d)).
Proof.
  intros Hauto. unfold setupWCMode.
  destruct (preset_total destinationTimes _ eq_refl Hauto) as [s1 Hs1].
  destruct (preset_total departedTimes _ eq_refl Hauto) as [s2 Hs2].
  destruct (setup_isWcMode e); [eexists; split; [reflexivity|split; reflexivity]|].
  destruct ((interval (te e) =? 0)
            || timetravelPersistent (te e) && checkIfAutoPaused (te e) (ai (tc d))).
  - destruct (WcHaveTZ1 e), (WcHaveTZ2 e);
      eexists; (split; [reflexivity|split; reflexivity]).
  - destruct (WcHaveTZ1 e), (WcHaveTZ2 e); cbn [bind];
      rewrite ?Hs1; cbn [bind];
      cbn [set_destination set_tc set_destinationTime tc ai autoTime];
      rewrite ?Hs2; cbn [bind];
      eexists; (split; [reflexivity|split; reflexivity]).
Qed.

(** The parsing always yields fields; of a date, the month lies in
    [1,12] and the day in [1, daysInMonth]; hour and minute are [-1]
    unless the entry has them. *)
Lemma parse_date_total e strLen buf :
  length buf = 14%nat ->
  exists p, parse_date e strLen buf = Ok p /\
    (strLen <> DATELEN_TIME ->
     1 <= _setMonth p <= 12 /\
     (exists dim, daysInMonth (_setMonth p) (_setYear p) = Ok dim /\
                  1 <= _setDay p <= dim) /\
     0 <= _setYear p /\
     (strLen <> DATELEN_ALL -> _setHour p = -1 /\ _setMin p = -1)) /\
    (strLen = DATELEN_TIME ->
     _setMonth p = -1 /\ _setDay p = -1 /\ _setYear p = -1).
Proof.
  intros Hlen. unfold parse_date. do 2 read_digits Hlen.
  destruct (Z.eqb_spec strLen DATELEN_TIME) as [Ht|Ht].
  { eexists. split; [reflexivity|]. split; [intros; contradiction|].
    intros _. repeat split. }
  do 2 read_digits Hlen.
  assert (Hhm : exists hm,
    (if strLen =? DATELEN_ALL
     then (h <- read2digs buf 8 ;; m <- read2digs buf 10 ;; Ok (h, m))
     else Ok (-1, -1)) = Ok hm /\
    (strLen <> DATELEN_ALL -> hm = (-1, -1))).
  { destruct (Z.eqb_spec strLen DATELEN_ALL).
    - do 2 read_digits Hlen. eexists. split; [reflexivity|]. intros; contradiction.
    - eexists. split; [reflexivity|]. reflexivity. }
  destruct Hhm as (hm & -> & Hhm). cbn [bind]. cbv zeta.
  set (mo := if (if v <? 1 then 1 else v) >? 12 then 12
             else (if v <? 1 then 1 else v)).
  assert (Hmo : 1 <= mo <= 12).
  { subst mo. destruct (Z.ltb_spec v 1);
      [cbn; lia|destruct (Z.gtb_spec v 12); lia]. }
  destruct (daysInMonth_total mo (v1 * 100 + v2) Hmo) as (dim & Hdim & Hrange).
  rewrite Hdim. cbn [bind].
  eexists. split; [reflexivity|]. cbn [_setMonth _setDay _setYear _setHour _setMin].
  split; [|intros; contradiction]. intros _.
  split; [exact Hmo|]. split.
  - exists dim. split; [exact Hdim|].
    destruct (Z.ltb_spec v0 1);
      [destruct (Z.gtb_spec 1 dim); lia|destruct (Z.gtb_spec v0 dim); lia].
  - split; [lia|]. intros Hne. rewrite (Hhm Hne). split; reflexivity.
Qed.

(** The branches on one device [d] whose buffer has its 14 characters and
    whose preset index is one of the tables. *)
Section Branches.

Variable e : kenv.
Variable d : device.
Hypothesis Hlen : length (dateBuffer (kp d)) = 14%nat.
Hypothesis Hauto : 0 <= autoTime (ai (tc d)) <= 7.

Lemma enter_2digits_ok : branch_ok d (enter_2digits e d).
Proof. unfold enter_2digits, show_status. split_ifs; branch_done. Qed.

Lemma enter_5digits_ok : branch_ok d (enter_5digits e d).
Proof. unfold enter_5digits. split_ifs; branch_done. Qed.

Lemma enter_3digits_ok : exists b, enter_3digits e d = Ok b /\ branch_ok d b.
Proof.
  unfold enter_3digits, show_status. cbv zeta.
  split_ifs; try (eexists; split; [reflexivity|branch_done]);
    match goal with
    | |- context [setupWCMode ?e ?x] =>
        destruct (setupWCMode_ok e x) as (d1 & -> & Hb & Ha);
        [cbn; exact Hauto|]; cbn [bind];
        eexists; (split; [reflexivity|]); cbn in Hb, Ha |- *;
        rewrite Hb, Ha; branch_done
    end.
Qed.

Lemma enter_6digits_ok : exists b, enter_6digits e d = Ok b /\ branch_ok d b.
Proof.
  unfold enter_6digits, show_status. cbv zeta.
  read_digits Hlen.
  destruct (v =? 11).
  { do 2 read_digits Hlen.
    split_ifs; eexists; (split; [reflexivity|branch_done]). }
  destruct (v =? 77).
  { do 2 read_digits Hlen.
    destruct (Z.leb_spec v0 12); cbn [andb];
      [|eexists; split; [reflexivity|branch_done]].
    destruct ((v1 >=? 1) && (v1 <=? 31));
      [|eexists; split; [reflexivity|branch_done]].
    destruct (Z.eqb_spec v0 0); cbn [bind orb].
    - split_ifs; eexists; (split; [reflexivity|branch_done]).
    - destruct (daysInMonth_total v0 2000) as (dim & -> & _); [lia|].
      cbn [bind].
      split_ifs; eexists; (split; [reflexivity|branch_done]). }
  destruct (haveMusic e && starts_with (chars "888") (dateBuffer (kp d))).
  { destruct (index_total (dateBuffer (kp d)) 3) as [c3 ->]; [lia|].
    cbn [bind]. read_digits Hlen.
    eexists; (split; [reflexivity|branch_done]). }
  eexists; (split; [reflexivity|branch_done]).
Qed.

Lemma enter_timer_ok : exists b, enter_timer e d = Ok b /\ branch_ok d b.
Proof.
  unfold enter_timer, show_status. read_digits Hlen.
  split_ifs; eexists; (split; [reflexivity|branch_done]).
Qed.

Lemma enter_10digits_ok : exists b, enter_10digits e d = Ok b /\ branch_ok d b.
Proof.
  unfold enter_10digits, show_status. cbv zeta.
  read_digits Hlen.
  destruct (v =? 77); [|eexists; split; [reflexivity|branch_done]].
  do 4 read_digits Hlen.
  destruct (Z.leb_spec v0 12); cbn [andb];
    [|eexists; split; [reflexivity|branch_done]].
  destruct ((v1 >=? 1) && (v1 <=? 31) && (v2 <=? 23) && (v3 <=? 59));
    [|eexists; split; [reflexivity|branch_done]].
  destruct (Z.eqb_spec v0 0); cbn [bind orb].
  - split_ifs; eexists; (split; [reflexivity|branch_done]).
  - destruct (daysInMonth_total v0 2000) as (dim & -> & _); [lia|].
    cbn [bind].
    split_ifs; eexists; (split; [reflexivity|branch_done]).
Qed.

(** The last branch never finds an entry invalid, and writes the
    destination clock through [copy_to_destination] only. *)
Lemma enter_date_ok strLen :
  exists p d' v,
    parse_date e strLen (dateBuffer (kp d)) = Ok p /\
    enter_date e strLen d = Ok (Continue d' v false true) /\
    dateBuffer (kp d') = dateBuffer (kp d) /\
    autoTime (ai (tc d')) = autoTime (ai (tc d)) /\
    destinationTime (tc d')
    = copy_to_destination p (destinationTime (tc d)).
Proof.
  unfold enter_date.
  destruct (parse_date_total e strLen _ Hlen) as (p & Hp & _).
  rewrite Hp. cbn [bind]. exists p.
  destruct (preset_total departedTimes _ eq_refl Hauto) as [s Hs].
  set (sp := if special p =? 1 then _ else _).
  assert (Hsp : dateBuffer (kp (fst sp)) = dateBuffer (kp d) /\
                tc (fst sp) = tc d \/
                (exists ev, tc (fst sp) = emit ev (tc d)) /\
                dateBuffer (kp (fst sp)) = dateBuffer (kp d)).
  { subst sp. split_ifs; cbn; eauto. }
  destruct sp as [d1 v1]. cbn [fst] in Hsp.
  assert (Hd1 : dateBuffer (kp d1) = dateBuffer (kp d) /\
                autoTime (ai (tc d1)) = autoTime (ai (tc d)) /\
                destinationTime (tc d1) = destinationTime (tc d)).
  { destruct Hsp as [[Hb Ht]|[[ev Ht] Hb]]; rewrite Ht; cbn; auto. }
  destruct Hd1 as (Hb1 & Ha1 & Hdest1).
  destruct (timetravelPersistent (te e));
    destruct (TC_HAVETEMP e && isRcMode e && (haveHum e || isWcMode e));
    destruct (isWcMode e && WcHaveTZ1 e); cbn [bind];
    try (destruct (WcHaveTZ2 e); cbn [bind];
         try (destruct ((interval (te e) =? 0) || _); cbn [bind]));
    cbn [set_destination set_tc set_destinationTime call emit tc ai autoTime
         set_needDepTime set_kp kp];
    rewrite ?Ha1, ?Hs; cbn [bind];
    eexists; eexists; (split; [reflexivity|]); (split; [reflexivity|]);
    cbn; rewrite ?Hb1, ?Ha1, ?Hdest1;
    (split; [reflexivity|]); split;
    try reflexivity; unfold pauseAuto; split_ifs; cbn; rewrite ?Ha1; reflexivity.
Qed.

Lemma enter_dispatch_ok strLen :
  exists b, enter_dispatch e strLen d = Ok b /\ branch_ok d b.
Proof.
  unfold enter_dispatch.
  assert (Hdate : exists b, enter_date e strLen d = Ok b /\ branch_ok d b).
  { destruct (enter_date_ok strLen)
      as (p & d' & v & _ & -> & Hb & Ha & _).
    eexists. split; [reflexivity|]. cbn. repeat split; auto; discriminate. }
  destruct (_ && _); [eexists; split; [reflexivity|branch_done]|].
  destruct (strLen =? DATELEN_ALSH);
    [eexists; split; [reflexivity|apply enter_2digits_ok]|].
  destruct (strLen =? DATELEN_CODE); [apply enter_3digits_ok|].
  destruct (strLen =? DATELEN_INT);
    [eexists; split; [reflexivity|apply enter_5digits_ok]|].
  destruct (strLen =? DATELEN_QALM); [apply enter_6digits_ok|].
  destruct (strLen =? DATELEN_TIME).
  { read_digits Hlen. destruct (v =? 44); [apply enter_timer_ok|exact Hdate]. }
  destruct (strLen =? DATELEN_REM); [apply enter_10digits_ok|exact Hdate].
Qed.

End Branches.

(** A pass through the entry logic ends with the restart or with an empty
    buffer; an entry found invalid gets the error sound and leaves the
    device as it was. *)
Lemma keypad_loop_enter_ok e d :
  buffer_ok (kp d) -> 0 <= autoTime (ai (tc d)) <= 7 ->
  exists o, keypad_loop_enter e d = Ok o /\
    match o with
    | Returned d' v i =>
        buffer_clear (kp d') /\ buffer_ok (kp d') /\
        autoTime (ai (tc d')) = autoTime (ai (tc d)) /\
        (i = true -> v = false /\ rejected e d d')
    | Restarted d' => autoTime (ai (tc d')) = autoTime (ai (tc d))
    end.
Proof.
  intros (Hlen & Hidx & (n & Hn & Hnr)) Hauto. unfold keypad_loop_enter.
  rewrite Hn. cbn [bind]. cbv zeta.
  set (d0 := set_kp _ (call "destinationTime.off" _)).
  assert (Hlen0 : length (dateBuffer (kp d0)) = 14%nat) by exact Hlen.
  assert (Hauto0 : 0 <= autoTime (ai (tc d0)) <= 7) by exact Hauto.
  destruct (enter_dispatch_ok e d0 Hlen0 Hauto0 n) as (b & -> & Hb).
  cbn [bind]. destruct b as [d1 v i m|d1].
  2: { eexists. split; [reflexivity|]. exact Hb. }
  destruct Hb as (Hbuf & Ha & Hinv).
  set (d2 := if v then _ else _).
  assert (Hd2 : dateBuffer (kp d2) = dateBuffer (kp d1) /\
                autoTime (ai (tc d2)) = autoTime (ai (tc d1))).
  { subst d2. split_ifs; cbn; auto. }
  destruct Hd2 as (Hbuf2 & Ha2).
  rewrite store_Ok by (rewrite Hbuf2, Hbuf, Hlen0; lia). cbn [bind].
  eexists. split; [reflexivity|].
  assert (Hz : strlen (<[Z.to_nat 0 := 0]> (dateBuffer (kp d2))) = Ok 0)
    by (apply strlen_cleared; rewrite Hbuf2, Hbuf, Hlen0; lia).
  cbn [kp set_kp dateBuffer dateIndex tc lastKeyPressed].
  split; [split; [exact Hz|reflexivity]|].
  split.
  { unfold buffer_ok. cbn [dateBuffer dateIndex]. rewrite length_insert.
    unfold DATELEN_MAX, DATELEN_ALL.
    split; [rewrite Hbuf2, Hbuf; exact Hlen0|]. split; [lia|].
    exists 0. split; [exact Hz|lia]. }
  split; [rewrite Ha2, Ha; reflexivity|].
  intros Hi. destruct (Hinv Hi) as (-> & -> & ->). split; [reflexivity|].
  subst d2. rewrite Hi. cbn [negb andb].
  unfold rejected, enter_prelude.
  destruct (mpActive e); cbn; rewrite <- ?app_assoc; repeat split; reflexivity.
Qed.

(** *** The statements of the specification about the keypad *)

Lemma step_ok i d :
  buffer_ok (kp d) -> 0 <= autoTime (ai (tc d)) <= 7 ->
  exists d', step i d = Ok d' /\ buffer_ok (kp d') /\
             autoTime (ai (tc d')) = autoTime (ai (tc d)).
Proof.
  intros Hbuf Hauto. destruct i as [now key|now|e]; cbn [step].
  - destruct (recordKey_ok now key (kp d) Hbuf) as (k' & -> & Hk').
    cbn [bind]. eexists. split; [reflexivity|]. split; [exact Hk'|reflexivity].
  - destruct (discard_ok now (kp d) Hbuf) as (k' & -> & Hk' & _).
    cbn [bind]. eexists. split; [reflexivity|]. split; [exact Hk'|reflexivity].
  - destruct (discard_ok (millis (te e)) (kp d) Hbuf) as (k' & -> & Hk' & _).
    cbn [bind].
    destruct (keypad_loop_enter_ok e (set_kp k' d) Hk' Hauto) as (o & -> & Ho).
    cbn [bind]. destruct o as [d' v i|d'].
    + destruct Ho as (_ & Hok & Ha & _). eexists. split; [reflexivity|].
      split; [exact Hok|exact Ha].
    + eexists. split; [reflexivity|]. split; [|exact Ho].
      cbn. unfold buffer_ok, DATELEN_MAX, DATELEN_ALL. cbn.
      split; [reflexivity|]. split; [lia|]. exists 0. split; [reflexivity|lia].
Qed.

Lemma run_ok inputs :
  forall d, buffer_ok (kp d) -> 0 <= autoTime (ai (tc d)) <= 7 ->
            exists d', run inputs d = Ok d' /\ buffer_ok (kp d') /\
                       autoTime (ai (tc d')) = autoTime (ai (tc d)).
Proof.
  induction inputs as [|i rest IH]; intros d Hbuf Hauto; cbn [run].
  - exists d. split; [reflexivity|]. split; [exact Hbuf|reflexivity].
  - destruct (step_ok i d Hbuf Hauto) as (d1 & -> & Hbuf1 & Ha1). cbn [bind].
    destruct (IH d1 Hbuf1 ltac:(lia)) as (d' & Hrun & Hbuf' & Ha').
    exists d'. split; [exact Hrun|]. split; [exact Hbuf'|lia].
Qed.

(** *** Which commits restart the device *)

Ltac continues :=
  repeat first
    [ progress cbn [bind]
    | match goal with
      | |- context [bind ?m _] => destruct m
      end
    | match goal with
      | |- context [if ?c then _ else _] => destruct c
      end ];
  try discriminate;
  try (intros H; injection H as <-; reflexivity).

Lemma enter_2digits_continues e d : restarts (enter_2digits e d) = false.
Proof. unfold enter_2digits, show_status. split_ifs; reflexivity. Qed.

Lemma enter_3digits_continues e d b :
  enter_3digits e d = Ok b -> restarts b = false.
Proof. unfold enter_3digits, show_status. cbv zeta. continues. Qed.

Lemma enter_6digits_continues e d b :
  enter_6digits e d = Ok b -> restarts b = false.
Proof. unfold enter_6digits, show_status. cbv zeta. continues. Qed.

Lemma enter_timer_continues e d b :
  enter_timer e d = Ok b -> restarts b = false.
Proof. unfold enter_timer, show_status. cbv zeta. continues. Qed.

Lemma enter_10digits_continues e d b :
  enter_10digits e d = Ok b -> restarts b = false.
Proof. unfold enter_10digits, show_status. cbv zeta. continues. Qed.

(** The restart is the answer to the five characters 64738 and to nothing
    else. *)
Lemma enter_dispatch_restarts e d strLen b :
  length (dateBuffer (kp d)) = 14%nat ->
  0 <= autoTime (ai (tc d)) <= 7 ->
  enter_dispatch e strLen d = Ok b ->
  restarts b
  = (strLen =? 5) && starts_with (chars "64738") (dateBuffer (kp d)).
Proof.
  intros Hlen Hauto. unfold enter_dispatch.
  assert (Hdate : enter_date e strLen d = Ok b -> restarts b = false).
  { destruct (enter_date_ok e d Hlen Hauto strLen)
      as (p & d' & v & _ & -> & _). intros [= <-]. reflexivity. }
  unfold DATELEN_ALL, DATELEN_REM, DATELEN_DATE, DATELEN_CMIN, DATELEN_CMAX,
    DATELEN_ALSH, DATELEN_CODE, DATELEN_INT, DATELEN_QALM, DATELEN_TIME.
  destruct (Z.eqb_spec strLen 5) as [->|Hne]; cbn [andb].
  - cbn. intros [= <-]. unfold enter_5digits.
    destruct (starts_with _ _); reflexivity.
  - destruct (_ && _); [intros [= <-]; reflexivity|].
    destruct (strLen =? 2);
      [intros [= <-]; apply enter_2digits_continues|].
    destruct (strLen =? 3); [apply enter_3digits_continues|].
    destruct (Z.eqb_spec strLen 5); [contradiction|].
    destruct (strLen =? 6); [apply enter_6digits_continues|].
    destruct (strLen =? 4).
    { destruct (read2digs _ _); cbn [bind]; try discriminate.
      destruct (_ =? 44); [apply enter_timer_continues|exact Hdate]. }
    destruct (strLen =? 10); [apply enter_10digits_continues|exact Hdate].
Qed.

Lemma keypad_loop_enter_restarts e d o n :
  buffer_ok (kp d) -> 0 <= autoTime (ai (tc d)) <= 7 ->
  strlen (dateBuffer (kp d)) = Ok n ->
  keypad_loop_enter e d = Ok o ->
  (exists dr, o = Restarted dr) <->
  n = 5 /\ take 5 (dateBuffer (kp d)) = chars "64738".
Proof.
  intros (Hlen & _) Hauto Hn. unfold keypad_loop_enter.
  rewrite Hn. cbn [bind]. cbv zeta.
  set (d0 := set_kp _ (call "destinationTime.off" _)).
  assert (Hlen0 : length (dateBuffer (kp d0)) = 14%nat) by exact Hlen.
  assert (Hauto0 : 0 <= autoTime (ai (tc d0)) <= 7) by exact Hauto.
  destruct (enter_dispatch e n d0) as [b| |] eqn:Hb; cbn [bind];
    try discriminate.
  pose proof (enter_dispatch_restarts e d0 n b Hlen0 Hauto0 Hb) as Hr.
  change (dateBuffer (kp d0)) with (dateBuffer (kp d)) in Hr.
  assert (Hiff : restarts b = true <->
                 n = 5 /\ take 5 (dateBuffer (kp d)) = chars "64738").
  { rewrite Hr. unfold starts_with. rewrite andb_true_iff, Z.eqb_eq.
    rewrite bool_decide_eq_true. reflexivity. }
  destruct b as [d1 v i m|d1]; cbn [restarts] in Hiff.
  - match goal with
    | |- bind ?m _ = _ -> _ => destruct m; cbn [bind]; try discriminate
    end.
    intros [= <-]. rewrite <- Hiff. split; [intros (dr & Hdr)|]; discriminate.
  - intros [= <-]. rewrite <- Hiff. split; [reflexivity|eauto].
Qed.

(** The commit as the loop makes it: the discard of stale digits, the entry
    logic and, for the restart code, the keypad of the restarted device.  It
    always ends with an empty buffer. *)
Lemma commit_clears e d :
  buffer_ok (kp d) -> 0 <= autoTime (ai (tc d)) <= 7 ->
  exists d', step (Enter e) d = Ok d' /\ buffer_clear (kp d').
Proof.
  intros Hbuf Hauto. cbn [step].
  destruct (discard_ok (millis (te e)) (kp d) Hbuf) as (k & -> & Hk & _).
  cbn [bind].
  destruct (keypad_loop_enter_ok e (set_kp k d) Hk Hauto) as (o & -> & Ho).
  cbn [bind]. destruct o as [d1 v i|d1].
  - exists d1. split; [reflexivity|apply Ho].
  - eexists. split; [reflexivity|]. split; reflexivity.
Qed.

(** C9 (the bounds and the clearing of the digit buffer).  Whatever keys
    are recorded, and whatever idle passes and commits come between them,
    no write leaves the 14 characters of the buffer, the buffer holds a
    string of at most 12 characters with its NUL inside the array, and the
    index stays below 12; in the state so reached a pass of the loop two
    minutes or more after the last key empties the buffer, and so does
    every commit: the entry logic always returns, with the buffer cleared,
    but for the entry 64738 and for it alone, which restarts the device,
    and the restarted device has an empty buffer as well. *)
Theorem buffer_bounded inputs d :
  buffer_ok (kp d) -> 0 <= autoTime (ai (tc d)) <= 7 ->
  exists d',
    run inputs d = Ok d' /\
    length (dateBuffer (kp d')) = 14%nat /\
    0 <= dateIndex (kp d') <= 11 /\
    (exists n, strlen (dateBuffer (kp d')) = Ok n /\ 0 <= n <= 12) /\
    (forall T now,
        lastKeyPressed (kp d') = wrap32 T ->
        T + 2 * 60 * 1000 <= now < T + 2^32 ->
        exists k', keypad_loop_discard (wrap32 now) (kp d') = Ok k' /\
                   buffer_clear k') /\
    (forall e,
        exists o, keypad_loop_enter e d' = Ok o /\
                  (forall d'' v i, o = Returned d'' v i ->
                                   buffer_clear (kp d'')) /\
                  ((exists dr, o = Restarted dr) <->
                   strlen (dateBuffer (kp d')) = Ok 5 /\
                   take 5 (dateBuffer (kp d')) = chars "64738") /\
                  exists d'', step (Enter e) d' = Ok d'' /\
                              buffer_clear (kp d'')).
Proof.
  intros Hbuf Hauto.
  destruct (run_ok inputs d Hbuf Hauto) as (d' & Hrun & Hbuf' & Ha').
  exists d'. split; [exact Hrun|].
  pose proof Hbuf' as (Hlen & Hidx & Hstr).
  unfold DATELEN_MAX, DATELEN_ALL in Hidx, Hstr.
  split; [exact Hlen|]. split; [lia|]. split; [exact Hstr|]. split.
  - intros T now HT Hnow.
    destruct (discard_ok (wrap32 now) (kp d') Hbuf') as (k' & Hk' & _ & Hclear).
    exists k'. split; [exact Hk'|]. apply Hclear.
    rewrite HT. unfold wrap32. rewrite <- Zminus_mod.
    rewrite Z.mod_small by lia. lia.
  - intros e.
    assert (Hauto' : 0 <= autoTime (ai (tc d')) <= 7) by lia.
    destruct (keypad_loop_enter_ok e d' Hbuf' Hauto') as (o & Ho & Hspec).
    exists o. split; [exact Ho|].
    split; [intros d'' v i ->; apply Hspec|].
    split; [|exact (commit_clears e d' Hbuf' Hauto')].
    destruct Hstr as (n & Hn & _).
    rewrite (keypad_loop_enter_restarts e d' o n Hbuf' Hauto' Hn Ho).
    rewrite Hn. split; intros [H1 H2]; (split; [congruence|exact H2]).
Qed.

Lemma device0_buffer_ok : buffer_ok (kp device0).
Proof.
  unfold buffer_ok, DATELEN_MAX, DATELEN_ALL. cbn.
  split; [reflexivity|]. split; [lia|]. exists 0. split; [reflexivity|lia].
Qed.

(** An instance: sixteen keys in a row. *)
Lemma buffer_bounded_witness :
  exists d',
    run (map (Key 0) (chars "1234567890123456")) device0 = Ok d' /\
    (exists n, strlen (dateBuffer (kp d')) = Ok n /\ 0 <= n <= 12).
Proof.
  assert (Hauto : 0 <= autoTime (ai (tc device0)) <= 7) by (cbn; lia).
  destruct (buffer_bounded (map (Key 0) (chars "1234567890123456")) device0
              device0_buffer_ok Hauto) as (d' & Hrun & _ & _ & Hstr & _).
  exists d'. split; [exact Hrun|exact Hstr].
Defined.

Lemma read2digs_at buf idx c0 c1 :
  0 <= idx -> buf !! Z.to_nat idx = Some c0 ->
  buf !! Z.to_nat (idx + 1) = Some c1 ->
  read2digs buf idx = Ok (wrap8 ((c0 - 48) * 10 + (c1 - 48))).
Proof.
  intros Hidx H0 H1. unfold read2digs.
  rewrite (index_Ok buf idx c0) by assumption. cbn [bind].
  rewrite (index_Ok buf (idx + 1) c1) by (try lia; assumption). reflexivity.
Qed.

(** A date or a date with time goes to the last branch. *)
Lemma enter_dispatch_date e strLen d :
  strLen = DATELEN_DATE \/ strLen = DATELEN_ALL ->
  enter_dispatch e strLen d = enter_date e strLen d.
Proof. intros [-> | ->]; reflexivity. Qed.

(** So does a time that does not start with 44. *)
Lemma enter_dispatch_time e d code :
  read2digs (dateBuffer (kp d)) 0 = Ok code -> code <> 44 ->
  enter_dispatch e DATELEN_TIME d = enter_date e DATELEN_TIME d.
Proof.
  intros Hcode Hne. unfold enter_dispatch. cbn [DATELEN_TIME DATELEN_ALL
    DATELEN_REM DATELEN_DATE DATELEN_CMIN DATELEN_CMAX DATELEN_ALSH
    DATELEN_QALM DATELEN_CODE DATELEN_INT Z.eqb Z.ltb Z.gtb Z.compare
    Pos.compare Pos.compare_cont Pos.eqb negb andb orb].
  rewrite Hcode. cbn [bind]. destruct (Z.eqb_spec code 44); [contradiction|].
  reflexivity.
Qed.

(** A commit of a date or time: the fields parsed go into the destination
    clock through [copy_to_destination], and the entry is never found
    invalid. *)
Lemma keypad_loop_enter_date e d strLen :
  buffer_ok (kp d) -> 0 <= autoTime (ai (tc d)) <= 7 ->
  strlen (dateBuffer (kp d)) = Ok strLen ->
  (forall d0, dateBuffer (kp d0) = dateBuffer (kp d) ->
              enter_dispatch e strLen d0 = enter_date e strLen d0) ->
  exists p d' v,
    parse_date e strLen (dateBuffer (kp d)) = Ok p /\
    keypad_loop_enter e d = Ok (Returned d' v false) /\
    destinationTime (tc d')
    = copy_to_destination p (destinationTime (tc d)).
Proof.
  intros (Hlen & Hidx & _) Hauto Hn Hshape. unfold keypad_loop_enter.
  rewrite Hn. cbn [bind]. cbv zeta.
  set (d0 := set_kp _ (call "destinationTime.off" _)).
  rewrite (Hshape d0 eq_refl).
  destruct (enter_date_ok e d0 Hlen Hauto strLen)
    as (p & d1 & v & Hp & -> & Hbuf & Ha & Hdest).
  cbn [bind]. exists p.
  set (d2 := if v then _ else _).
  assert (Hd2 : dateBuffer (kp d2) = dateBuffer (kp d1) /\
                destinationTime (tc d2) = destinationTime (tc d1)).
  { subst d2. destruct v; cbn; auto. }
  destruct Hd2 as (Hbuf2 & Hdest2).
  rewrite store_Ok by (rewrite Hbuf2, Hbuf; cbn; rewrite Hlen; lia).
  cbn [bind]. eexists. exists v. split; [exact Hp|]. split; [reflexivity|].
  cbn [tc set_kp]. rewrite Hdest2, Hdest. reflexivity.
Qed.

(** What the entry logic does with an entry it finds invalid.  A commit
    returns with an empty buffer (or restarts the device).  An entry found
    invalid is not confirmed: the error sound is played and not the
    confirmation, and the three clocks, the offset, the rotation, the
    alarm, the reminder, the countdown and the beep mode stay as they
    were.  An entry of 8 or 12 characters, or one of 4 that does not start
    with 44, is never found invalid: its fields go to the destination
    clock. *)
Theorem invalid_entry_rejected e d :
  buffer_ok (kp d) -> 0 <= autoTime (ai (tc d)) <= 7 ->
  exists o,
    keypad_loop_enter e d = Ok o /\
    forall d' v i,
      o = Returned d' v i ->
      buffer_clear (kp d') /\
      (i = true ->
       v = false /\ rejected e d d' /\
       Forall (fun ev => ev <> PlayFile "/enter.mp3")
              (drop (length (log (tc d))) (log (tc d')))) /\
      (forall strLen,
          strlen (dateBuffer (kp d)) = Ok strLen ->
          strLen = 8 \/ strLen = 12 \/
          (strLen = 4 /\ exists code,
                           read2digs (dateBuffer (kp d)) 0 = Ok code /\
                           code <> 44) ->
          i = false /\
          exists p, parse_date e strLen (dateBuffer (kp d)) = Ok p /\
                    destinationTime (tc d')
                    = copy_to_destination p (destinationTime (tc d))).
Proof.
  intros Hbuf Hauto.
  destruct (keypad_loop_enter_ok e d Hbuf Hauto) as (o & Ho & Hspec).
  exists o. split; [exact Ho|]. intros d' v i ->.
  destruct Hspec as (Hclear & _ & _ & Hinv).
  split; [exact Hclear|]. split.
  - intros Hi. destruct (Hinv Hi) as (Hv & Hrej). split; [exact Hv|].
    split; [exact Hrej|].
    destruct Hrej as (_ & _ & _ & _ & _ & _ & _ & _ & _ & _ & ->).
    rewrite drop_app_length. unfold enter_prelude.
    destruct (mpActive e); repeat constructor; discriminate.
  - intros strLen Hn Hshape.
    destruct (keypad_loop_enter_date e d strLen Hbuf Hauto Hn)
      as (p & d1 & v1 & Hp & Hrun & Hdest).
    { intros d0 Hd0. destruct Hshape as [-> | [-> | (-> & code & Hcode & Hne)]].
      - apply enter_dispatch_date. left. reflexivity.
      - apply enter_dispatch_date. right. reflexivity.
      - apply (enter_dispatch_time e d0 code); [rewrite Hd0; exact Hcode|exact Hne]. }
    rewrite Hrun in Ho. injection Ho as <- <- <-.
    split; [reflexivity|]. exists p. split; [exact Hp|exact Hdest].
Qed.

(** An instance: the alarm entry "119960" is rejected. *)
Lemma invalid_entry_rejected_witness :
  exists o,
    keypad_loop_enter kenv0 device_119960 = Ok o /\
    observe o
    = Ok (false, true, destinationTime tcd0,
          enter_prelude ++ [PlayFile "/baddate.mp3"]) /\
    forall d' v i, o = Returned d' v i -> buffer_clear (kp d').
Proof.
  assert (Hbuf : buffer_ok (kp device_119960)).
  { unfold buffer_ok, DATELEN_MAX, DATELEN_ALL. cbn.
    split; [reflexivity|]. split; [lia|]. exists 6. split; [reflexivity|lia]. }
  assert (Hauto : 0 <= autoTime (ai (tc device_119960)) <= 7) by (cbn; lia).
  destruct (invalid_entry_rejected kenv0 device_119960 Hbuf Hauto)
    as (o & Ho & Hspec).
  exists o. split; [exact Ho|].
  split; [|intros d' v i Heq; apply (Hspec d' v i Heq)].
  vm_compute in Ho. injection Ho as <-. reflexivity.
Defined.

(** The entry "9960" typed and committed on the device at rest: it is not
    found invalid; the confirmation sound is played and not the error
    sound, and 99 and 60 are handed to the mutators of the destination
    clock for hour and minute. *)
Lemma time_9960_confirmed :
  (d <- typed "9960" device0 ;;
   o <- keypad_loop_enter kenv0 d ;;
   observe o)
  = Ok (true, false, setMinute 60 (setHour 99 (destinationTime tcd0)),
        enter_prelude ++ [Call "destinationTime.save"; Call "enableRcMode";
                          PlayFile "/enter.mp3"]).
Proof. vm_compute. reflexivity. Qed.

Lemma strlen_prefix (s rest : list Z) :
  Forall (fun c => c <> 0) s -> strlen (s ++ 0 :: rest) = Ok (Z.of_nat (length s)).
Proof.
  intros Hs. unfold strlen.
  assert (Hgen : forall n, strlen_from n (s ++ 0 :: rest)
                           = Ok (n + Z.of_nat (length s))).
  { induction Hs as [|c s Hc Hs IH]; intros n; cbn [app strlen_from length].
    - rewrite Z.add_0_r. reflexivity.
    - destruct (Z.eqb_spec c 0); [contradiction|]. rewrite IH. f_equal. lia. }
  apply Hgen.
Qed.

(** The fields parsed from a buffer that starts with the eight digits of a
    date, whatever the table of special dates holds. *)
Lemma parse_date_8 e (c0 c1 c2 c3 c4 c5 c6 c7 : Z) rest :
  let buf := [c0; c1; c2; c3; c4; c5; c6; c7] ++ 0 :: rest in
  let month := wrap8 ((c0 - 48) * 10 + (c1 - 48)) in
  let day := wrap8 ((c2 - 48) * 10 + (c3 - 48)) in
  let year := wrap8 ((c4 - 48) * 10 + (c5 - 48)) * 100
              + wrap8 ((c6 - 48) * 10 + (c7 - 48)) in
  let month' := clamp 1 12 month in
  forall dim, daysInMonth month' year = Ok dim ->
  exists sp, parse_date e DATELEN_DATE buf
             = Ok (mkParsed month' (if (if day <? 1 then 1 else day) >? dim
                                    then dim
                                    else (if day <? 1 then 1 else day))
                            year (-1) (-1) sp).
Proof.
  intros buf month day year month' dim Hdim. unfold parse_date.
  rewrite (read2digs_at buf 0 c0 c1) by (try lia; reflexivity).
  rewrite (read2digs_at buf 2 c2 c3) by (try lia; reflexivity).
  rewrite (read2digs_at buf 4 c4 c5) by (try lia; reflexivity).
  rewrite (read2digs_at buf 6 c6 c7) by (try lia; reflexivity).
  cbn [bind DATELEN_DATE DATELEN_TIME DATELEN_ALL Z.eqb Pos.eqb fst snd].
  fold month day year.
  replace (if (if month <? 1 then 1 else month) >? 12 then 12
           else (if month <? 1 then 1 else month)) with month'.
  2: { subst month'. unfold clamp. destruct (Z.ltb_spec month 1); [reflexivity|].
       reflexivity. }
  rewrite Hdim. cbn [bind]. eexists. reflexivity.
Qed.

(** C8 (the date-only entry 12251985).  With the buffer holding
    "12251985", a commit returns, is not found invalid, and puts the year
    1985, the month 12 and the day 25 into the destination clock through
    the three mutators of these fields; hour, minute and year offset of the
    destination clock are the ones it had. *)
Theorem date_entry_12251985 e d rest :
  dateBuffer (kp d) = chars "12251985" ++ 0 :: rest ->
  length rest = 5%nat ->
  0 <= dateIndex (kp d) <= 11 ->
  0 <= autoTime (ai (tc d)) <= 7 ->
  exists d' v,
    keypad_loop_enter e d = Ok (Returned d' v false) /\
    destinationTime (tc d')
    = setDay 25 (setMonth 12 (setYear 1985 (destinationTime (tc d)))) /\
    cd_month (destinationTime (tc d')) = 12 /\
    cd_day (destinationTime (tc d')) = 25 /\
    cd_year (destinationTime (tc d')) = 1985 /\
    cd_hour (destinationTime (tc d')) = cd_hour (destinationTime (tc d)) /\
    cd_minute (destinationTime (tc d')) = cd_minute (destinationTime (tc d)) /\
    cd_yearOffset (destinationTime (tc d'))
    = cd_yearOffset (destinationTime (tc d)).
Proof.
  intros Hbuf Hrest Hidx Hauto.
  assert (Hn : strlen (dateBuffer (kp d)) = Ok 8).
  { rewrite Hbuf. apply (strlen_prefix (chars "12251985") rest).
    repeat constructor; discriminate. }
  assert (Hok : buffer_ok (kp d)).
  { unfold buffer_ok, DATELEN_MAX, DATELEN_ALL. split; [|split; [exact Hidx|]].
    - rewrite Hbuf, length_app. cbn [length chars]. cbn. rewrite Hrest. reflexivity.
    - exists 8. split; [exact Hn|lia]. }
  destruct (keypad_loop_enter_date e d 8 Hok Hauto Hn)
    as (p & d' & v & Hp & Hrun & Hdest).
  { intros d0 _. apply enter_dispatch_date. left. reflexivity. }
  destruct (parse_date_8 e 49 50 50 53 49 57 56 53 rest 31 eq_refl) as [sp Hparse].
  change ([49; 50; 50; 53; 49; 57; 56; 53] ++ 0 :: rest)
    with (chars "12251985" ++ 0 :: rest) in Hparse.
  rewrite <- Hbuf in Hparse. change DATELEN_DATE with 8 in Hparse.
  rewrite Hp in Hparse. injection Hparse as ->.
  exists d', v. split; [exact Hrun|].
  assert (Hcopy : destinationTime (tc d')
                  = setDay 25 (setMonth 12 (setYear 1985 (destinationTime (tc d)))))
    by (rewrite Hdest; reflexivity).
  split; [exact Hcopy|]. rewrite Hcopy. repeat split.
Qed.

(** An instance: the entry typed into the device at rest. *)
Lemma date_entry_12251985_witness :
  exists d d' v,
    typed "12251985" device0 = Ok d /\
    keypad_loop_enter kenv0 d = Ok (Returned d' v false) /\
    effective (destinationTime (tc d')) = (1985, 12, 25, 1, 21).
Proof.
  assert (Hd : typed "12251985" device0
               = Ok (set_kp (mkKeypad (chars "12251985" ++ 0 :: replicate 5 0)
                                      8 0 false false false 0 0) device0))
    by (vm_compute; reflexivity).
  destruct (date_entry_12251985 kenv0
              (set_kp (mkKeypad (chars "12251985" ++ 0 :: replicate 5 0)
                                8 0 false false false 0 0) device0)
              (replicate 5 0) eq_refl eq_refl ltac:(cbn; lia) ltac:(cbn; lia))
    as (d' & v & Hrun & Hdest & _).
  eexists. exists d', v. split; [exact Hd|]. split; [exact Hrun|].
  rewrite Hdest. reflexivity.
Defined.

(** The month and the day of a date entry are brought into [1,12] and
    [1, daysInMonth] before they reach the destination clock. *)
Lemma date_entry_clamped e d strLen :
  buffer_ok (kp d) -> 0 <= autoTime (ai (tc d)) <= 7 ->
  strlen (dateBuffer (kp d)) = Ok strLen ->
  strLen = 8 \/ strLen = 12 ->
  exists p d' v dim,
    parse_date e strLen (dateBuffer (kp d)) = Ok p /\
    keypad_loop_enter e d = Ok (Returned d' v false) /\
    1 <= _setMonth p <= 12 /\
    daysInMonth (_setMonth p) (_setYear p) = Ok dim /\
    1 <= _setDay p <= dim /\
    cd_year (destinationTime (tc d')) = _setYear p /\
    cd_month (destinationTime (tc d')) = _setMonth p /\
    cd_day (destinationTime (tc d')) = _setDay p.
Proof.
  intros Hok Hauto Hn Hshape.
  destruct (keypad_loop_enter_date e d strLen Hok Hauto Hn)
    as (p & d' & v & Hp & Hrun & Hdest).
  { intros d0 _. apply enter_dispatch_date.
    destruct Hshape as [-> | ->]; [left|right]; reflexivity. }
  destruct Hok as (Hlen & _).
  destruct (parse_date_total e strLen _ Hlen) as (p' & Hp' & Hdate & _).
  rewrite Hp in Hp'. injection Hp' as <-.
  destruct Hdate as (Hmo & (dim & Hdim & Hday) & Hy & _).
  { destruct Hshape as [-> | ->]; discriminate. }
  exists p, d', v, dim. split; [exact Hp|]. split; [exact Hrun|].
  split; [exact Hmo|]. split; [exact Hdim|]. split; [exact Hday|].
  rewrite Hdest. unfold copy_to_destination.
  destruct (Z.geb_spec (_setYear p) 0); [|lia].
  destruct (Z.gtb_spec (_setMonth p) 0); [|lia].
  destruct (Z.gtb_spec (_setDay p) 0); [|lia].
  destruct (_setHour p >=? 0), (_setMin p >=? 0);
    unfold setMinute, setHour, setDay, setMonth, setYear;
    cbn [cd_year cd_month cd_day cd_hour cd_minute cd_yearOffset];
    rewrite (clamp_id 1 12) by lia; rewrite Hdim;
    rewrite (clamp_id 1 dim) by lia; repeat split.
Qed.

(** C5 (month and day of a date entry are clamped; 30 February becomes
    the 29th in a leap year).  The entry 02302004 names a leap year of the
    Gregorian calendar, whose February has 29 days; the program parses the
    day 28 from it, whatever the table of special dates holds, and the
    destination clock shows 28 February 2004 after the commit. *)
Theorem leap_february_clamped_to_28 :
  gregorian_leap 2004 = true /\
  gregorian_days_in_month 2 2004 = 29 /\
  (forall e, exists sp,
      parse_date e DATELEN_DATE (chars "02302004" ++ replicate 6 0)
      = Ok (mkParsed 2 28 2004 (-1) (-1) sp)) /\
  (d <- typed "02302004" device0 ;;
   o <- keypad_loop_enter kenv0 d ;;
   observe o)
  = Ok (true, false,
        setDay 28 (setMonth 2 (setYear 2004 (destinationTime tcd0))),
        enter_prelude ++ [Call "destinationTime.save"; Call "enableRcMode";
                          PlayFile "/enter.mp3"]).
Proof.
  split; [reflexivity|]. split; [reflexivity|]. split.
  - intros e.
    exact (parse_date_8 e 48 50 51 48 50 48 48 52 (replicate 5 0) 28 eq_refl).
  - vm_compute. reflexivity.
Qed.

End KeypadFacts.

(** ** The string helpers of the configuration portal *)

Module WifiFacts.
Import Wifi.

Lemma is_digit_inv c : is_digit c = true -> 48 <= c <= 57.
Proof. unfold is_digit. lia. Qed.

Lemma value_from_cons num c g :
  value_from num (c :: g) = value_from (num * 10 + (c - 48)) g.
Proof. reflexivity. Qed.

Lemma value_from_mono g : forall num,
  forallb is_digit g = true -> 0 <= num -> num <= value_from num g.
Proof.
  induction g as [|c g IH]; intros num Hd Hn; [cbn; lia|].
  cbn [forallb] in Hd. apply andb_prop in Hd as [Hc Hd].
  apply is_digit_inv in Hc. rewrite value_from_cons.
  specialize (IH (num * 10 + (c - 48)) Hd). lia.
Qed.

Lemma join_dots_cons c g gs :
  join_dots ((c :: g) :: gs) = c :: join_dots (g :: gs).
Proof. destruct gs; reflexivity. Qed.

Lemma join_dots_nil g gs :
  join_dots ([] :: g :: gs) = 46 :: join_dots (g :: gs).
Proof. reflexivity. Qed.

Lemma c_str_split str :
  In 0 str -> exists tail, str = c_str str ++ 0 :: tail.
Proof.
  induction str as [|c str IH]; intros Hin; [destruct Hin|].
  cbn. destruct (Z.eqb_spec c 0) as [->|Hc].
  - exists str. reflexivity.
  - destruct Hin as [Hin|Hin]; [congruence|].
    destruct (IH Hin) as [tail Ht]. exists tail. cbn. congruence.
Qed.

Lemma c_str_app s tail : ~ In 0 s -> c_str (s ++ 0 :: tail) = s.
Proof.
  induction s as [|c s IH]; intros Hn; cbn.
  - reflexivity.
  - destruct (Z.eqb_spec c 0) as [->|Hc]; [exfalso; apply Hn; left; reflexivity|].
    rewrite IH; [reflexivity|]. intros H. apply Hn. right. exact H.
Qed.

Lemma c_str_no_nul str : ~ In 0 (c_str str).
Proof.
  induction str as [|c str IH]; cbn; [tauto|].
  destruct (Z.eqb_spec c 0); cbn; [tauto|]. intros [H|H]; [congruence|tauto].
Qed.

Lemma isIp_loop_total str : forall segs digcnt num,
  In 0 str -> exists b, isIp_loop str segs digcnt num = Ok b.
Proof.
  induction str as [|c str IH]; intros segs digcnt num Hin; [destruct Hin|].
  cbn. destruct (Z.eqb_spec c 0) as [->|Hc]; [eauto|].
  destruct Hin as [Hin|Hin]; [congruence|].
  destruct (c =? 46).
  - destruct ((digcnt =? 0) || (segs + 1 =? 4)); eauto.
  - destruct ((c <? 48) || (c >? 57)); [eauto|].
    destruct (num * 10 + (c - 48) >? 255); eauto.
Qed.

(** A run of digits worth 255 at most is read to its end. *)
Lemma isIp_loop_digits g : forall rest segs digcnt num,
  forallb is_digit g = true -> 0 <= num -> value_from num g <= 255 ->
  isIp_loop (g ++ rest) segs digcnt num
  = isIp_loop rest segs (digcnt + Z.of_nat (length g)) (value_from num g).
Proof.
  induction g as [|c g IH]; intros rest segs digcnt num Hd Hn Hv.
  - cbn. f_equal. lia.
  - cbn [forallb] in Hd. apply andb_prop in Hd as [Hc Hd].
    apply is_digit_inv in Hc. rewrite value_from_cons in *.
    pose proof (value_from_mono g (num * 10 + (c - 48)) Hd ltac:(lia)) as Hm.
    cbn [app isIp_loop].
    replace (c =? 0) with false by lia.
    replace (c =? 46) with false by lia.
    replace ((c <? 48) || (c >? 57)) with false by lia.
    replace (num * 10 + (c - 48) >? 255) with false by lia.
    rewrite IH by (try assumption; lia).
    f_equal. cbn [length]. lia.
Qed.

Lemma isIp_loop_complete gs : forall g segs digcnt num tail,
  forallb is_digit g = true -> value_from num g <= 255 ->
  (gs <> [] -> 0 < digcnt + Z.of_nat (length g)) ->
  segs + Z.of_nat (length (g :: gs)) <= 4 ->
  Forall (fun g => forallb is_digit g = true /\ value g <= 255) gs ->
  Forall (fun g => g <> []) (removelast gs) ->
  0 <= num -> 0 <= digcnt ->
  isIp_loop (join_dots (g :: gs) ++ 0 :: tail) segs digcnt num = Ok true.
Proof.
  induction gs as [|g' gs IH]; intros g segs digcnt num tail Hd Hv Hne Hlen Hall Hmid Hn Hc.
  - cbn [join_dots]. rewrite isIp_loop_digits by assumption. reflexivity.
  - change (join_dots (g :: g' :: gs)) with (g ++ 46 :: join_dots (g' :: gs)).
    rewrite <- app_assoc. rewrite isIp_loop_digits by assumption.
    cbn [app isIp_loop]. cbn [Z.eqb Pos.eqb].
    specialize (Hne ltac:(discriminate)).
    replace (digcnt + Z.of_nat (length g) =? 0) with false by lia.
    cbn [length] in Hlen.
    replace (segs + 1 =? 4) with false by lia.
    cbn [orb].
    apply Forall_cons in Hall as [[Hd' Hv'] Hall].
    apply IH; try assumption; try lia.
    + intros Hgs. destruct gs as [|g'' gs]; [congruence|].
      cbn [removelast] in Hmid. apply Forall_cons in Hmid as [Hg' _].
      destruct g'; [congruence|]. cbn [length]. lia.
    + cbn [length]. lia.
    + destruct gs as [|g'' gs]; [constructor|].
      cbn [removelast] in Hmid. apply Forall_cons in Hmid as [_ Hmid]. exact Hmid.
Qed.

Lemma isIp_loop_sound str : forall segs digcnt num,
  isIp_loop str segs digcnt num = Ok true ->
  0 <= num <= 255 -> 0 <= digcnt -> segs <= 3 ->
  exists g gs,
    c_str str = join_dots (g :: gs) /\
    forallb is_digit g = true /\ value_from num g <= 255 /\
    (gs <> [] -> 0 < digcnt + Z.of_nat (length g)) /\
    segs + Z.of_nat (length (g :: gs)) <= 4 /\
    Forall (fun g => forallb is_digit g = true /\ value g <= 255) gs /\
    Forall (fun g => g <> []) (removelast gs).
Proof.
  induction str as [|c str IH]; intros segs digcnt num H Hn Hc Hs;
    [discriminate|].
  cbn [isIp_loop c_str] in *.
  destruct (Z.eqb_spec c 0) as [->|Hc0].
  - exists [], []. cbn. repeat split; try lia; try constructor. congruence.
  - destruct (Z.eqb_spec c 46) as [->|Hc46].
    + destruct (Z.eqb_spec digcnt 0) as [|Hd0]; [discriminate|].
      destruct (Z.eqb_spec (segs + 1) 4) as [|Hs4]; [discriminate|].
      cbn [orb] in H.
      destruct (IH _ _ _ H ltac:(lia) ltac:(lia) ltac:(lia))
        as (g' & gs' & Hstr & Hd' & Hv' & Hne' & Hlen' & Hall' & Hmid').
      exists [], (g' :: gs'). rewrite Hstr.
      split; [reflexivity|]. split; [reflexivity|].
      split; [cbn; lia|]. split; [cbn; lia|].
      split; [cbn [length] in *; lia|].
      split; [constructor; [split; assumption|assumption]|].
      destruct gs' as [|g'' gs']; [constructor|].
      cbn [removelast]. constructor; [|exact Hmid'].
      specialize (Hne' ltac:(discriminate)). destruct g'; [cbn in Hne'; lia|discriminate].
    + destruct ((c <? 48) || (c >? 57)) eqn:Hrange; [discriminate|].
      destruct (num * 10 + (c - 48) >? 255) eqn:Hnum; [discriminate|].
      apply orb_false_elim in Hrange as [H48 H57].
      destruct (IH _ _ _ H ltac:(lia) ltac:(lia) ltac:(lia))
        as (g' & gs' & Hstr & Hd' & Hv' & Hne' & Hlen' & Hall' & Hmid').
      exists (c :: g'), gs'. rewrite Hstr, join_dots_cons.
      split; [reflexivity|].
      split; [cbn [forallb]; rewrite Hd'; unfold is_digit; lia|].
      split; [rewrite value_from_cons; exact Hv'|].
      split; [intros Hgs; specialize (Hne' Hgs); cbn [length]; lia|].
      split; [cbn [length] in *; lia|]. split; assumption.
Qed.

Lemma poke_Ok buf (i : nat) v :
  (i < length buf)%nat ->
  poke buf (Z.of_nat i) v = Ok (take i buf ++ v :: drop (S i) buf).
Proof.
  intros Hi. unfold poke.
  replace ((0 <=? Z.of_nat i) && (Z.of_nat i <? Z.of_nat (length buf)))
    with true by lia.
  rewrite Nat2Z.id. f_equal. apply insert_take_drop. exact Hi.
Qed.

Lemma scanned_cons c c' rest :
  scanned (c :: c' :: rest) = if c' =? 0 then [c] else c :: scanned (c' :: rest).
Proof. cbn. destruct (c' =? 0); reflexivity. Qed.

Lemma copy_loop_step keep c c' rest dest di :
  copy_loop keep (c :: c' :: rest) dest di
  = (r <- (if keep c then dest' <- poke dest di c ;; Ok (dest', di + 1)
           else Ok (dest, di)) ;;
     if negb (c' =? 0) then copy_loop keep (c' :: rest) (fst r) (snd r)
     else Ok r).
Proof. reflexivity. Qed.

Lemma copy_loop_run keep rest : forall c dest (di : nat),
  In 0 rest ->
  let out := filter (fun x => keep x = true) (scanned (c :: rest)) in
  (di + length out <= length dest)%nat ->
  copy_loop keep (c :: rest) dest (Z.of_nat di)
  = Ok (take di dest ++ out ++ drop (di + length out) dest,
        Z.of_nat (di + length out)).
Proof.
  induction rest as [|c' rest IH]; intros c dest di Hin out Hlen;
    [destruct Hin|].
  subst out. rewrite scanned_cons in *.
  rewrite copy_loop_step.
  destruct (Z.eqb_spec c' 0) as [->|Hc'].
  - (* the string ends here *)
    cbn [negb]. rewrite filter_cons in *. rewrite filter_nil in *.
    destruct (decide (keep c = true)) as [Hk|Hk].
    + rewrite Hk. cbn [length] in Hlen.
      rewrite poke_Ok by lia. cbn [bind fst snd app length].
      replace (di + 1)%nat with (S di) by lia. do 2 f_equal. lia.
    + destruct (keep c); [congruence|]. cbn [bind app length].
      rewrite Nat.add_0_r, take_drop. reflexivity.
  - destruct Hin as [Hin|Hin]; [congruence|].
    cbn [negb]. rewrite filter_cons in *.
    destruct (decide (keep c = true)) as [Hk|Hk].
    + rewrite Hk. cbn [length] in Hlen.
      rewrite poke_Ok by lia. cbn [bind fst snd].
      change (Z.of_nat di + 1) with (Z.of_nat di + Z.of_nat 1).
      rewrite <- Nat2Z.inj_add.
      set (dest' := take di dest ++ c :: drop (S di) dest).
      assert (Hl' : length dest' = length dest).
      { subst dest'. rewrite length_app, length_take. cbn [length].
        rewrite length_drop. lia. }
      rewrite IH by (try assumption; lia).
      f_equal. f_equal.
      * replace (di + 1)%nat with (S di) by lia.
        assert (Ht : take (S di) dest' = take di dest ++ [c]).
        { subst dest'. rewrite take_app_ge by (rewrite length_take; lia).
          rewrite length_take. replace (S di - di `min` length dest)%nat with 1%nat by lia.
          reflexivity. }
        rewrite Ht. rewrite <- app_assoc. cbn [app length]. f_equal. f_equal. f_equal.
        subst dest'. rewrite drop_app_ge by (rewrite length_take; lia).
        rewrite length_take.
        set (n := length (filter (fun x => keep x = true) (scanned (c' :: rest)))) in *.
        replace (S di + n - di `min` length dest)%nat with (S n) by lia.
        cbn [drop]. rewrite drop_drop. f_equal. lia.
      * cbn [length]. f_equal. lia.
    + destruct (keep c); [congruence|]. cbn [bind fst snd].
      rewrite IH by (try assumption; lia). reflexivity.
Qed.

Lemma sprintf_d_digits n :
  0 <= n <= 255 ->
  forallb is_digit (sprintf_d n) = true /\ value (sprintf_d n) = n /\
  sprintf_d n <> [].
Proof.
  intros Hn. unfold sprintf_d.
  destruct (Z.ltb_spec n 10); [|destruct (Z.ltb_spec n 100)];
    unfold value, value_from, is_digit; cbn [forallb fold_left];
    (split; [|split; [|discriminate]]).
  - lia.
  - lia.
  - pose proof (Z.div_mod n 10). pose proof (Z.mod_pos_bound n 10).
    assert (0 <= n / 10 < 10) by (split; [apply Z.div_pos|apply Z.div_lt_upper_bound]; lia).
    lia.
  - pose proof (Z.div_mod n 10). lia.
  - pose proof (Z.mod_pos_bound n 10). pose proof (Z.mod_pos_bound (n / 10) 10).
    assert (0 <= n / 100 < 10) by (split; [apply Z.div_pos|apply Z.div_lt_upper_bound]; lia).
    lia.
  - pose proof (Z.div_mod n 10). pose proof (Z.div_mod (n / 10) 10).
    replace (n / 100) with (n / 10 / 10) by (rewrite Z.div_div by lia; reflexivity).
    lia.
Qed.

(** X1: [isIp] accepts exactly the strings made of one to four fields of
    digits, each worth 255 at most, with a dot between two fields and only
    the last field possibly empty; on a NUL-terminated array it always
    returns. *)
Theorem isIp_accepts_dotted_fields (str : list Z) :
  In 0 str ->
  exists b, isIp str = Ok b /\
            (b = true <->
             exists gs, c_str str = join_dots gs /\ dotted_fields gs).
Proof.
  intros Hin. destruct (isIp_loop_total str 0 0 0 Hin) as [b Hb].
  exists b. split; [exact Hb|]. split.
  - intros ->.
    destruct (isIp_loop_sound str 0 0 0 Hb ltac:(lia) ltac:(lia) ltac:(lia))
      as (g & gs & Hstr & Hd & Hv & Hne & Hlen & Hall & Hmid).
    exists (g :: gs). split; [exact Hstr|]. split; [|split].
    + cbn [length] in *. lia.
    + constructor; [split; assumption|assumption].
    + destruct gs as [|g' gs]; [constructor|].
      cbn [removelast]. constructor; [|exact Hmid].
      specialize (Hne ltac:(discriminate)). destruct g; [cbn in Hne; lia|discriminate].
  - intros (gs & Hstr & Hlen & Hall & Hmid).
    destruct gs as [|g gs]; [cbn in Hlen; lia|].
    destruct (c_str_split str Hin) as [tail Ht].
    apply Forall_cons in Hall as [[Hd Hv] Hall].
    assert (Hgo : isIp str = Ok true).
    { unfold isIp. rewrite Ht, Hstr.
      apply isIp_loop_complete; try assumption; try lia.
      - intros Hgs. destruct gs as [|g' gs]; [congruence|].
        cbn [removelast] in Hmid. apply Forall_cons in Hmid as [Hg _].
        destruct g; [congruence|]. cbn [length]. lia.
      - destruct gs as [|g' gs]; [constructor|].
        cbn [removelast] in Hmid. apply Forall_cons in Hmid as [_ Hmid]. exact Hmid. }
    unfold isIp in Hgo. congruence.
Qed.

Lemma isIp_accepts_dotted_fields_witness :
  exists b, isIp (Keypad.chars "192.168.4.1" ++ [0]) = Ok b /\
            (b = true <->
             exists gs, c_str (Keypad.chars "192.168.4.1" ++ [0]) = join_dots gs
                        /\ dotted_fields gs).
Proof.
  apply isIp_accepts_dotted_fields.
  apply in_or_app. right. left. reflexivity.
Defined.

(** X2: every address [ipToString] writes passes [isIp]. *)
Theorem isIp_ipToString (a b c d : Z) :
  0 <= a <= 255 -> 0 <= b <= 255 -> 0 <= c <= 255 -> 0 <= d <= 255 ->
  isIp (ipToString (a, b, c, d)) = Ok true.
Proof.
  intros Ha Hb Hc Hd.
  destruct (sprintf_d_digits a Ha) as (Da & Va & Na).
  destruct (sprintf_d_digits b Hb) as (Db & Vb & Nb).
  destruct (sprintf_d_digits c Hc) as (Dc & Vc & Nc).
  destruct (sprintf_d_digits d Hd) as (Dd & Vd & Nd).
  unfold isIp, ipToString.
  change (sprintf_d a ++ [46] ++ sprintf_d b ++ [46] ++ sprintf_d c ++ [46]
          ++ sprintf_d d ++ [0])
    with (sprintf_d a ++ 46 :: sprintf_d b ++ 46 :: sprintf_d c ++ 46
          :: sprintf_d d ++ [0]).
  replace (sprintf_d a ++ 46 :: sprintf_d b ++ 46 :: sprintf_d c ++ 46
           :: sprintf_d d ++ [0])
    with (join_dots [sprintf_d a; sprintf_d b; sprintf_d c; sprintf_d d]
          ++ 0 :: []).
  2:{ cbn [join_dots]. repeat (rewrite <- app_assoc; cbn [app]).
      reflexivity. }
  apply isIp_loop_complete; try assumption; try lia.
  - unfold value in Va. lia.
  - intros _. destruct (sprintf_d a); [congruence|]. cbn [length]. lia.
  - cbn [length]. lia.
  - repeat constructor; try assumption; lia.
  - cbn [removelast]. repeat constructor; assumption.
Qed.

Lemma isIp_ipToString_witness : isIp (ipToString (192, 168, 4, 1)) = Ok true.
Proof. apply isIp_ipToString; lia. Defined.

Lemma scanned_string c s tail :
  ~ In 0 s -> scanned (c :: s ++ 0 :: tail) = c :: s.
Proof. intros Hs. cbn [scanned]. rewrite c_str_app by exact Hs. reflexivity. Qed.

Lemma filter_no_nul (keep : Z -> bool) s :
  ~ In 0 s -> ~ In 0 (filter (fun x => keep x = true) s).
Proof.
  intros Hs Hin. apply Hs. apply list_elem_of_In.
  apply list_elem_of_In in Hin. apply list_elem_of_filter in Hin. tauto.
Qed.

(** The copy loop followed by the store of the terminator. *)
Lemma copy_terminated keep dest c rest :
  In 0 rest ->
  let kept := filter (fun x => keep x = true) (scanned (c :: rest)) in
  (length kept < length dest)%nat ->
  (r <- copy_loop keep (c :: rest) dest 0 ;; poke (fst r) (snd r) 0)
  = Ok (kept ++ 0 :: drop (S (length kept)) dest).
Proof.
  intros Hin kept Hlen.
  pose proof (copy_loop_run keep rest c dest 0%nat Hin) as Hrun.
  cbv zeta in Hrun. fold kept in Hrun.
  change (Z.of_nat 0) with 0 in Hrun.
  rewrite Hrun by lia.
  cbn [bind fst snd Nat.add]. rewrite take_0. cbn [app].
  rewrite poke_Ok by (rewrite length_app, length_drop; lia).
  rewrite take_app_le, take_ge by lia.
  rewrite drop_app_ge by lia.
  replace (S (length kept) - length kept)%nat with 1%nat by lia.
  rewrite drop_drop. replace (length kept + 1)%nat with (S (length kept)) by lia.
  reflexivity.
Qed.

(** X3: [strcpytrim] on a string that is not empty: the destination gets
    the characters that are no white space (and, with [doFilter], are
    letters, digits or [-]) in their order, then the NUL; the bytes behind
    it are left alone. *)
Theorem strcpytrim_keeps_filtered (dest s tail : list Z) (doFilter : bool) :
  s <> [] -> ~ In 0 s ->
  let kept := filter (fun c => trim_keep doFilter c = true) s in
  (length kept < length dest)%nat ->
  strcpytrim dest (s ++ 0 :: tail) doFilter
  = Ok (kept ++ 0 :: drop (S (length kept)) dest) /\
  c_str (kept ++ 0 :: drop (S (length kept)) dest) = kept /\
  (length kept <= length s)%nat.
Proof.
  intros Hne Hnul kept Hlen.
  destruct s as [|c s]; [congruence|].
  assert (Hs : ~ In 0 s) by (intros H; apply Hnul; right; exact H).
  split; [|split].
  - unfold strcpytrim. cbn [app].
    pose proof (copy_terminated (trim_keep doFilter) dest c (s ++ 0 :: tail)) as H.
    rewrite scanned_string in H by exact Hs.
    apply H; [apply in_or_app; right; left; reflexivity|exact Hlen].
  - apply c_str_app. apply filter_no_nul. exact Hnul.
  - apply length_filter.
Qed.

Lemma strcpytrim_keeps_filtered_witness :
  strcpytrim (replicate 8 7) (Keypad.chars " a b_c " ++ 0 :: [9; 9]) true
  = Ok (Keypad.chars "abc" ++ 0 :: replicate 4 7).
Proof.
  destruct (strcpytrim_keeps_filtered (replicate 8 7) (Keypad.chars " a b_c ")
              [9; 9] true) as [H _].
  - discriminate.
  - vm_compute. intuition discriminate.
  - vm_compute. lia.
  - exact H.
Defined.

(** X4: [strcpytrim] on the empty string.  The loop body runs once before
    the test, so the test is made on the byte behind the terminator: the
    function goes on with what the array holds there, up to the next NUL.
    Without [doFilter] the terminator itself is copied first and the
    destination is the empty string; with [doFilter] it is not, and the
    destination gets the filtered bytes from behind the terminator. *)
Theorem strcpytrim_empty_source (dest rest : list Z) (doFilter : bool) :
  In 0 rest ->
  let behind := filter (fun c => trim_keep doFilter c = true) (c_str rest) in
  (length behind + 1 < length dest)%nat ->
  exists out,
    strcpytrim dest (0 :: rest) doFilter = Ok out /\
    c_str out = (if doFilter then behind else []) /\
    take (length behind) (if doFilter then out else drop 1 out) = behind.
Proof.
  intros Hin behind Hlen.
  pose proof (copy_terminated (trim_keep doFilter) dest 0 rest Hin) as H.
  cbn [scanned] in H. rewrite filter_cons in H. fold behind in H.
  unfold strcpytrim. destruct doFilter.
  - change (trim_keep true 0) with false in H.
    destruct (decide (false = true)) as [|_]; [discriminate|].
    eexists. split; [apply H; lia|]. cbv beta iota. split.
    + apply c_str_app. apply filter_no_nul, c_str_no_nul.
    + rewrite take_app_le, take_ge by lia. reflexivity.
  - change (trim_keep false 0) with true in H.
    destruct (decide (true = true)) as [_|]; [|congruence].
    eexists. split; [apply H; cbn [length]; lia|]. cbv beta iota. split.
    + reflexivity.
    + cbn [app].
      match goal with
      | |- context [drop 1 (0 :: ?l)] => change (drop 1 (0 :: l)) with l
      end.
      rewrite take_app_le, take_ge by lia. reflexivity.
Qed.

Lemma strcpytrim_empty_source_witness :
  exists out,
    strcpytrim (replicate 8 7) (0 :: Keypad.chars "old" ++ [0]) true = Ok out /\
    c_str out = Keypad.chars "old".
Proof.
  destruct (strcpytrim_empty_source (replicate 8 7) (Keypad.chars "old" ++ [0])
              true) as (out & Hout & Hstr & _).
  - apply in_or_app. right. left. reflexivity.
  - vm_compute. lia.
  - exists out. split; [exact Hout|exact Hstr].
Defined.

(** X5: [strcpyfilter] copies, in their order, the letters, digits, [-] and
    blanks among the characters it looks at (the first one, whatever it is,
    and those behind it up to the next NUL), then the NUL; on a string that
    is not empty these are the characters of the string. *)
Theorem strcpyfilter_keeps_filtered (dest : list Z) (c : Z) (rest : list Z) :
  In 0 rest ->
  let kept := filter (fun x => filter_keep x = true) (scanned (c :: rest)) in
  (length kept < length dest)%nat ->
  strcpyfilter dest (c :: rest) = Ok (kept ++ 0 :: drop (S (length kept)) dest) /\
  c_str (kept ++ 0 :: drop (S (length kept)) dest) = kept /\
  (c <> 0 -> scanned (c :: rest) = c_str (c :: rest)).
Proof.
  intros Hin kept Hlen. split; [|split].
  - unfold strcpyfilter. apply copy_terminated; assumption.
  - apply c_str_app. intros H0. apply list_elem_of_In in H0.
    apply list_elem_of_filter in H0 as [Hk _]. discriminate Hk.
  - intros Hc. cbn. destruct (Z.eqb_spec c 0); [congruence|reflexivity].
Qed.

Lemma strcpyfilter_keeps_filtered_witness :
  strcpyfilter (replicate 10 7) (Keypad.chars "New_York 1" ++ [0])
  = Ok (Keypad.chars "NewYork 1" ++ [0]).
Proof.
  destruct (strcpyfilter_keeps_filtered (replicate 10 7) 78
              (Keypad.chars "ew_York 1" ++ [0])) as [H _].
  - apply in_or_app. right. left. reflexivity.
  - vm_compute. lia.
  - exact H.
Defined.

End WifiFacts.

(** ** The return from a time travel, the travel sequence, the hardware
       clock and the sounds *)

Module TimeLoopFacts.
Import Codec Clock Time TimeLoop CodecFacts.

(** *** The return from a time travel *)

Lemma played_app name l ev :
  played name (l ++ [ev]) = (played name l + if is_play name ev then 1 else 0)%nat.
Proof.
  unfold played. rewrite List.filter_app, length_app. cbn [List.filter].
  destruct (is_play name ev); reflexivity.
Qed.

Lemma played_app_list name l l' :
  played name (l ++ l') = (played name l + played name l')%nat.
Proof. unfold played. rewrite List.filter_app, length_app. reflexivity. Qed.

(** [resetPresentTime] in one piece. *)
Lemma resetPresentTime_eq e s :
  resetPresentTime e s
  = mkTcd (presentTime s) (destinationTime s)
          (setYearOffset 0
             (setMinute (getMinute (presentTime s))
                (setHour (getHour (presentTime s))
                   (setDay (getDay (presentTime s))
                      (setMonth (getMonth (presentTime s))
                         (setYear (getYear (presentTime s)
                                   - getYearOffset (presentTime s))
                                  (departedTime s)))))))
          (mkTravel 0 (timeDiffUp (tr s)) (millis e) true
                    (timetravelP1Now (tr s)) (timetravelP1Delay (tr s))
                    (timeTravelP1 (tr s)))
          (ai s) (rtc s)
          (log s
           ++ (if timeDifference (tr s) =? 0 then []
               else [PlayFile "/timetravel.mp3"])
           ++ [Call "allOff"]
           ++ (if timetravelPersistent e
               then [Call "departedTime.save"; Call "presentTime.save"]
               else [])).
Proof.
  destruct s as [p dst dep t a r l]. destruct t as [td up tn tt pn pd p1].
  cbv beta delta [resetPresentTime] zeta.
  cbn [tr set_tr emit set_departedTime presentTime destinationTime
       departedTime ai rtc log timeDifference timeDiffUp timetravelNow
       timeTraveled timetravelP1Now timetravelP1Delay timeTravelP1].
  destruct (td =? 0); destruct (timetravelPersistent e);
    cbv beta iota delta
      [negb tr set_tr emit set_departedTime presentTime destinationTime
       departedTime ai rtc log timeDifference timeDiffUp timetravelNow
       timeTraveled timetravelP1Now timetravelP1Delay timeTravelP1];
    rewrite <- ?app_assoc; reflexivity.
Qed.

Lemma resetPresentTime_frame e s :
  timeTravelP1 (tr (resetPresentTime e s)) = timeTravelP1 (tr s).
Proof. rewrite resetPresentTime_eq. reflexivity. Qed.

(** X6: [resetPresentTime] takes the offset of the present time away, so
    that the present display is the time of the hardware clock again, and
    starts the re-entry delay.  It leaves the present and the destination
    clock, the hardware clock, the travel sequence and the pause of the
    rotation as they are, plays the travel sound only if there was an
    offset, and puts the date the present clock showed into the departed
    clock. *)
Theorem resetPresentTime_returns (e : env) (s : tcd) :
  let s' := resetPresentTime e s in
  timeDifference (tr s') = 0 /\
  (forall trueTime, applyOffset (tr s') trueTime = trueTime) /\
  timeTraveled (tr s') = true /\ timetravelNow (tr s') = millis e /\
  timeDiffUp (tr s') = timeDiffUp (tr s) /\
  timeTravelP1 (tr s') = timeTravelP1 (tr s) /\
  presentTime s' = presentTime s /\
  destinationTime s' = destinationTime s /\
  ai s' = ai s /\ rtc s' = rtc s /\
  played "/timetravel.mp3" (log s')
  = (played "/timetravel.mp3" (log s)
     + if (timeDifference (tr s) =? 0)%Z then 0 else 1)%nat /\
  (forall dim,
      1 <= cd_month (presentTime s) <= 12 ->
      daysInMonth (cd_month (presentTime s))
                  (cd_year (presentTime s) - cd_yearOffset (presentTime s))
      = Ok dim ->
      1 <= cd_day (presentTime s) <= dim ->
      effective (departedTime s') = effective (presentTime s)).
Proof.
  cbv zeta. rewrite resetPresentTime_eq.
  cbn [tr presentTime destinationTime departedTime ai rtc log timeDifference
       timeDiffUp timetravelNow timeTraveled timeTravelP1].
  split; [reflexivity|]. split.
  { intros x. unfold applyOffset. cbn [timeDiffUp timeDifference].
    destruct (timeDiffUp (tr s)); lia. }
  do 8 (split; [reflexivity|]). split.
  - rewrite !played_app_list.
    destruct (timeDifference (tr s) =? 0); destruct (timetravelPersistent e);
      reflexivity.
  - intros dim Hmo Hdim Hday.
    unfold effective, setYearOffset, setMinute, setHour, setDay, setMonth,
      setYear, getYear, getMonth, getDay, getHour, getMinute, getYearOffset.
    cbn [cd_year cd_month cd_day cd_hour cd_minute cd_yearOffset].
    rewrite (TimeFacts.clamp_id 1 12) by lia. rewrite Hdim.
    rewrite TimeFacts.clamp_id by lia. rewrite Z.sub_0_r. reflexivity.
Qed.

Lemma resetPresentTime_returns_witness :
  timeDifference (tr (resetPresentTime env0 tcd_rollover_behind)) = 0 /\
  effective (departedTime (resetPresentTime env0 tcd_rollover_behind))
  = effective (presentTime tcd_rollover_behind).
Proof.
  pose proof (resetPresentTime_returns env0 tcd_rollover_behind) as H.
  cbv zeta in H.
  destruct H as (H0 & _ & _ & _ & _ & _ & _ & _ & _ & _ & _ & Heff).
  split; [exact H0|].
  apply (Heff 31); [vm_compute; intuition discriminate|reflexivity
                   |vm_compute; intuition discriminate].
Defined.

(** *** The long time travel sequence *)

Lemma timeTravel_short_stamp e s s' :
  timeTravel e false s = Ok s' ->
  timetravelNow (tr s') = millis e /\ timeTraveled (tr s') = true.
Proof.
  unfold timeTravel. cbv zeta.
  match goal with
  | |- bind ?m _ = _ -> _ => destruct m as [rtcTime| |]; [|discriminate..]
  end.
  cbn [bind].
  match goal with
  | |- bind ?m _ = _ -> _ => destruct m as [newTime| |]; [|discriminate..]
  end.
  cbn [bind].
  destruct (rtcTime <? newTime); destruct (timetravelPersistent e);
    intros [= <-]; split; reflexivity.
Qed.

Lemma geb_true x y : x >= y -> (x >=? y) = true.
Proof. intros H. apply Z.geb_le. lia. Qed.

Lemma geb_false x y : x < y -> (x >=? y) = false.
Proof. intros H. destruct (Z.geb_spec x y); [lia|reflexivity]. Qed.

Lemma wrap32_0 : wrap32 0 = 0.
Proof. reflexivity. Qed.

(** A pass of the loop during the sequence, before the delay of the phase
    is over, changes nothing. *)
Lemma time_loop_travel_waits e s :
  timeTraveled (tr s) = false ->
  wrap32 (millis (le e) - timetravelP1Now (tr s)) < timetravelP1Delay (tr s) ->
  time_loop_travel e s = Ok s.
Proof.
  intros Htt Hwait. unfold time_loop_travel. cbv zeta.
  rewrite (geb_false _ _ Hwait), andb_false_r. cbn [bind].
  rewrite Htt. reflexivity.
Qed.

(** A pass after the delay of phase 1, 2, 3 or 4 moves on to the next
    phase and leaves everything else alone, but for the displays being
    switched off on the way into phase 2. *)
Lemma time_loop_travel_phase e s :
  timeTraveled (tr s) = false ->
  1 <= timeTravelP1 (tr s) <= 4 ->
  wrap32 (millis (le e) - timetravelP1Now (tr s)) >= timetravelP1Delay (tr s) ->
  time_loop_travel e s
  = Ok (set_P1 (millis (le e))
               (if timeTravelP1 (tr s) =? 1 then TT_P1_DELAY_P2 e
                else if timeTravelP1 (tr s) =? 2 then TT_P1_DELAY_P3 e
                else if timeTravelP1 (tr s) =? 3 then TT_P1_DELAY_P4 e
                else TT_P1_DELAY_P5 e)
               (timeTravelP1 (tr s) + 1)
               (if timeTravelP1 (tr s) =? 1 then emit (Call "allOff") s else s)).
Proof.
  intros Htt Hphase Hover. unfold time_loop_travel. cbv zeta.
  rewrite (geb_true _ _ Hover), andb_true_r.
  destruct s as [p dst dep t a r l]. destruct t as [td up tn tt pn pd p1].
  cbn [tr timeTraveled timeTravelP1 timetravelP1Now timetravelP1Delay] in *.
  subst tt.
  assert (Hp1 : p1 = 1 \/ p1 = 2 \/ p1 = 3 \/ p1 = 4) by lia.
  destruct Hp1 as [->|[->|[->| ->]]]; reflexivity.
Qed.

(** A due pass of the blocks in phase 1, 2, 3 or 4, made on the state the
    rest of the loop has left. *)
Lemma travel_phase_step e (g : tcd -> tcd) s n :
  keeps_sequence s (g s) ->
  timeTraveled (tr s) = false ->
  timeTravelP1 (tr s) = n -> 1 <= n <= 4 ->
  wrap32 (millis (le e) - timetravelP1Now (tr s)) >= timetravelP1Delay (tr s) ->
  exists s',
    time_loop_travel e (g s) = Ok s' /\
    timeTravelP1 (tr s') = n + 1 /\
    timetravelP1Now (tr s') = millis (le e) /\
    timetravelP1Delay (tr s') = phase_delay e (n + 1) /\
    timeTraveled (tr s') = false /\
    ai s' = ai (g s) /\
    travel_frame (g s) s'.
Proof.
  intros (K1 & K2 & K3 & K4 & K5) Htt Hn Hrange Hdue.
  rewrite time_loop_travel_phase
    by (rewrite ?K1, ?K2, ?K3, ?K4; first [exact Htt|lia|exact Hdue]).
  rewrite K1, Hn. eexists. split; [reflexivity|].
  unfold phase_delay, travel_frame.
  assert (Hc : n = 1 \/ n = 2 \/ n = 3 \/ n = 4) by lia.
  destruct Hc as [->|[->|[->| ->]]];
    cbn; rewrite ?K4, ?Htt; repeat split; reflexivity.
Qed.

(** The due pass in phase 5 is the short commit. *)
Lemma travel_commit_step e (g : tcd -> tcd) s :
  keeps_sequence s (g s) ->
  timeTraveled (tr s) = false ->
  timeTravelP1 (tr s) = 5 ->
  wrap32 (millis (le e) - timetravelP1Now (tr s)) >= timetravelP1Delay (tr s) ->
  0 < TIMETRAVEL_DELAY e ->
  time_loop_travel e (g s)
  = timeTravel (le e) false
      (set_P1 (millis (le e)) (timetravelP1Delay (tr s)) 0 (g s)).
Proof.
  intros (K1 & K2 & K3 & K4 & K5) Htt Hp Hdue Hdelay.
  unfold time_loop_travel. cbv zeta.
  rewrite K1, K2, K3, Hp. rewrite (geb_true _ _ Hdue).
  change (negb (5 =? 0) && true) with true. cbv iota.
  change (5 + 1 =? 2) with false. change (5 + 1 =? 3) with false.
  change (5 + 1 =? 4) with false. change (5 + 1 =? 5) with false.
  cbv iota.
  change (set_P1 (millis (le e)) (timetravelP1Delay (tr s)) 0
            (set_P1 (millis (le e)) (timetravelP1Delay (tr s)) (5 + 1) (g s)))
    with (set_P1 (millis (le e)) (timetravelP1Delay (tr s)) 0 (g s)).
  match goal with
  | |- bind ?m _ = _ => destruct m as [s'| |] eqn:Hs'
  end; [|reflexivity..].
  cbn [bind]. apply timeTravel_short_stamp in Hs' as [Hnow Htrue].
  rewrite Htrue, Hnow, Z.sub_diag, wrap32_0, geb_false by lia.
  reflexivity.
Qed.

(** X7: the long time travel.  [timeTravel(true)] starts the sequence in
    phase 1.  Take a state in which no display-off period of an earlier
    travel is pending ([timeTraveled] false), and let the rest of the main
    loop (the half-second block of [time_loop] and everything else that
    runs between two runs of the blocks "Time travel animation" and "Turn
    display back on after time traveling") change the state in any way
    that leaves the five variables of the sequence alone.  Then the runs of
    the two blocks made when the delay of the running phase is over
    (millis() modulo 2^32) return and take the sequence through the phases
    2, 3, 4 and 5; each of them changes neither the offset of the present
    time nor any of the three clocks nor the reading of the hardware clock;
    and the fifth such run is exactly the short commit [timeTravel(false)]
    on the state as it then is, with the phase counter back at 0. *)
Theorem long_travel_commits (e0 : env) (e1 e2 e3 e4 e5 : loop_env)
    (g1 g2 g3 g4 g5 : tcd -> tcd) (s0 : tcd) :
  (forall s, keeps_sequence s (g1 s)) ->
  (forall s, keeps_sequence s (g2 s)) ->
  (forall s, keeps_sequence s (g3 s)) ->
  (forall s, keeps_sequence s (g4 s)) ->
  (forall s, keeps_sequence s (g5 s)) ->
  timeTraveled (tr s0) = false ->
  wrap32 (millis (le e1) - millis e0) >= TT_P1_DELAY_P1 e0 ->
  wrap32 (millis (le e2) - millis (le e1)) >= TT_P1_DELAY_P2 e1 ->
  wrap32 (millis (le e3) - millis (le e2)) >= TT_P1_DELAY_P3 e2 ->
  wrap32 (millis (le e4) - millis (le e3)) >= TT_P1_DELAY_P4 e3 ->
  wrap32 (millis (le e5) - millis (le e4)) >= TT_P1_DELAY_P5 e4 ->
  0 < TIMETRAVEL_DELAY e5 ->
  exists s1 s2 s3 s4 s5,
    timeTravel e0 true s0 = Ok s1 /\
    time_loop_travel e1 (g1 s1) = Ok s2 /\
    time_loop_travel e2 (g2 s2) = Ok s3 /\
    time_loop_travel e3 (g3 s3) = Ok s4 /\
    time_loop_travel e4 (g4 s4) = Ok s5 /\
    (timeTravelP1 (tr s1) = 1 /\ timeTravelP1 (tr s2) = 2 /\
     timeTravelP1 (tr s3) = 3 /\ timeTravelP1 (tr s4) = 4 /\
     timeTravelP1 (tr s5) = 5) /\
    (travel_frame s0 s1 /\ travel_frame (g1 s1) s2 /\
     travel_frame (g2 s2) s3 /\ travel_frame (g3 s3) s4 /\
     travel_frame (g4 s4) s5) /\
    time_loop_travel e5 (g5 s5)
    = timeTravel (le e5) false
        (set_P1 (millis (le e5)) (TT_P1_DELAY_P5 e4) 0 (g5 s5)).
Proof.
  intros K1 K2 K3 K4 K5 Htt H1 H2 H3 H4 H5 Hdelay.
  set (s1 := set_tr (mkTravel (timeDifference (tr s0)) (timeDiffUp (tr s0))
                              (timetravelNow (tr s0)) (timeTraveled (tr s0))
                              (millis e0) (TT_P1_DELAY_P1 e0) 1)
               (emit (PlayFile "/travelstart.mp3")
                  (set_ai (pauseAuto e0 (ai s0)) s0))).
  assert (E1 : timeTravel e0 true s0 = Ok s1) by reflexivity.
  assert (F1 : travel_frame s0 s1) by (repeat split).
  destruct (travel_phase_step e1 g1 s1 1 (K1 s1) Htt eq_refl ltac:(lia) H1)
    as (s2 & E2 & P2 & N2 & D2 & T2 & _ & F2).
  destruct (travel_phase_step e2 g2 s2 2 (K2 s2) T2 P2 ltac:(lia))
    as (s3 & E3 & P3 & N3 & D3 & T3 & _ & F3);
    [rewrite N2, D2; exact H2|].
  destruct (travel_phase_step e3 g3 s3 3 (K3 s3) T3 P3 ltac:(lia))
    as (s4 & E4 & P4 & N4 & D4 & T4 & _ & F4);
    [rewrite N3, D3; exact H3|].
  destruct (travel_phase_step e4 g4 s4 4 (K4 s4) T4 P4 ltac:(lia))
    as (s5 & E5 & P5 & N5 & D5 & T5 & _ & F5);
    [rewrite N4, D4; exact H4|].
  exists s1, s2, s3, s4, s5.
  do 5 (split; [assumption|]).
  split; [exact (conj eq_refl (conj P2 (conj P3 (conj P4 P5))))|].
  split; [exact (conj F1 (conj F2 (conj F3 (conj F4 F5))))|].
  change (TT_P1_DELAY_P5 e4) with (phase_delay e4 (4 + 1)).
  rewrite <- D5.
  apply travel_commit_step;
    [apply K5|exact T5|exact P5|rewrite N5, D5; exact H5|exact Hdelay].
Qed.

Lemma long_travel_commits_witness :
  exists s5,
    (s1 <- timeTravel env0 true tcd0 ;;
     s2 <- time_loop_travel
             (mkLoopEnv (mkEnv 5 1400 true true 2400) 50 50 50 50 1500)
             (emit (Call "presentTime.show") s1) ;;
     s3 <- time_loop_travel
             (mkLoopEnv (mkEnv 5 1400 true true 2450) 50 50 50 50 1500)
             (emit (Call "presentTime.show") s2) ;;
     s4 <- time_loop_travel
             (mkLoopEnv (mkEnv 5 1400 true true 2500) 50 50 50 50 1500)
             (emit (Call "presentTime.show") s3) ;;
     time_loop_travel
       (mkLoopEnv (mkEnv 5 1400 true true 2550) 50 50 50 50 1500)
       (emit (Call "presentTime.show") s4))
    = Ok s5 /\
    timeTravelP1 (tr s5) = 5 /\
    time_loop_travel (mkLoopEnv (mkEnv 5 1400 true true 2600) 50 50 50 50 1500)
      (emit (Call "presentTime.show") s5)
    = timeTravel (mkEnv 5 1400 true true 2600) false
        (set_P1 2600 50 0 (emit (Call "presentTime.show") s5)).
Proof.
  assert (K : forall s, keeps_sequence s (emit (Call "presentTime.show") s))
    by (intros s; repeat split).
  assert (G1 : wrap32 (2400 - 1000) >= 1400) by (vm_compute; discriminate).
  assert (G2 : wrap32 (2450 - 2400) >= 50) by (vm_compute; discriminate).
  assert (G3 : wrap32 (2500 - 2450) >= 50) by (vm_compute; discriminate).
  assert (G4 : wrap32 (2550 - 2500) >= 50) by (vm_compute; discriminate).
  assert (G5 : wrap32 (2600 - 2550) >= 50) by (vm_compute; discriminate).
  destruct (long_travel_commits env0
              (mkLoopEnv (mkEnv 5 1400 true true 2400) 50 50 50 50 1500)
              (mkLoopEnv (mkEnv 5 1400 true true 2450) 50 50 50 50 1500)
              (mkLoopEnv (mkEnv 5 1400 true true 2500) 50 50 50 50 1500)
              (mkLoopEnv (mkEnv 5 1400 true true 2550) 50 50 50 50 1500)
              (mkLoopEnv (mkEnv 5 1400 true true 2600) 50 50 50 50 1500)
              (emit (Call "presentTime.show")) (emit (Call "presentTime.show"))
              (emit (Call "presentTime.show")) (emit (Call "presentTime.show"))
              (emit (Call "presentTime.show"))
              tcd0 K K K K K eq_refl G1 G2 G3 G4 G5 eq_refl)
    as (s1 & s2 & s3 & s4 & s5 & E1 & E2 & E3 & E4 & E5 & (_ & _ & _ & _ & P5)
        & _ & Hcommit).
  exists s5. split.
  { rewrite E1. cbn [bind]. rewrite E2. cbn [bind]. rewrite E3. cbn [bind].
    rewrite E4. cbn [bind]. exact E5. }
  split; [exact P5|exact Hcommit].
Defined.

(** *** The window of the hardware clock's years *)

Lemma wrap16_small x : 0 <= x < 2^16 -> wrap16 x = x.
Proof. intros H. unfold wrap16. apply Z.mod_small. exact H. Qed.

Lemma wrap16s_small x : - 2^15 <= x < 2^15 -> wrap16s x = x.
Proof. intros H. unfold wrap16s. rewrite Z.mod_small by lia. lia. Qed.

(** The rounds the loop makes on the year [y]. *)
Lemma year_window_run (n : nat) : forall fuel y o,
  (n < fuel)%nat -> 0 <= y < 2^16 ->
  2050 - 28 < y - 28 * Z.of_nat n <= 2050 \/ (n = O /\ y <= 2050) ->
  - 2^15 <= o - 28 * Z.of_nat n -> o < 2^15 ->
  year_window fuel y o = Ok (y - 28 * Z.of_nat n, o - 28 * Z.of_nat n).
Proof.
  induction n as [|n IH]; intros fuel y o Hfuel Hy Hn Ho Ho'.
  - destruct fuel as [|fuel]; [lia|]. cbn [year_window].
    destruct (Z.gtb_spec y 2050); [lia|]. f_equal. f_equal; lia.
  - destruct fuel as [|fuel]; [lia|]. cbn [year_window].
    destruct (Z.gtb_spec y 2050); [|lia].
    rewrite wrap16_small, wrap16s_small by lia.
    rewrite IH by lia. f_equal. f_equal; lia.
Qed.

(** X8: the year written to the hardware clock is kept at 2050 or below by
    taking whole cycles of 28 years off it and off the year offset alike,
    so that year minus offset stays the year of the network time; this
    holds up to the year 34810, where the offset leaves the [int16_t].
    [time_loop] does the same with the year of the hardware clock when the
    network time is not to be had, and only for a year above 2050. *)
Theorem year_window_keeps_effective_year (tm_year : Z) :
  0 <= tm_year + 1900 <= 34810 ->
  exists newYear newYOffs,
    getNTPTime_year tm_year = Ok (newYear, newYOffs) /\
    newYear - newYOffs = tm_year + 1900 /\
    newYear <= 2050 /\
    (2050 < tm_year + 1900 -> 2023 <= newYear) /\
    (tm_year + 1900 <= 2050 -> newYOffs = 0) /\
    newYOffs <= 0 /\ newYOffs mod 28 = 0 /\
    time_loop_year (tm_year + 1900)
    = Ok (if tm_year + 1900 >? 2050 then Some (newYear, newYOffs) else None).
Proof.
  intros Hy. set (y := tm_year + 1900) in *.
  set (n := if y >? 2050 then (y - 2050 + 27) / 28 else 0).
  assert (Hn : 0 <= n <= 1170).
  { subst n. destruct (Z.gtb_spec y 2050); [|lia]. split.
    - apply Z.div_pos; lia.
    - assert ((y - 2050 + 27) / 28 < 1171)
        by (apply Z.div_lt_upper_bound; lia).
      lia. }
  assert (Hwin : 2050 - 28 < y - 28 * n <= 2050 \/ (n = 0 /\ y <= 2050)).
  { subst n. destruct (Z.gtb_spec y 2050); [left|right; lia].
    pose proof (Z.div_mod (y - 2050 + 27) 28 ltac:(lia)).
    pose proof (Z.mod_pos_bound (y - 2050 + 27) 28 ltac:(lia)). lia. }
  assert (Hrun : year_window year_window_fuel y 0 = Ok (y - 28 * n, 0 - 28 * n)).
  { rewrite <- (Z2Nat.id n) by lia.
    apply year_window_run.
    - unfold year_window_fuel. lia.
    - lia.
    - rewrite Z2Nat.id by lia. destruct Hwin as [H|[H H']]; [left; exact H|].
      right. split; [rewrite H; reflexivity|exact H'].
    - rewrite Z2Nat.id by lia. lia.
    - lia. }
  exists (y - 28 * n), (0 - 28 * n).
  split; [unfold getNTPTime_year; fold y; rewrite wrap16_small by lia; exact Hrun|].
  split; [lia|]. split; [lia|]. split; [lia|].
  split; [intros Hle; subst n; destruct (Z.gtb_spec y 2050); lia|].
  split; [lia|]. split.
  - replace (0 - 28 * n) with ((- n) * 28) by lia. apply Z.mod_mul. lia.
  - unfold time_loop_year. rewrite wrap16_small by lia.
    destruct (Z.gtb_spec y 2050); [|reflexivity].
    rewrite Hrun. reflexivity.
Qed.

Lemma year_window_keeps_effective_year_witness :
  exists newYear newYOffs,
    getNTPTime_year 185 = Ok (newYear, newYOffs) /\
    newYear - newYOffs = 2085 /\ 2023 <= newYear <= 2050.
Proof.
  destruct (year_window_keeps_effective_year 185 ltac:(lia))
    as (y & o & Hrun & Heff & Hhi & Hlo & _).
  exists y, o. split; [exact Hrun|]. split; [exact Heff|].
  split; [apply Hlo; lia|exact Hhi].
Defined.

(** *** The reading of the hardware clock *)

Lemma sum_snoc l x : sum (l ++ [x]) = sum l + x.
Proof.
  induction l as [|a l IH]; unfold sum in *; cbn [app fold_right]; lia.
Qed.

Lemma myrtcnow_loop_run (fuel : nat) : forall rtc_now k retries delays,
  retries = Z.of_nat k -> (30 - k < fuel)%nat -> (k <= 30)%nat ->
  (forall j, (j < k)%nat -> implausible (rtc_now j) = true) ->
  Z.of_nat (length delays) = retries ->
  sum delays <= 100 * retries - 50 * Z.min retries 5 ->
  exists dt retries' delays',
    myrtcnow_loop fuel rtc_now (S k) (rtc_now k) retries delays
    = Ok (dt, retries', delays') /\
    0 <= retries' <= 30 /\ dt = rtc_now (Z.to_nat retries') /\
    (implausible dt = false \/ retries' = 30) /\
    (forall j, (j < Z.to_nat retries')%nat -> implausible (rtc_now j) = true) /\
    Z.of_nat (length delays') = retries' /\
    sum delays' <= 100 * retries' - 50 * Z.min retries' 5.
Proof.
  induction fuel as [|fuel IH]; intros rtc_now k retries delays Hk Hfuel Hk30
    Hbad Hlen Hsum; [lia|].
  cbn [myrtcnow_loop].
  destruct (implausible (rtc_now k)) eqn:Himp;
    [destruct (Z.ltb_spec retries 30) as [Hlt|Hge]|]; cbn [andb].
  - destruct (IH rtc_now (S k) (retries + 1)
                (delays ++ [if retries <? 5 then 50 else 100]))
      as (dt & r' & d' & Hrun & Hr & Hdt & Hor & Hall & Hl & Hs); try lia.
    + intros j Hj. destruct (Nat.eq_dec j k) as [->|Hne]; [exact Himp|].
      apply Hbad. lia.
    + rewrite length_app. cbn [length]. lia.
    + rewrite sum_snoc. destruct (Z.ltb_spec retries 5); lia.
    + exists dt, r', d'. repeat split; try assumption; lia.
  - exists (rtc_now k), retries, delays.
    split; [reflexivity|]. split; [lia|]. split; [subst; rewrite Nat2Z.id; reflexivity|].
    split; [right; lia|]. split; [|split; assumption].
    intros j Hj. apply Hbad. lia.
  - exists (rtc_now k), retries, delays.
    split; [reflexivity|]. split; [lia|]. split; [subst; rewrite Nat2Z.id; reflexivity|].
    split; [left; exact Himp|]. split; [|split; assumption].
    intros j Hj. apply Hbad. lia.
Qed.

(** X9: [myrtcnow] returns the first of the readings of the hardware clock
    that is plausible, and gives up after 30 retries: it then returns the
    31st reading as it is.  It waits 2750 ms in all at most. *)
Theorem myrtcnow_first_plausible (rtc_now : nat -> DateTime) :
  exists dt retries delays,
    TimeLoop.myrtcnow rtc_now = Ok (dt, retries, delays) /\
    0 <= retries <= 30 /\ dt = rtc_now (Z.to_nat retries) /\
    (implausible dt = false \/ retries = 30) /\
    (forall j, (j < Z.to_nat retries)%nat -> implausible (rtc_now j) = true) /\
    Z.of_nat (length delays) = retries /\
    sum delays <= 2750.
Proof.
  assert (Hnone : forall j, (j < 0)%nat -> implausible (rtc_now j) = true)
    by (intros j Hj; lia).
  assert (Hsum0 : sum [] <= 100 * 0 - 50 * Z.min 0 5) by (cbn; lia).
  destruct (myrtcnow_loop_run 31 rtc_now 0 0 [] eq_refl ltac:(lia) ltac:(lia)
              Hnone eq_refl Hsum0)
    as (dt & r & d & Hrun & Hr & Hdt & Hor & Hall & Hl & Hs).
  exists dt, r, d. repeat split; try assumption; lia.
Qed.

(** *** The hourly sound and the alarm *)

Lemma played_same name l ev :
  is_play name ev = false -> played name (l ++ [ev]) = played name l.
Proof. intros H. rewrite played_app, H. lia. Qed.

Ltac eval_names :=
  cbn [is_play];
  repeat match goal with
    | |- context [String.eqb ?a ?b] =>
        let v := eval vm_compute in (String.eqb a b) in
        change (String.eqb a b) with v
    end.

Lemma comp_time_frame e dt s s' :
  presentTime s' = presentTime s -> comp_time e dt s' = comp_time e dt s.
Proof. intros H. unfold comp_time. rewrite H. reflexivity. Qed.

(** A pass of the sound block at the time of the alarm. *)
Lemma sounds_at_alarm e dt s c :
  alarmOnOff e = true ->
  comp_time e dt s = (alarmHour e, alarmMinute e) ->
  let sc' := time_loop_sounds e dt (s, c) in
  presentTime (fst sc') = presentTime s /\ tr (fst sc') = tr s /\
  played "/alarm.mp3" (log (fst sc'))
  = (played "/alarm.mp3" (log s) + if alarmDone c then 0 else 1)%nat /\
  played "/hour.mp3" (log (fst sc')) = played "/hour.mp3" (log s) /\
  alarmDone (snd sc') = true.
Proof.
  intros Hon Htime. unfold time_loop_sounds, comp_time in *. cbv zeta.
  rewrite Hon.
  destruct (alarmRTC e); injection Htime as Hh Hm; rewrite Hh, Hm, !Z.eqb_refl;
    cbn [andb]; rewrite !orb_true_r;
    destruct (alarmMinute e =? 0); destruct c as [hd [|]];
    cbn [negb hourlySoundDone alarmDone fst snd emit presentTime tr log];
    rewrite ?played_app; eval_names; repeat split; lia.
Qed.

(** A pass of the sound block at minute 0. *)
Lemma sounds_at_hour e dt s c :
  snd (comp_time e dt s) = 0 ->
  let sc' := time_loop_sounds e dt (s, c) in
  presentTime (fst sc') = presentTime s /\ tr (fst sc') = tr s /\
  played "/hour.mp3" (log (fst sc'))
  = (played "/hour.mp3" (log s)
     + if hourlySoundDone c || hour_blocked e dt s then 0 else 1)%nat /\
  hourlySoundDone (snd sc') = true.
Proof.
  intros Hmin. unfold hour_blocked. unfold time_loop_sounds, comp_time in *.
  cbv zeta.
  set (compHour := if alarmRTC e then dt_hour dt else getHour (presentTime s)) in *.
  set (compMin := if alarmRTC e then dt_minute dt else getMinute (presentTime s)) in *.
  assert (Hm : compMin = 0) by (subst compMin; destruct (alarmRTC e); exact Hmin).
  replace (fst (if alarmRTC e then (dt_hour dt, dt_minute dt)
                else (getHour (presentTime s), getMinute (presentTime s))))
    with compHour by (subst compHour; destruct (alarmRTC e); reflexivity).
  replace (snd (if alarmRTC e then (dt_hour dt, dt_minute dt)
                else (getHour (presentTime s), getMinute (presentTime s))))
    with compMin by (subst compMin; destruct (alarmRTC e); reflexivity).
  rewrite Hm. cbn [Z.eqb].
  set (blocked := nightMode e || negb (FPBUnitIsOn (ce e)) || startup e
                  || timeTraveled (tr s) || negb (timeTravelP1 (tr s) =? 0)
                  || (alarmOnOff e && (alarmHour e =? compHour)
                      && (alarmMinute e =? 0))).
  destruct blocked; destruct c as [[|] ad];
    cbn [negb orb hourlySoundDone alarmDone];
    destruct (alarmOnOff e);
    try destruct ((alarmHour e =? compHour) && (alarmMinute e =? 0));
    try destruct ad;
    cbn [negb fst snd emit presentTime tr log hourlySoundDone alarmDone];
    rewrite ?played_app; eval_names; repeat split; lia.
Qed.

(** X10: the alarm sounds once.  Over the passes of the loop made while the
    time compared is the alarm time and the alarm is on, the alarm sound
    is played exactly once, or not at all if it had been played for this
    minute already; the hourly sound is not played on any of them. *)
Theorem alarm_rings_once (passes : list (chime_env * DateTime)) (s : tcd)
    (c : chimes) :
  passes <> [] ->
  Forall (fun p => alarmOnOff (fst p) = true /\
                   comp_time (fst p) (snd p) s
                   = (alarmHour (fst p), alarmMinute (fst p))) passes ->
  let sc' := run_sounds passes (s, c) in
  played "/alarm.mp3" (log (fst sc'))
  = (played "/alarm.mp3" (log s) + if alarmDone c then 0 else 1)%nat /\
  played "/hour.mp3" (log (fst sc')) = played "/hour.mp3" (log s) /\
  alarmDone (snd sc') = true.
Proof.
  intros Hne Hall. cbv zeta.
  assert (Hgen : forall passes s0 c0,
             presentTime s0 = presentTime s ->
             Forall (fun p => alarmOnOff (fst p) = true /\
                              comp_time (fst p) (snd p) s
                              = (alarmHour (fst p), alarmMinute (fst p)))
                    passes ->
             alarmDone c0 = true ->
             played "/alarm.mp3" (log (fst (run_sounds passes (s0, c0))))
             = played "/alarm.mp3" (log s0) /\
             played "/hour.mp3" (log (fst (run_sounds passes (s0, c0))))
             = played "/hour.mp3" (log s0) /\
             alarmDone (snd (run_sounds passes (s0, c0))) = true).
  { clear. induction passes as [|[e dt] rest IH]; intros s0 c0 Hp Hall Hd.
    - cbn. auto.
    - apply Forall_cons in Hall as [[Hon Htime] Hrest]. cbn [fst snd] in *.
      cbn [run_sounds].
      rewrite <- (comp_time_frame e dt s s0 Hp) in Htime.
      pose proof (sounds_at_alarm e dt s0 c0 Hon Htime) as H. cbv zeta in H.
      destruct (time_loop_sounds e dt (s0, c0)) as [s1 c1]. cbn [fst snd] in H.
      destruct H as (Hp1 & _ & Ha & Hh & Hd1). rewrite Hd in Ha.
      destruct (IH s1 c1 ltac:(congruence) Hrest Hd1) as (Ha' & Hh' & Hd').
      repeat split; [lia|lia|exact Hd']. }
  destruct passes as [|[e dt] rest]; [congruence|].
  apply Forall_cons in Hall as [[Hon Htime] Hrest]. cbn [fst snd] in *.
  cbn [run_sounds].
  pose proof (sounds_at_alarm e dt s c Hon Htime) as H. cbv zeta in H.
  destruct (time_loop_sounds e dt (s, c)) as [s1 c1]. cbn [fst snd] in H.
  destruct H as (Hp1 & _ & Ha & Hh & Hd1).
  destruct (Hgen rest s1 c1 Hp1 Hrest Hd1) as (Ha' & Hh' & Hd').
  repeat split; [lia|lia|exact Hd'].
Qed.

Lemma alarm_rings_once_witness :
  played "/alarm.mp3"
    (log (fst (run_sounds
                 [(mkChimeEnv env0 true false false true 1 21, rtc tcd0);
                  (mkChimeEnv env0 true true false true 1 21, rtc tcd0)]
                 (tcd0, mkChimes false false))))
  = 1%nat.
Proof.
  destruct (alarm_rings_once
              [(mkChimeEnv env0 true false false true 1 21, rtc tcd0);
               (mkChimeEnv env0 true true false true 1 21, rtc tcd0)]
              tcd0 (mkChimes false false)) as [H _].
  - discriminate.
  - repeat constructor.
  - exact H.
Defined.

(** X11: the hourly sound is played once an hour at most, and whether it
    is played is settled on the first pass of the loop at minute 0: it is
    played then unless the device is in night mode, switched off, starting
    up, in a time travel sequence or ringing the alarm, and no later pass
    of that minute plays it. *)
Theorem hourly_sound_first_pass (e : chime_env) (dt : DateTime)
    (rest : list (chime_env * DateTime)) (s : tcd) (c : chimes) :
  Forall (fun p => snd (comp_time (fst p) (snd p) s) = 0) ((e, dt) :: rest) ->
  let sc' := run_sounds ((e, dt) :: rest) (s, c) in
  played "/hour.mp3" (log (fst sc'))
  = (played "/hour.mp3" (log s)
     + if hourlySoundDone c || hour_blocked e dt s then 0 else 1)%nat /\
  hourlySoundDone (snd sc') = true.
Proof.
  intros Hall. cbv zeta.
  assert (Hgen : forall passes s0 c0,
             presentTime s0 = presentTime s ->
             Forall (fun p => snd (comp_time (fst p) (snd p) s) = 0) passes ->
             hourlySoundDone c0 = true ->
             played "/hour.mp3" (log (fst (run_sounds passes (s0, c0))))
             = played "/hour.mp3" (log s0) /\
             hourlySoundDone (snd (run_sounds passes (s0, c0))) = true).
  { clear. induction passes as [|[e dt] rest IH]; intros s0 c0 Hp Hall Hd.
    - cbn. auto.
    - apply Forall_cons in Hall as [Hmin Hrest]. cbn [fst snd] in *.
      cbn [run_sounds].
      rewrite <- (comp_time_frame e dt s s0 Hp) in Hmin.
      pose proof (sounds_at_hour e dt s0 c0 Hmin) as H. cbv zeta in H.
      destruct (time_loop_sounds e dt (s0, c0)) as [s1 c1]. cbn [fst snd] in H.
      destruct H as (Hp1 & _ & Hh & Hd1). rewrite Hd in Hh. cbn [orb] in Hh.
      destruct (IH s1 c1 ltac:(congruence) Hrest Hd1) as (Hh' & Hd').
      split; [lia|exact Hd']. }
  apply Forall_cons in Hall as [Hmin Hrest]. cbn [fst snd] in *.
  cbn [run_sounds].
  pose proof (sounds_at_hour e dt s c Hmin) as H. cbv zeta in H.
  destruct (time_loop_sounds e dt (s, c)) as [s1 c1]. cbn [fst snd] in H.
  destruct H as (Hp1 & _ & Hh & Hd1).
  destruct (Hgen rest s1 c1 Hp1 Hrest Hd1) as (Hh' & Hd').
  split; [lia|exact Hd'].
Qed.

Lemma hourly_sound_first_pass_witness :
  played "/hour.mp3"
    (log (fst (run_sounds
                 [(mkChimeEnv env0 true true false false 0 0,
                   mkDateTime 2015 10 26 2 0 0);
                  (mkChimeEnv env0 true false false false 0 0,
                   mkDateTime 2015 10 26 2 0 1)]
                 (tcd0, mkChimes false false))))
  = 0%nat.
Proof.
  destruct (hourly_sound_first_pass
              (mkChimeEnv env0 true true false false 0 0)
              (mkDateTime 2015 10 26 2 0 0)
              [(mkChimeEnv env0 true false false false 0 0,
                mkDateTime 2015 10 26 2 0 1)]
              tcd0 (mkChimes false false)) as [H _].
  - repeat constructor.
  - exact H.
Defined.

(** *** The seconds counted while waiting *)

Lemma wrap8_add_l x y : wrap8 (wrap8 x + y) = wrap8 (x + y).
Proof. unfold wrap8. apply Zplus_mod_idemp_l. Qed.

Lemma wrap8_small x : 0 <= x < 256 -> wrap8 x = x.
Proof. intros H. unfold wrap8. apply Z.mod_small. lia. Qed.

Lemma last_default (ys : list bool) : forall b d d',
  List.last (b :: ys) d = List.last (b :: ys) d'.
Proof.
  induction ys as [|y ys IH]; intros b d d'; [reflexivity|].
  change (List.last (b :: y :: ys) d) with (List.last (y :: ys) d).
  change (List.last (b :: y :: ys) d') with (List.last (y :: ys) d').
  apply IH.
Qed.

Lemma poll_counts maxTime ys : forall k,
  0 <= timeout k < 256 ->
  timeout (poll maxTime ys k) = wrap8 (timeout k + falling_edges (tk_x k) ys) /\
  tk_x (poll maxTime ys k) = List.last ys (tk_x k).
Proof.
  induction ys as [|y ys IH]; intros k Hk.
  - cbn [poll falling_edges List.last]. rewrite Z.add_0_r, wrap8_small by lia.
    auto.
  - cbn [poll falling_edges checkTimeOut fst].
    set (k' := if negb (eqb (tk_x k) y)
               then mkTicker y (if negb y then wrap8 (timeout k + 1)
                                else timeout k)
               else k).
    assert (Hx : tk_x k' = y).
    { subst k'. destruct (tk_x k) eqn:Hxk, y; cbn; auto. }
    assert (Ht : timeout k'
                 = wrap8 (timeout k + if tk_x k && negb y then 1 else 0)).
    { subst k'. destruct (tk_x k), y; cbn [eqb negb andb timeout];
        rewrite ?Z.add_0_r, ?(wrap8_small (timeout k)) by lia; reflexivity. }
    assert (Hk' : 0 <= timeout k' < 256).
    { rewrite Ht. unfold wrap8. apply Z.mod_pos_bound. lia. }
    destruct (IH k' Hk') as [Hcount Hlast]. split.
    + rewrite Hcount, Hx, Ht, wrap8_add_l. f_equal. lia.
    + rewrite Hlast, Hx. destruct ys as [|b ys]; [reflexivity|].
      change (List.last (y :: b :: ys) (tk_x k))
        with (List.last (b :: ys) (tk_x k)).
      apply last_default.
Qed.

(** X12: [checkTimeOut] counts the seconds: over any run of calls, the
    counter goes up by one, modulo 256, for each fall of the seconds pin
    from high to low and for nothing else, and a call returns true exactly
    when the counter it leaves has reached [maxTime]. *)
Theorem checkTimeOut_counts_seconds (maxTime : Z) (ys : list bool) (k : ticker) :
  0 <= timeout k < 256 ->
  timeout (poll maxTime ys k) = wrap8 (timeout k + falling_edges (tk_x k) ys) /\
  tk_x (poll maxTime ys k) = List.last ys (tk_x k) /\
  (forall y, snd (checkTimeOut maxTime y k) = true
             <-> timeout (fst (checkTimeOut maxTime y k)) >= maxTime).
Proof.
  intros Hk. destruct (poll_counts maxTime ys k Hk) as [Hc Hl].
  split; [exact Hc|]. split; [exact Hl|].
  intros y. unfold checkTimeOut. cbn [fst snd].
  rewrite Z.geb_le. lia.
Qed.

Lemma checkTimeOut_counts_seconds_witness :
  timeout (poll 3 [true; false; false; true; false] (mkTicker false 0)) = 2.
Proof.
  destruct (checkTimeOut_counts_seconds 3 [true; false; false; true; false]
              (mkTicker false 0)) as [H _].
  - cbn. lia.
  - exact H.
Defined.

End TimeLoopFacts.

(** ** The key events, the buffer of the menu and the displays after an
       entry *)

Module KeypadEventsFacts.
Import Codec Clock Time Keypad KeypadEvents CodecFacts KeypadFacts.

(** *** The buffer of the keypad menu *)

Lemma land_1_range x : 0 <= Z.land x 1 <= 1.
Proof.
  assert (H : Z.land x 1 = x mod 2).
  { change (Z.land x 1) with (Z.land x (Z.ones 1)).
    rewrite Z.land_ones by lia. reflexivity. }
  rewrite H. pose proof (Z.mod_pos_bound x 2 ltac:(lia)). lia.
Qed.

Lemma land_3_range x : 0 <= Z.land x 3 <= 3.
Proof.
  assert (H : Z.land x 3 = x mod 4).
  { change (Z.land x 3) with (Z.land x (Z.ones 2)).
    rewrite Z.land_ones by lia. reflexivity. }
  rewrite H. pose proof (Z.mod_pos_bound x 4 ltac:(lia)). lia.
Qed.

Lemma store_then_nul buf (i : Z) key :
  0 <= i -> i + 1 < Z.of_nat (length buf) ->
  exists buf',
    (b <- store buf i key ;; store b (i + 1) 0) = Ok buf' /\
    length buf' = length buf /\
    buf' !! Z.to_nat (i + 1) = Some 0 /\
    buf' = <[Z.to_nat (i + 1) := 0]> (<[Z.to_nat i := key]> buf).
Proof.
  intros Hi Hlen.
  rewrite store_Ok by lia. cbn [bind].
  rewrite store_Ok by (rewrite length_insert; lia).
  eexists. split; [reflexivity|]. split; [rewrite !length_insert; reflexivity|].
  split; [|reflexivity].
  apply list_lookup_insert_eq. rewrite length_insert. lia.
Qed.

Lemma recordSetTimeKey_ok key p :
  timebuf_ok p -> exists p', recordSetTimeKey key p = Ok p' /\ timebuf_ok p'.
Proof.
  intros (Hlen & Hti & Hyi & _). unfold recordSetTimeKey.
  destruct (store_then_nul (timeBuffer p) (timeIndex p) key ltac:(lia)
              ltac:(lia)) as (buf' & Hst & Hl & Hnul & _).
  destruct (store (timeBuffer p) (timeIndex p) key) as [b| |];
    cbn [bind] in *; try discriminate.
  rewrite Hst. cbn [bind]. eexists. split; [reflexivity|].
  unfold timebuf_ok. cbn [timeBuffer timeIndex yearIndex].
  split; [congruence|]. split; [apply land_1_range|]. split; [exact Hyi|].
  destruct (strlen_bound buf' _ Hnul) as (m & Hm & Hr).
  exists m. split; [exact Hm|]. lia.
Qed.

Lemma recordSetYearKey_ok key p :
  timebuf_ok p -> exists p', recordSetYearKey key p = Ok p' /\ timebuf_ok p'.
Proof.
  intros (Hlen & Hti & Hyi & _). unfold recordSetYearKey.
  destruct (store_then_nul (timeBuffer p) (yearIndex p) key ltac:(lia)
              ltac:(lia)) as (buf' & Hst & Hl & Hnul & _).
  destruct (store (timeBuffer p) (yearIndex p) key) as [b| |];
    cbn [bind] in *; try discriminate.
  rewrite Hst. cbn [bind]. eexists. split; [reflexivity|].
  unfold timebuf_ok. cbn [timeBuffer timeIndex yearIndex].
  split; [congruence|]. split; [exact Hti|]. split; [apply land_3_range|].
  destruct (strlen_bound buf' _ Hnul) as (m & Hm & Hr).
  exists m. split; [exact Hm|]. lia.
Qed.

(** X13: the buffer of the keypad menu.  Whatever keys are recorded for a
    time field or for a year, and whenever the indices are reset, every
    store stays inside [timeBuffer[8]], the index of a time field stays 0
    or 1 and the one of a year within 0..3, and the buffer holds a string
    of four characters at most. *)
Theorem menu_buffer_bounded (inputs : list menu_input) (p : pad) :
  timebuf_ok p ->
  exists p', menu_run inputs p = Ok p' /\ timebuf_ok p'.
Proof.
  revert p. induction inputs as [|i rest IH]; intros p Hok.
  - exists p. split; [reflexivity|exact Hok].
  - cbn [menu_run].
    assert (Hstep : exists p1, menu_step i p = Ok p1 /\ timebuf_ok p1).
    { destruct i as [key|key|]; cbn [menu_step].
      - apply recordSetTimeKey_ok, Hok.
      - apply recordSetYearKey_ok, Hok.
      - eexists. split; [reflexivity|].
        destruct Hok as (Hlen & _ & _ & Hstr).
        unfold timebuf_ok, resetTimebufIndices.
        cbn [timeBuffer timeIndex yearIndex]. repeat split; try lia; assumption. }
    destruct Hstep as (p1 & -> & Hok1). cbn [bind]. apply IH, Hok1.
Qed.

Lemma pad0_timebuf_ok : timebuf_ok pad0.
Proof.
  unfold timebuf_ok. cbn. repeat split; try lia. exists 0. split; [reflexivity|lia].
Qed.

Lemma menu_buffer_bounded_witness :
  exists p', menu_run [YearKey 50; YearKey 48; TimeKey 49; YearKey 49;
                       YearKey 53; YearKey 57; ResetIndices; TimeKey 51]
                      pad0 = Ok p' /\ timebuf_ok p'.
Proof. apply menu_buffer_bounded. exact pad0_timebuf_ok. Defined.

Lemma atoi_digits_digit acc d rest :
  0 <= d <= 9 -> atoi_digits acc (48 + d :: rest) = atoi_digits (acc * 10 + d) rest.
Proof.
  intros Hd. cbn [atoi_digits]. unfold isdigit.
  replace ((48 <=? 48 + d) && (48 + d <=? 57)) with true by lia.
  f_equal. lia.
Qed.

Lemma atoi_digit_first d rest :
  0 <= d <= 9 -> atoi (48 + d :: rest) = atoi_digits d rest.
Proof.
  intros Hd. cbn [atoi]. unfold isspace.
  replace ((48 + d =? 32) || (9 <=? 48 + d) && (48 + d <=? 13)) with false by lia.
  replace (48 + d =? 45) with false by lia.
  replace (48 + d =? 43) with false by lia.
  rewrite atoi_digits_digit by exact Hd. f_equal.
Qed.

Lemma atoi_digits_nul acc rest : atoi_digits acc (0 :: rest) = acc.
Proof. reflexivity. Qed.

Lemma list_of_length_8 (l : list Z) :
  length l = 8%nat ->
  exists b0 b1 b2 b3 b4 b5 b6 b7, l = [b0; b1; b2; b3; b4; b5; b6; b7].
Proof.
  intros H. do 8 (destruct l as [|? l]; [discriminate|]).
  destruct l; [|discriminate]. eauto 10.
Qed.

(** X14: a year and a time field typed in the keypad menu read back.  With
    the index at 0, four digits recorded for the year leave the buffer
    holding these four digits and the NUL, and the index at 0 again, so
    that [atoi] reads the number typed; a fifth digit starts anew.  Two
    digits recorded for a time field do the same for a number below 100. *)
Theorem menu_entry_reads_back (p : pad) (d1 d2 d3 d4 : Z) :
  length (timeBuffer p) = 8%nat ->
  0 <= d1 <= 9 -> 0 <= d2 <= 9 -> 0 <= d3 <= 9 -> 0 <= d4 <= 9 ->
  (yearIndex p = 0 ->
   exists p',
     menu_run [YearKey (48 + d1); YearKey (48 + d2); YearKey (48 + d3);
               YearKey (48 + d4)] p = Ok p' /\
     take 5 (timeBuffer p') = [48 + d1; 48 + d2; 48 + d3; 48 + d4; 0] /\
     yearIndex p' = 0 /\
     atoi (timeBuffer p') = 1000 * d1 + 100 * d2 + 10 * d3 + d4 /\
     exists p'', recordSetYearKey (48 + d1) p' = Ok p'' /\
                 atoi (timeBuffer p'') = d1) /\
  (timeIndex p = 0 ->
   exists p',
     menu_run [TimeKey (48 + d1); TimeKey (48 + d2)] p = Ok p' /\
     take 3 (timeBuffer p') = [48 + d1; 48 + d2; 0] /\
     timeIndex p' = 0 /\
     atoi (timeBuffer p') = 10 * d1 + d2).
Proof.
  intros Hlen H1 H2 H3 H4.
  destruct p as [dv dk tb ti yi nm mn mt sy]. cbn [timeBuffer yearIndex timeIndex] in *.
  destruct (list_of_length_8 tb Hlen) as (b0 & b1 & b2 & b3 & b4 & b5 & b6 & b7 & ->).
  split; intros ->.
  - exists (mkPad dv dk [48 + d1; 48 + d2; 48 + d3; 48 + d4; 0; b5; b6; b7]
                  ti 0 nm mn mt sy).
    split; [reflexivity|]. cbn [timeBuffer yearIndex].
    split; [reflexivity|]. split; [reflexivity|]. split.
    + rewrite atoi_digit_first, !atoi_digits_digit, atoi_digits_nul by lia. lia.
    + exists (mkPad dv dk [48 + d1; 0; 48 + d3; 48 + d4; 0; b5; b6; b7]
                    ti 1 nm mn mt sy).
      split; [reflexivity|]. cbn [timeBuffer].
      rewrite atoi_digit_first, atoi_digits_nul by lia. reflexivity.
  - exists (mkPad dv dk [48 + d1; 48 + d2; 0; b3; b4; b5; b6; b7]
                  0 yi nm mn mt sy).
    split; [reflexivity|]. cbn [timeBuffer timeIndex].
    split; [reflexivity|]. split; [reflexivity|].
    rewrite atoi_digit_first, !atoi_digits_digit, atoi_digits_nul by lia. lia.
Qed.

Lemma menu_entry_reads_back_witness :
  exists p',
    menu_run [YearKey 49; YearKey 57; YearKey 56; YearKey 53] pad0 = Ok p' /\
    atoi (timeBuffer p') = 1985.
Proof.
  destruct (menu_entry_reads_back pad0 1 9 8 5) as [Hyear _];
    try reflexivity; try lia.
  destruct (Hyear eq_refl) as (p' & Hrun & _ & _ & Hatoi & _).
  exists p'. split; [exact Hrun|exact Hatoi].
Defined.

(** *** The key events *)

Ltac pad_simpl :=
  cbn [pcall pplay set_dev set_doKey set_nightMode dev doKey timeBuffer
       timeIndex yearIndex nightMode manualNightMode manualNMNow syncTrigger
       call play_file set_tc set_kp kp disp al rem cdn bp tc fst snd
       toggleNightMode nightModeOn nightModeOff leds_on leds_off].

(** Holding a key leaves the digits typed alone, and a digit held is not
    to be recorded when it is released. *)
Lemma keypadEvent_hold_buffer e key p :
  kp (dev (keypadEvent_hold e key p)) = kp (dev p) /\
  (48 <= key <= 57 -> doKey (keypadEvent_hold e key p) = false) /\
  timeTravelP1 (tr (tc (dev (keypadEvent_hold e key p))))
  = timeTravelP1 (tr (tc (dev p))).
Proof.
  unfold keypadEvent_hold.
  destruct (Z.eqb_spec key 48); [pad_simpl; auto|].
  destruct (Z.eqb_spec key 57).
  { pad_simpl. split; [reflexivity|]. split; [reflexivity|].
    apply (TimeLoopFacts.resetPresentTime_frame (te (ke e)) (tc (dev p))). }
  destruct (Z.eqb_spec key 49).
  { destruct (toggleAlarm e =? -1); [pad_simpl; auto|].
    destruct (toggleAlarm e =? 0); [pad_simpl; auto|].
    destruct (toggleAlarm e =? 1); pad_simpl; auto. }
  destruct (Z.eqb_spec key 52).
  { unfold toggleNightMode, nightModeOn, nightModeOff, leds_on, leds_off.
    cbn [nightMode set_doKey set_nightMode].
    destruct (nightMode p); destruct (FPBUnitIsOn (te (ke e)));
      cbn [negb andb]; pad_simpl; auto. }
  destruct (Z.eqb_spec key 51); [pad_simpl; auto|].
  destruct (Z.eqb_spec key 54); [pad_simpl; auto|].
  destruct (Z.eqb_spec key 55).
  { destruct (wifiOnWillBlock e); destruct (haveMusic (ke e));
      destruct (mp_stop e); pad_simpl; auto. }
  destruct (Z.eqb_spec key 50).
  { destruct (haveMusic (ke e)); pad_simpl; auto. }
  destruct (Z.eqb_spec key 53).
  { destruct (haveMusic (ke e)); [destruct (mpActive (ke e))|]; pad_simpl; auto. }
  destruct (Z.eqb_spec key 56).
  { destruct (haveMusic (ke e)); pad_simpl; auto. }
  split; [reflexivity|]. split; [lia|reflexivity].
Qed.

Lemma keys_blocked_same e p p' :
  timeTravelP1 (tr (tc (dev p'))) = timeTravelP1 (tr (tc (dev p))) ->
  keys_blocked e p' = keys_blocked e p.
Proof. intros H. unfold keys_blocked. rewrite H. reflexivity. Qed.

Lemma keypadEvent_blocked e key ks p :
  keys_blocked e p = true -> keypadEvent e key ks p = Ok p.
Proof.
  intros H. unfold keypadEvent. unfold keys_blocked in H. rewrite H. reflexivity.
Qed.

Lemma keypadEvent_pressed e key p :
  keys_blocked e p = false ->
  keypadEvent e key TCKS_PRESSED p
  = Ok (if negb (key =? 35) && negb (key =? 42)
        then set_doKey true (pcall "play_keypad_sound" (pcall "pwrNeedFullNow" p))
        else pcall "pwrNeedFullNow" p).
Proof.
  intros H. unfold keypadEvent. unfold keys_blocked in H. rewrite H.
  cbv zeta. destruct (negb (key =? 35) && negb (key =? 42)); reflexivity.
Qed.

Lemma keypadEvent_held e key p :
  keys_blocked e p = false -> keypadInMenu e = false ->
  keypadEvent e key TCKS_HOLD p
  = Ok (keypadEvent_hold e key (pcall "pwrNeedFullNow" p)).
Proof.
  intros H Hm. unfold keypadEvent. unfold keys_blocked in H. rewrite H, Hm.
  reflexivity.
Qed.

Lemma keypadEvent_released e key p :
  keys_blocked e p = false -> keypadInMenu e = false ->
  keypadEvent e key TCKS_RELEASED p
  = if doKey p then
      k <- recordKey (millis (te (ke e))) key (kp (dev p)) ;;
      Ok (set_dev (set_kp k (dev (pcall "pwrNeedFullNow" p)))
                  (pcall "pwrNeedFullNow" p))
    else Ok (pcall "pwrNeedFullNow" p).
Proof.
  intros H Hm. unfold keypadEvent. unfold keys_blocked in H. rewrite H, Hm.
  reflexivity.
Qed.

(** A key released with [doKey] cleared records nothing, whatever the
    state of the device and of the menu. *)
Lemma keypadEvent_released_idle e key p :
  doKey p = false ->
  exists p', keypadEvent e key TCKS_RELEASED p = Ok p' /\
             kp (dev p') = kp (dev p) /\ doKey p' = false.
Proof.
  intros Hd. unfold keypadEvent.
  match goal with |- context [if ?c then Ok p else _] => destruct c end.
  - exists p. auto.
  - cbv zeta. pad_simpl. rewrite Hd. eexists. split; [reflexivity|].
    pad_simpl. auto.
Qed.

(** X15: tapping and holding a key.  While the keys are live and the menu
    is closed, a digit pressed and released is appended to the digits typed
    by [recordKey]; a digit that is held in between is not: the action of
    the key is taken and the release records nothing.  Pressing [#] or [*]
    does not arm the recording, so that the release of such a key records
    it exactly if a key tapped before had left it armed. *)
Theorem key_tap_and_hold (e1 e2 e3 : evenv) (key : Z) (p : pad) :
  buffer_ok (kp (dev p)) ->
  keys_blocked e1 p = false ->
  (48 <= key <= 57 -> keys_blocked e3 p = false -> keypadInMenu e3 = false ->
   exists p1 p' k',
     keypadEvent e1 key TCKS_PRESSED p = Ok p1 /\
     keypadEvent e3 key TCKS_RELEASED p1 = Ok p' /\
     recordKey (millis (te (ke e3))) key (kp (dev p)) = Ok k' /\
     kp (dev p') = k') /\
  (48 <= key <= 57 -> keys_blocked e2 p = false -> keypadInMenu e2 = false ->
   exists p1 p2 p',
     keypadEvent e1 key TCKS_PRESSED p = Ok p1 /\
     keypadEvent e2 key TCKS_HOLD p1 = Ok p2 /\
     keypadEvent e3 key TCKS_RELEASED p2 = Ok p' /\
     kp (dev p') = kp (dev p) /\ doKey p' = false) /\
  (key = 35 \/ key = 42 ->
   keys_blocked e3 p = false -> keypadInMenu e3 = false ->
   exists p1 p',
     keypadEvent e1 key TCKS_PRESSED p = Ok p1 /\
     keypadEvent e3 key TCKS_RELEASED p1 = Ok p' /\
     (doKey p = false -> kp (dev p') = kp (dev p)) /\
     (doKey p = true ->
      exists k', recordKey (millis (te (ke e3))) key (kp (dev p)) = Ok k' /\
                 kp (dev p') = k')).
Proof.
  intros Hbuf Hlive1.
  destruct (recordKey_ok (millis (te (ke e3))) key (kp (dev p)) Hbuf)
    as (k' & Hrec & _).
  split; [|split].
  - intros Hkey Hlive3 Hmenu3.
    set (p1 := set_doKey true
                 (pcall "play_keypad_sound" (pcall "pwrNeedFullNow" p))).
    assert (Hlive3' : keys_blocked e3 p1 = false)
      by (rewrite <- Hlive3; apply keys_blocked_same; reflexivity).
    exists p1. eexists. exists k'. split.
    { rewrite keypadEvent_pressed by exact Hlive1.
      replace (negb (key =? 35) && negb (key =? 42)) with true by lia.
      reflexivity. }
    rewrite keypadEvent_released by assumption.
    subst p1. pad_simpl. rewrite Hrec. cbn [bind]. split; [reflexivity|].
    split; [reflexivity|]. reflexivity.
  - intros Hkey Hlive2 Hmenu2.
    set (p1 := set_doKey true
                 (pcall "play_keypad_sound" (pcall "pwrNeedFullNow" p))).
    assert (Hlive2' : keys_blocked e2 p1 = false)
      by (rewrite <- Hlive2; apply keys_blocked_same; reflexivity).
    destruct (keypadEvent_hold_buffer e2 key (pcall "pwrNeedFullNow" p1))
      as (Hkp & Hdo & _).
    specialize (Hdo Hkey).
    destruct (keypadEvent_released_idle e3 key _ Hdo) as (p' & Hrel & Hkp' & Hdo').
    exists p1, (keypadEvent_hold e2 key (pcall "pwrNeedFullNow" p1)), p'.
    split.
    { rewrite keypadEvent_pressed by exact Hlive1.
      replace (negb (key =? 35) && negb (key =? 42)) with true by lia.
      reflexivity. }
    split; [apply keypadEvent_held; assumption|].
    split; [exact Hrel|]. split; [|exact Hdo'].
    rewrite Hkp', Hkp. reflexivity.
  - intros Hkey Hlive3 Hmenu3.
    set (p1 := pcall "pwrNeedFullNow" p).
    assert (Hlive3' : keys_blocked e3 p1 = false)
      by (rewrite <- Hlive3; apply keys_blocked_same; reflexivity).
    assert (Hpress : keypadEvent e1 key TCKS_PRESSED p = Ok p1).
    { rewrite keypadEvent_pressed by exact Hlive1.
      replace (negb (key =? 35) && negb (key =? 42)) with false by lia.
      reflexivity. }
    exists p1. rewrite (keypadEvent_released e3 key p1) by assumption.
    subst p1. pad_simpl. destruct (doKey p).
    + rewrite Hrec. cbn [bind]. eexists. split; [exact Hpress|].
      split; [reflexivity|].
      split; [discriminate|]. intros _. exists k'. auto.
    + eexists. split; [exact Hpress|]. split; [reflexivity|].
      split; [reflexivity|discriminate].
Qed.

Lemma key_tap_and_hold_witness :
  exists p1 p2 p',
    keypadEvent evenv0 57 TCKS_PRESSED pad0 = Ok p1 /\
    keypadEvent evenv0 57 TCKS_HOLD p1 = Ok p2 /\
    keypadEvent evenv0 57 TCKS_RELEASED p2 = Ok p' /\
    kp (dev p') = kp (dev pad0) /\ doKey p' = false.
Proof.
  destruct (key_tap_and_hold evenv0 evenv0 evenv0 57 pad0 device0_buffer_ok
              eq_refl) as (_ & Hhold & _).
  apply Hhold; [lia|reflexivity|reflexivity].
Defined.

(** *** The displays after an entry *)

Lemma quiet_refl d : quiet d d.
Proof. unfold quiet, show_frame. repeat split. Qed.

Lemma quiet_trans d1 d2 d3 : quiet d1 d2 -> quiet d2 d3 -> quiet d1 d3.
Proof.
  unfold quiet, show_frame. intros H12 H23.
  destruct H12 as (A1 & A2 & A3 & A4 & A5 & A6 & A7 & A8 & A9 & A10 & A11
                   & A12 & A13 & A14 & A15).
  destruct H23 as (B1 & B2 & B3 & B4 & B5 & B6 & B7 & B8 & B9 & B10 & B11
                   & B12 & B13 & B14 & B15).
  repeat split; congruence.
Qed.

Lemma quiet_call name d : quiet d (call name d).
Proof. unfold quiet, show_frame. repeat split. Qed.

Lemma quiet_play name d : quiet d (play_file name d).
Proof. unfold quiet, show_frame. repeat split. Qed.

Lemma show_animate_quiet e n d : quiet d (show_animate e n d).
Proof.
  unfold show_animate.
  destruct (TC_HAVETEMP e && isRcMode e).
  - destruct (negb (isWcMode e) || negb (WcHaveTZ1 e));
      (match goal with
       | |- context [needDepTime (kp ?x)] =>
           change (needDepTime (kp x)) with (needDepTime (kp d))
       end);
      destruct (needDepTime (kp d));
      try destruct (isWcMode e && WcHaveTZ1 e);
      try destruct (negb (isWcMode e) && haveHum e);
      repeat first [apply quiet_refl
                   | eapply quiet_trans; [|apply quiet_call]].
  - match goal with
    | |- context [needDepTime (kp ?x)] =>
        change (needDepTime (kp x)) with (needDepTime (kp d))
    end.
    destruct (needDepTime (kp d));
      repeat first [apply quiet_refl
                   | eapply quiet_trans; [|apply quiet_call]].
Qed.

(** The end of the block: the animation, then the flags cleared. *)
Lemma show_finish e d0 :
  let d1 := show_end e d0 in
  enterWasPressed (kp d1) = false /\ needDepTime (kp d1) = false /\
  specDisp (disp d1) = specDisp (disp d0) /\
  destShowAlt (disp d1) = 0 /\ depShowAlt (disp d1) = 0 /\
  show_frame d0 d1.
Proof.
  cbv zeta. unfold show_end. cbv zeta.
  set (d2 := show_animate e "2" (call "mydelay" (show_animate e "1" d0))).
  assert (Hq : quiet d0 d2).
  { subst d2. eapply quiet_trans; [|apply show_animate_quiet].
    eapply quiet_trans; [|apply quiet_call]. apply show_animate_quiet. }
  destruct Hq as (Hkp & Hdisp & Hal & Hrem & Hcdn & Hbp & Hbuf & Hidx & Hlast
                  & Hp & Hdst & Hdep & Htr & Hai & Hrtc).
  unfold clear_entered, reset_ShowAlt, call, set_disp, set_tc, set_kp, emit.
  cbn [kp disp al rem cdn bp tc enterWasPressed needDepTime specDisp
       destShowAlt depShowAlt dateBuffer dateIndex lastKeyPressed].
  rewrite Hdisp. split; [reflexivity|]. split; [reflexivity|].
  split; [reflexivity|]. split; [reflexivity|]. split; [reflexivity|].
  unfold show_frame.
  cbn [kp disp al rem cdn bp tc dateBuffer dateIndex lastKeyPressed
       presentTime destinationTime departedTime tr ai rtc].
  repeat split; assumption.
Qed.

(** A pass of the block made after the delay. *)
Lemma show_pass e d :
  enterWasPressed (kp d) = true ->
  wrap32 (millis (te e) - timeNow (kp d)) > enterDelay (kp d) ->
  specDisp_ok (specDisp (disp d)) = true ->
  let sd := specDisp (disp d) in
  let d1 := keypad_loop_show e d in
  show_frame d d1 /\
  (if (sd =? 0) || (sd =? 4) || (sd =? 11) then
     enterWasPressed (kp d1) = false /\ needDepTime (kp d1) = false /\
     specDisp (disp d1) = 0 /\ destShowAlt (disp d1) = 0 /\
     depShowAlt (disp d1) = 0
   else enterWasPressed (kp d1) = true /\ specDisp (disp d1) = sd + 1).
Proof.
  intros Hpressed Hover Hok. cbv zeta. unfold keypad_loop_show. cbv zeta.
  rewrite Hpressed.
  replace (wrap32 (millis (te e) - timeNow (kp d)) >? enterDelay (kp d))
    with true by lia.
  cbn [andb].
  assert (Hsd : specDisp (disp d) = 0 \/ specDisp (disp d) = 1 \/
                specDisp (disp d) = 2 \/ specDisp (disp d) = 3 \/
                specDisp (disp d) = 4 \/ specDisp (disp d) = 10 \/
                specDisp (disp d) = 11)
    by (unfold specDisp_ok in Hok; lia).
  destruct Hsd as [Hsd|[Hsd|[Hsd|[Hsd|[Hsd|[Hsd|Hsd]]]]]]; rewrite Hsd;
    change (1 + 1) with 2; change (2 + 1) with 3; change (3 + 1) with 4;
    change (10 + 1) with 11; cbn [Z.eqb Pos.eqb orb].
  - (* at rest: the animation *)
    rewrite Hsd. cbn [Z.eqb].
    destruct (show_finish e d) as (H1 & H2 & H3 & H4 & H5 & H6).
    rewrite Hsd in H3. split; [exact H6|]. repeat split; assumption.
  - (* 1 -> 2 *)
    unfold set_specDisp, set_disp.
    cbn [disp specDisp Z.eqb Pos.eqb kp].
    rewrite Hpressed. split; [|split; reflexivity]. unfold show_frame. repeat split.
  - (* 2 -> 3 *)
    unfold set_specDisp, set_disp, set_entered, set_kp, call, set_tc.
    cbn [disp specDisp Z.eqb Pos.eqb kp enterWasPressed].
    split; [|split; reflexivity]. unfold show_frame. repeat split.
  - (* 3 -> 4 *)
    unfold set_specDisp, set_disp, set_entered, set_kp, call, play_file, set_tc.
    cbn [disp specDisp Z.eqb Pos.eqb kp enterWasPressed].
    split; [|split; reflexivity]. unfold show_frame. repeat split.
  - (* 4 -> 0 *)
    change (specDisp (disp (set_specDisp 0 d)) =? 0) with true. cbv iota.
    destruct (show_finish e (set_specDisp 0 d)) as (H1 & H2 & H3 & H4 & H5 & H6).
    split; [exact H6|]. repeat split; assumption.
  - (* 10 -> 11 *)
    unfold set_specDisp, set_disp, set_entered, set_kp, call, set_tc.
    cbn [disp specDisp Z.eqb Pos.eqb kp enterWasPressed].
    split; [|split; reflexivity]. unfold show_frame. repeat split.
  - (* 11 -> 0 *)
    change (specDisp (disp (set_specDisp 0 d)) =? 0) with true. cbv iota.
    destruct (show_finish e (set_specDisp 0 d)) as (H1 & H2 & H3 & H4 & H5 & H6).
    split; [exact H6|]. repeat split; assumption.
Qed.

Lemma show_frame_trans d1 d2 d3 :
  show_frame d1 d2 -> show_frame d2 d3 -> show_frame d1 d3.
Proof.
  unfold show_frame. intros H12 H23.
  destruct H12 as (A3 & A4 & A5 & A6 & A7 & A8 & A9 & A10 & A11 & A12 & A13
                   & A14 & A15).
  destruct H23 as (B3 & B4 & B5 & B6 & B7 & B8 & B9 & B10 & B11 & B12 & B13
                   & B14 & B15).
  repeat split; congruence.
Qed.

Lemma show_idle e d :
  enterWasPressed (kp d) = false -> keypad_loop_show e d = d.
Proof. intros H. unfold keypad_loop_show. rewrite H. reflexivity. Qed.

Lemma show_waits e d :
  wrap32 (millis (te e) - timeNow (kp d)) <= enterDelay (kp d) ->
  keypad_loop_show e d = d.
Proof.
  intros H. unfold keypad_loop_show. cbv zeta.
  replace (wrap32 (millis (te e) - timeNow (kp d)) >? enterDelay (kp d))
    with false by lia.
  rewrite andb_false_r. reflexivity.
Qed.

Lemma show_rank_run (n : nat) : forall d d',
  enterWasPressed (kp d) = true ->
  specDisp_ok (specDisp (disp d)) = true ->
  show_rank (specDisp (disp d)) = n ->
  shown n d d' ->
  enterWasPressed (kp d') = false /\ needDepTime (kp d') = false /\
  specDisp (disp d') = 0 /\ destShowAlt (disp d') = 0 /\
  depShowAlt (disp d') = 0 /\ show_frame d d'.
Proof.
  induction n as [|n IH]; intros d d' Hpressed Hok Hrank Hshown.
  - exfalso. unfold show_rank in Hrank.
    repeat match type of Hrank with
           | context [if ?c then _ else _] => destruct c
           end; discriminate.
  - inversion Hshown as [|n' e d0 d0' Hover Hrest]; subst.
    pose proof (show_pass e d Hpressed Hover Hok) as Hpass. cbv zeta in Hpass.
    destruct Hpass as [Hframe Hcase].
    assert (Hsd : specDisp (disp d) = 0 \/ specDisp (disp d) = 1 \/
                  specDisp (disp d) = 2 \/ specDisp (disp d) = 3 \/
                  specDisp (disp d) = 4 \/ specDisp (disp d) = 10 \/
                  specDisp (disp d) = 11)
      by (unfold specDisp_ok in Hok; lia).
    destruct Hsd as [Hsd|[Hsd|[Hsd|[Hsd|[Hsd|[Hsd|Hsd]]]]]];
      rewrite Hsd in Hcase, Hrank; cbn in Hcase, Hrank;
      injection Hrank as <-.
    all: try (inversion Hrest; subst;
              destruct Hcase as (C1 & C2 & C3 & C4 & C5);
              exact (conj C1 (conj C2 (conj C3 (conj C4 (conj C5 Hframe)))))).
    all: destruct Hcase as [C1 C2];
      destruct (IH (keypad_loop_show e d) d' C1) as (R1 & R2 & R3 & R4 & R5 & R6);
      [rewrite C2; reflexivity|rewrite C2; reflexivity|exact Hrest|];
      exact (conj R1 (conj R2 (conj R3 (conj R4 (conj R5
               (show_frame_trans _ _ _ Hframe R6)))))).
Qed.

(** X16: the displays come back after an entry.  With [specDisp] one of
    the values the entry logic gives it, the passes of the loop made after
    the delay that was set take the display block to its end in four steps
    at most ([show_rank]): the flag [enterWasPressed] is cleared,
    [specDisp] is 0 again, and the alarm, the reminder, the countdown, the
    digits typed and the three clocks are as they were.  A pass before the
    delay is over changes nothing, and none does after the end. *)
Theorem show_sequence_ends (d d' : device) :
  enterWasPressed (kp d) = true ->
  specDisp_ok (specDisp (disp d)) = true ->
  shown (show_rank (specDisp (disp d))) d d' ->
  enterWasPressed (kp d') = false /\ needDepTime (kp d') = false /\
  specDisp (disp d') = 0 /\ destShowAlt (disp d') = 0 /\
  depShowAlt (disp d') = 0 /\ show_frame d d' /\
  (forall e, keypad_loop_show e d' = d') /\
  (forall e, wrap32 (millis (te e) - timeNow (kp d)) <= enterDelay (kp d) ->
             keypad_loop_show e d = d).
Proof.
  intros Hpressed Hok Hshown.
  destruct (show_rank_run _ d d' Hpressed Hok eq_refl Hshown)
    as (R1 & R2 & R3 & R4 & R5 & R6).
  do 6 (split; [assumption|]). split.
  - intros e. apply show_idle, R1.
  - intros e. apply show_waits.
Qed.

Lemma show_sequence_ends_witness :
  let d := set_specDisp 10 (set_entered true 1000 600 device0) in
  let e1 := mkKenv (mkEnv 5 1400 true true 2000) false false false false false
                   false false false false false false (fun _ => 0)
                   (fun c => c) (fun c => c) (fun c => c) (fun c => c) 30 60 in
  let e2 := mkKenv (mkEnv 5 1400 true true 6000) false false false false false
                   false false false false false false (fun _ => 0)
                   (fun c => c) (fun c => c) (fun c => c) (fun c => c) 30 60 in
  enterWasPressed (kp (keypad_loop_show e2 (keypad_loop_show e1 d))) = false /\
  specDisp (disp (keypad_loop_show e2 (keypad_loop_show e1 d))) = 0.
Proof.
  intros d e1 e2.
  destruct (show_sequence_ends d (keypad_loop_show e2 (keypad_loop_show e1 d)))
    as (H1 & _ & H3 & _).
  - reflexivity.
  - reflexivity.
  - apply (shown_S 1 e1); [vm_compute; reflexivity|].
    apply (shown_S 0 e2); [vm_compute; reflexivity|]. apply shown_O.
  - split; [exact H1|exact H3].
Defined.

(** *** Entries that are no dates *)

Lemma keypad_loop_enter_start e d :
  keypad_loop_enter e d
  = (strLen <- strlen (dateBuffer (kp d)) ;;
     b <- enter_dispatch e strLen (enter_start e d) ;;
     match b with
     | Restart d => Ok (Restarted d)
     | Continue d validEntry invalidEntry enterInterruptsMusic =>
         let d :=
           if validEntry then
             set_enterDelay ENTER_DELAY (play_file "/enter.mp3" d)
           else if invalidEntry then
             let d := set_enterDelay BADDATE_DELAY
                        (play_file "/baddate.mp3" d) in
             if negb enterInterruptsMusic && mpActive e
             then set_specDisp 10 (call "destinationTime.showTextDirect" d)
             else d
           else d in
         let k := kp d in
         buf <- store (dateBuffer k) 0 0 ;;
         let d := set_kp (mkKeypad buf 0 (lastKeyPressed k)
                                   (isEnterKeyPressed k) (enterWasPressed k)
                                   (needDepTime k) (timeNow k) (enterDelay k))
                         d in
         Ok (Returned d validEntry invalidEntry)
     end).
Proof. reflexivity. Qed.

(** What the end of the entry logic keeps of the device a branch leaves. *)
Lemma keypad_loop_enter_branch e d strLen d1 v i m :
  length (dateBuffer (kp d)) = 14%nat ->
  strlen (dateBuffer (kp d)) = Ok strLen ->
  enter_dispatch e strLen (enter_start e d) = Ok (Continue d1 v i m) ->
  dateBuffer (kp d1) = dateBuffer (kp d) ->
  exists d',
    keypad_loop_enter e d = Ok (Returned d' v i) /\
    al d' = al d1 /\ rem d' = rem d1 /\ cdn d' = cdn d1 /\ bp d' = bp d1 /\
    presentTime (tc d') = presentTime (tc d1) /\
    destinationTime (tc d') = destinationTime (tc d1) /\
    departedTime (tc d') = departedTime (tc d1) /\
    tr (tc d') = tr (tc d1) /\ ai (tc d') = ai (tc d1) /\
    dateIndex (kp d') = 0 /\ strlen (dateBuffer (kp d')) = Ok 0 /\
    enterWasPressed (kp d') = enterWasPressed (kp d1) /\
    rtc (tc d') = rtc (tc d1).
Proof.
  intros Hlen Hn Hb Hbuf. rewrite keypad_loop_enter_start.
  rewrite Hn. cbn [bind]. rewrite Hb. cbn [bind]. cbv zeta.
  set (d2 := if v then _ else _).
  assert (Hd2 : dateBuffer (kp d2) = dateBuffer (kp d1) /\
                al d2 = al d1 /\ rem d2 = rem d1 /\ cdn d2 = cdn d1 /\
                bp d2 = bp d1 /\
                presentTime (tc d2) = presentTime (tc d1) /\
                destinationTime (tc d2) = destinationTime (tc d1) /\
                departedTime (tc d2) = departedTime (tc d1) /\
                tr (tc d2) = tr (tc d1) /\ ai (tc d2) = ai (tc d1) /\
                enterWasPressed (kp d2) = enterWasPressed (kp d1) /\
                rtc (tc d2) = rtc (tc d1)).
  { subst d2. destruct v; [|destruct i; [destruct (negb m && mpActive e)|]];
      cbn; repeat split; reflexivity. }
  destruct Hd2 as (B & A1 & A2 & A3 & A4 & A5 & A6 & A7 & A8 & A9 & A10 & A11).
  rewrite store_Ok by (rewrite B, Hbuf, Hlen; lia).
  cbn [bind]. eexists. split; [reflexivity|].
  cbn [al rem cdn bp tc kp set_kp dateIndex dateBuffer enterWasPressed].
  do 9 (split; [assumption|]). split; [reflexivity|].
  split; [|split; assumption].
  apply strlen_cleared. rewrite B, Hbuf, Hlen. lia.
Qed.

Lemma wrap8_id x : 0 <= x < 256 -> wrap8 x = x.
Proof. intros H. unfold wrap8. apply Z.mod_small. lia. Qed.

(** Two digits read as the number they write. *)
Lemma read2digs_digits buf idx a b :
  0 <= idx -> 0 <= a <= 9 -> 0 <= b <= 9 ->
  buf !! Z.to_nat idx = Some (48 + a) ->
  buf !! Z.to_nat (idx + 1) = Some (48 + b) ->
  read2digs buf idx = Ok (10 * a + b).
Proof.
  intros Hi Ha Hb H0 H1. rewrite (read2digs_at buf idx _ _ Hi H0 H1).
  rewrite wrap8_id by lia. f_equal. lia.
Qed.

Lemma enter_start_frame e d :
  dateBuffer (kp (enter_start e d)) = dateBuffer (kp d) /\
  al (enter_start e d) = al d /\ rem (enter_start e d) = rem d /\
  cdn (enter_start e d) = cdn d /\ bp (enter_start e d) = bp d /\
  presentTime (tc (enter_start e d)) = presentTime (tc d) /\
  destinationTime (tc (enter_start e d)) = destinationTime (tc d) /\
  departedTime (tc (enter_start e d)) = departedTime (tc d) /\
  tr (tc (enter_start e d)) = tr (tc d) /\
  ai (tc (enter_start e d)) = ai (tc d).
Proof. repeat split. Qed.

(** X17: the alarm set from the keypad.  The entry [11HHMM] sets the alarm
    to HH:MM and switches it on when HH is 23 at most and MM 59 at most,
    and is confirmed; otherwise it is found invalid and the alarm stays as
    it was.  Either way the three clocks, the offset of the present time,
    the reminder and the countdown are untouched, and the digits typed are
    cleared. *)
Theorem alarm_entry (e : kenv) (d : device) (h1 h2 m1 m2 : Z) (rest : list Z) :
  dateBuffer (kp d)
  = [49; 49; 48 + h1; 48 + h2; 48 + m1; 48 + m2] ++ 0 :: rest ->
  length rest = 7%nat ->
  0 <= h1 <= 9 -> 0 <= h2 <= 9 -> 0 <= m1 <= 9 -> 0 <= m2 <= 9 ->
  let hh := 10 * h1 + h2 in
  let mm := 10 * m1 + m2 in
  let ok := (hh <=? 23) && (mm <=? 59) in
  exists d',
    keypad_loop_enter e d = Ok (Returned d' ok (negb ok)) /\
    al d' = (if ok then mkAlarm hh mm true else al d) /\
    rem d' = rem d /\ cdn d' = cdn d /\
    presentTime (tc d') = presentTime (tc d) /\
    destinationTime (tc d') = destinationTime (tc d) /\
    departedTime (tc d') = departedTime (tc d) /\
    tr (tc d') = tr (tc d) /\ ai (tc d') = ai (tc d) /\
    dateIndex (kp d') = 0 /\ strlen (dateBuffer (kp d')) = Ok 0.
Proof.
  intros Hbuf Hrest H1 H2 H3 H4 hh mm ok.
  assert (Hlen : length (dateBuffer (kp d)) = 14%nat)
    by (rewrite Hbuf, length_app; cbn [length]; lia).
  assert (Hn : strlen (dateBuffer (kp d)) = Ok 6).
  { rewrite Hbuf. rewrite strlen_prefix; [reflexivity|].
    repeat constructor; lia. }
  set (d0 := enter_start e d).
  assert (Hbuf0 : dateBuffer (kp d0) = dateBuffer (kp d)) by reflexivity.
  assert (Hcode : read2digs (dateBuffer (kp d0)) 0 = Ok 11).
  { rewrite Hbuf0, Hbuf.
    apply (read2digs_digits _ 0 1 1); try lia; reflexivity. }
  assert (Hh : read2digs (dateBuffer (kp d0)) 2 = Ok hh).
  { rewrite Hbuf0, Hbuf.
    apply (read2digs_digits _ 2 h1 h2); try lia; reflexivity. }
  assert (Hm : read2digs (dateBuffer (kp d0)) 4 = Ok mm).
  { rewrite Hbuf0, Hbuf.
    apply (read2digs_digits _ 4 m1 m2); try lia; reflexivity. }
  assert (Hb : exists d1,
             enter_dispatch e 6 d0 = Ok (Continue d1 ok (negb ok) false) /\
             dateBuffer (kp d1) = dateBuffer (kp d) /\
             al d1 = (if ok then mkAlarm hh mm true else al d) /\
             rem d1 = rem d /\ cdn d1 = cdn d /\
             presentTime (tc d1) = presentTime (tc d) /\
             destinationTime (tc d1) = destinationTime (tc d) /\
             departedTime (tc d1) = departedTime (tc d) /\
             tr (tc d1) = tr (tc d) /\ ai (tc d1) = ai (tc d)).
  { change (enter_dispatch e 6 d0) with (enter_6digits e d0).
    unfold enter_6digits. cbv zeta. rewrite Hcode. cbn [bind Z.eqb Pos.eqb].
    rewrite Hh, Hm. cbn [bind]. fold ok.
    destruct ok.
    - destruct (negb (alarmHour (al d0) =? hh) || negb (alarmMinute (al d0) =? mm)
                || negb (alarmOnOff (al d0))) eqn:Hchg.
      + eexists. split; [reflexivity|]. cbn. repeat split.
      + eexists. split; [reflexivity|]. cbn. repeat split.
        apply orb_false_elim in Hchg as [Hchg Hon].
        apply orb_false_elim in Hchg as [Hhh Hmm'].
        apply negb_false_iff in Hon, Hhh, Hmm'.
        apply Z.eqb_eq in Hhh, Hmm'. change (al d0) with (al d) in *.
        destruct (al d) as [ah am aon]. cbn in *. congruence.
    - eexists. split; [reflexivity|]. cbn. repeat split. }
  destruct Hb as (d1 & Hd1 & B & A1 & A2 & A3 & A4 & A5 & A6 & A7 & A8).
  destruct (keypad_loop_enter_branch e d 6 d1 ok (negb ok) false Hlen Hn Hd1 B)
    as (d' & Hrun & C1 & C2 & C3 & C4 & C5 & C6 & C7 & C8 & C9 & C10 & C11 & _).
  exists d'. split; [exact Hrun|].
  repeat split; congruence.
Qed.

Lemma alarm_entry_witness :
  exists d',
    keypad_loop_enter kenv0 device_119960 = Ok (Returned d' false true) /\
    al d' = al device_119960.
Proof.
  destruct (alarm_entry kenv0 device_119960 9 9 6 0 (replicate 7 0))
    as (d' & Hrun & Hal & _); try reflexivity; try lia.
  exists d'. split; [exact Hrun|exact Hal].
Defined.

(** X18: the countdown timer set from the keypad.  The entry [44MM] starts
    the timer with MM minutes ([ctDown] is their milliseconds, counted from
    now) and [4400] clears it; the entry is confirmed and is never taken
    for a time of day: the destination clock, like the other clocks, the
    alarm and the reminder, stays as it was. *)
Theorem countdown_entry (e : kenv) (d : device) (m1 m2 : Z) (rest : list Z) :
  dateBuffer (kp d) = [52; 52; 48 + m1; 48 + m2] ++ 0 :: rest ->
  length rest = 9%nat ->
  0 <= m1 <= 9 -> 0 <= m2 <= 9 ->
  let mins := 10 * m1 + m2 in
  exists d',
    keypad_loop_enter e d = Ok (Returned d' true false) /\
    cdn d' = (if mins =? 0 then mkCountdown 0 (ctDownNow (cdn d))
              else mkCountdown (mins * 60 * 1000) (millis (te e))) /\
    al d' = al d /\ rem d' = rem d /\
    presentTime (tc d') = presentTime (tc d) /\
    destinationTime (tc d') = destinationTime (tc d) /\
    departedTime (tc d') = departedTime (tc d) /\
    tr (tc d') = tr (tc d) /\ ai (tc d') = ai (tc d) /\
    dateIndex (kp d') = 0 /\ strlen (dateBuffer (kp d')) = Ok 0.
Proof.
  intros Hbuf Hrest H1 H2 mins.
  assert (Hlen : length (dateBuffer (kp d)) = 14%nat)
    by (rewrite Hbuf, length_app; cbn [length]; lia).
  assert (Hn : strlen (dateBuffer (kp d)) = Ok 4).
  { rewrite Hbuf. rewrite strlen_prefix; [reflexivity|].
    repeat constructor; lia. }
  set (d0 := enter_start e d).
  assert (Hbuf0 : dateBuffer (kp d0) = dateBuffer (kp d)) by reflexivity.
  assert (Hcode : read2digs (dateBuffer (kp d0)) 0 = Ok 44).
  { rewrite Hbuf0, Hbuf.
    apply (read2digs_digits _ 0 4 4); try lia; reflexivity. }
  assert (Hm : read2digs (dateBuffer (kp d0)) 2 = Ok mins).
  { rewrite Hbuf0, Hbuf.
    apply (read2digs_digits _ 2 m1 m2); try lia; reflexivity. }
  assert (Hb : exists d1,
             enter_dispatch e 4 d0 = Ok (Continue d1 true false false) /\
             dateBuffer (kp d1) = dateBuffer (kp d) /\
             cdn d1 = (if mins =? 0 then mkCountdown 0 (ctDownNow (cdn d))
                       else mkCountdown (mins * 60 * 1000) (millis (te e))) /\
             al d1 = al d /\ rem d1 = rem d /\
             presentTime (tc d1) = presentTime (tc d) /\
             destinationTime (tc d1) = destinationTime (tc d) /\
             departedTime (tc d1) = departedTime (tc d) /\
             tr (tc d1) = tr (tc d) /\ ai (tc d1) = ai (tc d)).
  { change (enter_dispatch e 4 d0)
      with (code <- read2digs (dateBuffer (kp d0)) 0 ;;
            if code =? 44 then enter_timer e d0 else enter_date e 4 d0).
    rewrite Hcode. cbn [bind Z.eqb Pos.eqb].
    unfold enter_timer. rewrite Hm. cbn [bind].
    destruct (mins =? 0); eexists; (split; [reflexivity|]); cbn; repeat split. }
  destruct Hb as (d1 & Hd1 & B & A1 & A2 & A3 & A4 & A5 & A6 & A7 & A8).
  destruct (keypad_loop_enter_branch e d 4 d1 true false false Hlen Hn Hd1 B)
    as (d' & Hrun & C1 & C2 & C3 & C4 & C5 & C6 & C7 & C8 & C9 & C10 & C11 & _).
  exists d'. split; [exact Hrun|].
  repeat split; congruence.
Qed.

Lemma countdown_entry_witness :
  exists d d',
    typed "4405" device0 = Ok d /\
    keypad_loop_enter kenv0 d = Ok (Returned d' true false) /\
    cdn d' = mkCountdown 300000 1000.
Proof.
  eexists. 
  destruct (countdown_entry kenv0
              (mkDevice (mkKeypad (chars "4405" ++ replicate 10 0) 4 0 false
                                  false false 0 0)
                        (mkDisplay 0 0 0) (mkAlarm 0 0 false)
                        (mkReminder 0 0 0 0) (mkCountdown 0 0)
                        (mkBeep false 0 false 0 0) tcd0)
              0 5 (replicate 9 0))
    as (d' & Hrun & Hcdn & _); try reflexivity; try lia.
  exists d'. split; [reflexivity|]. split; [exact Hrun|exact Hcdn].
Defined.

(** *** A date typed and travelled to *)

(** What the branch of the dates does to the time keeping: the fields
    parsed go to the destination clock and the rotation is paused; the
    present clock, the offset and the hardware clock are left alone. *)
Lemma enter_date_effect e d strLen :
  length (dateBuffer (kp d)) = 14%nat ->
  0 <= autoTime (ai (tc d)) <= 7 ->
  exists p d' v,
    parse_date e strLen (dateBuffer (kp d)) = Ok p /\
    enter_date e strLen d = Ok (Continue d' v false true) /\
    dateBuffer (kp d') = dateBuffer (kp d) /\
    destinationTime (tc d')
    = copy_to_destination p (destinationTime (tc d)) /\
    ai (tc d') = pauseAuto (te e) (ai (tc d)) /\
    tr (tc d') = tr (tc d) /\
    presentTime (tc d') = presentTime (tc d) /\
    rtc (tc d') = rtc (tc d) /\ al d' = al d.
Proof.
  intros Hlen Hauto. unfold enter_date.
  destruct (parse_date_total e strLen _ Hlen) as (p & Hp & _).
  rewrite Hp. cbn [bind]. exists p.
  destruct (preset_total departedTimes _ eq_refl Hauto) as [s Hs].
  set (sp := if special p =? 1 then _ else _).
  assert (Hsp : dateBuffer (kp (fst sp)) = dateBuffer (kp d) /\
                tc (fst sp) = tc d \/
                (exists ev, tc (fst sp) = emit ev (tc d)) /\
                dateBuffer (kp (fst sp)) = dateBuffer (kp d)).
  { subst sp. split_ifs; cbn; eauto. }
  assert (Hal : al (fst sp) = al d) by (subst sp; split_ifs; reflexivity).
  destruct sp as [d1 v1]. cbn [fst] in Hsp, Hal.
  assert (Hd1 : dateBuffer (kp d1) = dateBuffer (kp d) /\
                ai (tc d1) = ai (tc d) /\
                destinationTime (tc d1) = destinationTime (tc d) /\
                tr (tc d1) = tr (tc d) /\
                presentTime (tc d1) = presentTime (tc d) /\
                rtc (tc d1) = rtc (tc d)).
  { destruct Hsp as [[Hb Ht]|[[ev Ht] Hb]]; rewrite Ht; cbn; auto 10. }
  destruct Hd1 as (Hb1 & Ha1 & Hdest1 & Htr1 & Hp1 & Hrtc1).
  destruct (timetravelPersistent (te e));
    destruct (TC_HAVETEMP e && isRcMode e && (haveHum e || isWcMode e));
    destruct (isWcMode e && WcHaveTZ1 e); cbn [bind];
    try (destruct (WcHaveTZ2 e); cbn [bind];
         try (destruct ((interval (te e) =? 0) || _); cbn [bind]));
    cbn [set_destination set_tc set_destinationTime call emit tc ai autoTime
         set_needDepTime set_kp kp];
    rewrite ?Ha1, ?Hs; cbn [bind];
    eexists; eexists; (split; [reflexivity|]); (split; [reflexivity|]);
    cbn; rewrite ?Hb1, ?Ha1, ?Hdest1, ?Htr1, ?Hp1, ?Hrtc1, ?Hal;
    repeat split; reflexivity.
Qed.

(** Two digits typed for a number below 100. *)
Lemma two_digits_range n :
  0 <= n <= 99 -> 0 <= n / 10 <= 9 /\ 0 <= n mod 10 <= 9 /\
                  10 * (n / 10) + n mod 10 = n.
Proof.
  intros Hn. pose proof (Z.div_mod n 10 ltac:(lia)).
  pose proof (Z.mod_pos_bound n 10 ltac:(lia)).
  assert (0 <= n / 10) by (apply Z.div_pos; lia).
  assert (n / 10 < 10) by (apply Z.div_lt_upper_bound; lia).
  lia.
Qed.

(** The twelve digits of a date and time are parsed into its fields. *)
Lemma parse_date_typed e month day year hour minute dim rest :
  1 <= month <= 12 -> daysInMonth month year = Ok dim -> 1 <= day <= dim ->
  0 <= year <= 9999 -> 0 <= hour <= 99 -> 0 <= minute <= 99 ->
  exists sp,
    parse_date e DATELEN_ALL
      (two_digits month ++ two_digits day ++ four_digits year
       ++ two_digits hour ++ two_digits minute ++ 0 :: rest)
    = Ok (mkParsed month day year hour minute sp).
Proof.
  intros Hmo Hdim Hday Hy Hh Hmi.
  assert (Hdim' : 28 <= dim <= 31).
  { destruct (daysInMonth_total month year Hmo) as (x & Hx & Hr).
    rewrite Hdim in Hx. injection Hx as <-. exact Hr. }
  destruct (two_digits_range month ltac:(lia)) as (M1 & M2 & M3).
  destruct (two_digits_range day ltac:(lia)) as (D1 & D2 & D3).
  assert (Yh : 0 <= year / 100 <= 99).
  { split; [apply Z.div_pos; lia|].
    assert (year / 100 < 100) by (apply Z.div_lt_upper_bound; lia). lia. }
  assert (Yl : 0 <= year mod 100 <= 99)
    by (pose proof (Z.mod_pos_bound year 100 ltac:(lia)); lia).
  destruct (two_digits_range (year / 100) Yh) as (Y1 & Y2 & Y3).
  destruct (two_digits_range (year mod 100) Yl) as (Y4 & Y5 & Y6).
  destruct (two_digits_range hour Hh) as (H1 & H2 & H3).
  destruct (two_digits_range minute Hmi) as (N1 & N2 & N3).
  unfold parse_date, two_digits, four_digits, two_digits.
  cbn [app].
  rewrite (read2digs_digits _ 0 (month / 10) (month mod 10))
    by (try lia; reflexivity).
  rewrite (read2digs_digits _ 2 (day / 10) (day mod 10))
    by (try lia; reflexivity).
  rewrite (read2digs_digits _ 4 (year / 100 / 10) (year / 100 mod 10))
    by (try lia; reflexivity).
  rewrite (read2digs_digits _ 6 (year mod 100 / 10) (year mod 100 mod 10))
    by (try lia; reflexivity).
  rewrite (read2digs_digits _ 8 (hour / 10) (hour mod 10))
    by (try lia; reflexivity).
  rewrite (read2digs_digits _ 10 (minute / 10) (minute mod 10))
    by (try lia; reflexivity).
  cbn [bind DATELEN_DATE DATELEN_TIME DATELEN_ALL Z.eqb Pos.eqb fst snd].
  rewrite M3, D3, Y3, Y6, H3, N3.
  replace (year / 100 * 100 + year mod 100) with year
    by (pose proof (Z.div_mod year 100 ltac:(lia)); lia).
  replace (month <? 1) with false by lia.
  replace (month >? 12) with false by lia.
  replace (day <? 1) with false by lia.
  rewrite Hdim. cbn [bind].
  replace (day >? dim) with false by lia.
  eexists. reflexivity.
Qed.

Lemma digits_nonzero n : 0 <= n -> Forall (fun c => c <> 0) (two_digits n).
Proof.
  intros Hn. unfold two_digits.
  assert (0 <= n / 10) by (apply Z.div_pos; lia).
  pose proof (Z.mod_pos_bound n 10 ltac:(lia)).
  repeat constructor; lia.
Qed.

Lemma typed_date_strlen month day year hour minute rest :
  0 <= month -> 0 <= day -> 0 <= year -> 0 <= hour -> 0 <= minute ->
  strlen (two_digits month ++ two_digits day ++ four_digits year
          ++ two_digits hour ++ two_digits minute ++ 0 :: rest) = Ok 12.
Proof.
  intros Hmo Hd Hy Hh Hmi.
  assert (Yh : 0 <= year / 100) by (apply Z.div_pos; lia).
  assert (Yl : 0 <= year mod 100)
    by (pose proof (Z.mod_pos_bound year 100 ltac:(lia)); lia).
  replace (two_digits month ++ two_digits day ++ four_digits year
           ++ two_digits hour ++ two_digits minute ++ 0 :: rest)
    with ((two_digits month ++ two_digits day ++ four_digits year
           ++ two_digits hour ++ two_digits minute) ++ 0 :: rest)
    by (unfold four_digits; rewrite <- !app_assoc; reflexivity).
  rewrite strlen_prefix; [reflexivity|].
  unfold four_digits. repeat (apply Forall_app; split);
    apply digits_nonzero; assumption.
Qed.

(** The clock after the fields of a date and time have been copied in. *)
Lemma copy_to_destination_fields month day year hour minute sp dim c :
  1 <= month <= 12 -> daysInMonth month year = Ok dim -> 1 <= day <= dim ->
  0 <= year -> 0 <= hour -> 0 <= minute ->
  copy_to_destination (mkParsed month day year hour minute sp) c
  = mkClock year month day hour minute (cd_yearOffset c).
Proof.
  intros Hmo Hdim Hday Hy Hh Hmi. unfold copy_to_destination.
  cbn [_setYear _setMonth _setDay _setHour _setMin].
  replace (year >=? 0) with true by lia.
  replace (month >? 0) with true by lia.
  replace (day >? 0) with true by lia.
  replace (hour >=? 0) with true by lia.
  replace (minute >=? 0) with true by lia.
  unfold setMinute, setHour, setDay, setMonth, setYear.
  cbn [cd_year cd_month cd_day cd_hour cd_minute cd_yearOffset].
  rewrite (TimeFacts.clamp_id 1 12) by lia. rewrite Hdim.
  rewrite TimeFacts.clamp_id by lia. reflexivity.
Qed.

(** The commit of a date and time typed in full, in its two stages: the
    branch of the dates leaves [d1], and the end of the entry logic takes
    [d1] to [d']. *)
Lemma commit_typed_date (e : kenv) (d : device)
    (month day year hour minute dim : Z) (rest : list Z) :
  dateBuffer (kp d)
  = two_digits month ++ two_digits day ++ four_digits year
    ++ two_digits hour ++ two_digits minute ++ 0 :: rest ->
  length rest = 1%nat ->
  0 <= autoTime (ai (tc d)) <= 7 ->
  1 <= month <= 12 -> daysInMonth month year = Ok dim -> 1 <= day <= dim ->
  0 <= year <= 9999 -> 0 <= hour <= 99 -> 0 <= minute <= 99 ->
  exists d1 d' v,
    keypad_loop_enter e d = Ok (Returned d' v false) /\
    (destinationTime (tc d1)
     = mkClock year month day hour minute
               (cd_yearOffset (destinationTime (tc d))) /\
     ai (tc d1) = pauseAuto (te e) (ai (tc d)) /\
     tr (tc d1) = tr (tc d) /\
     presentTime (tc d1) = presentTime (tc d) /\
     rtc (tc d1) = rtc (tc d) /\
     al d1 = al d) /\
    (destinationTime (tc d') = destinationTime (tc d1) /\
     ai (tc d') = ai (tc d1) /\
     tr (tc d') = tr (tc d1) /\
     presentTime (tc d') = presentTime (tc d1) /\
     rtc (tc d') = rtc (tc d1) /\
     al d' = al d1) /\
    strlen (dateBuffer (kp d')) = Ok 0.
Proof.
  intros Hbuf Hrest Hauto Hmo Hdim Hday Hy Hh Hmi.
  assert (Hlen : length (dateBuffer (kp d)) = 14%nat).
  { rewrite Hbuf. unfold four_digits, two_digits. rewrite !length_app.
    cbn [length]. lia. }
  assert (Hn : strlen (dateBuffer (kp d)) = Ok 12)
    by (rewrite Hbuf; apply typed_date_strlen; lia).
  set (d0 := enter_start e d).
  destruct (enter_date_effect e d0 12 Hlen Hauto)
    as (p & d1 & v & Hp & Hd1 & B & Hdest & Hai & Htr & Hpres & Hrtc & Hal1).
  change (dateBuffer (kp d0)) with (dateBuffer (kp d)) in Hp, B.
  destruct (parse_date_typed e month day year hour minute dim rest Hmo Hdim
              Hday Hy Hh Hmi) as (sp & Hparse).
  rewrite Hbuf in Hp. change DATELEN_ALL with 12 in Hparse.
  rewrite Hparse in Hp. injection Hp as <-.
  rewrite (copy_to_destination_fields month day year hour minute sp dim)
    in Hdest by (try assumption; lia).
  assert (Hdisp : enter_dispatch e 12 d0 = Ok (Continue d1 v false true))
    by (rewrite <- Hd1; apply enter_dispatch_date; right; reflexivity).
  destruct (keypad_loop_enter_branch e d 12 d1 v false true Hlen Hn Hdisp B)
    as (d' & Hrun & C1 & C2 & C3 & C4 & C5 & C6 & C7 & C8 & C9 & C10 & C11 & C12
        & C13).
  exists d1, d', v. split; [exact Hrun|].
  split; [exact (conj Hdest (conj Hai (conj Htr (conj Hpres
                   (conj Hrtc Hal1)))))|].
  split; [exact (conj C6 (conj C9 (conj C8 (conj C5 (conj C13 C1)))))|].
  exact C11.
Qed.

(** X19: a date and time typed on the keypad.  For the twelve digits
    mmddyyyyHHMM of a month 1 to 12, a day within [daysInMonth], a year 0 to
    9999 and any two-digit hour and minute (these are not checked here, so up
    to 99), the commit is not found invalid and leaves the destination clock
    holding exactly these five numbers, with the year offset it had; the
    rotation of the presets is paused as by [pauseAuto], the digits typed
    are cleared, and the present clock, the offset of the present time, the
    hardware clock and the alarm are untouched. *)
Theorem date_time_entry (e : kenv) (d : device)
    (month day year hour minute dim : Z) (rest : list Z) :
  dateBuffer (kp d)
  = two_digits month ++ two_digits day ++ four_digits year
    ++ two_digits hour ++ two_digits minute ++ 0 :: rest ->
  length rest = 1%nat ->
  0 <= autoTime (ai (tc d)) <= 7 ->
  1 <= month <= 12 -> daysInMonth month year = Ok dim -> 1 <= day <= dim ->
  0 <= year <= 9999 -> 0 <= hour <= 99 -> 0 <= minute <= 99 ->
  exists d' v,
    keypad_loop_enter e d = Ok (Returned d' v false) /\
    destinationTime (tc d')
    = mkClock year month day hour minute
              (cd_yearOffset (destinationTime (tc d))) /\
    ai (tc d') = pauseAuto (te e) (ai (tc d)) /\
    tr (tc d') = tr (tc d) /\
    presentTime (tc d') = presentTime (tc d) /\
    rtc (tc d') = rtc (tc d) /\
    al d' = al d /\
    strlen (dateBuffer (kp d')) = Ok 0.
Proof.
  intros Hbuf Hrest Hauto Hmo Hdim Hday Hy Hh Hmi.
  destruct (commit_typed_date e d month day year hour minute dim rest
              Hbuf Hrest Hauto Hmo Hdim Hday Hy Hh Hmi)
    as (d1 & d' & v & Hrun
        & (Hdest & Hai & Htr & Hpres & Hrtc & Hal)
        & (Cdest & Cai & Ctr & Cpres & Crtc & Cal) & Hclear).
  exists d', v. split; [exact Hrun|].
  split; [rewrite Cdest; exact Hdest|].
  split; [rewrite Cai; exact Hai|].
  split; [rewrite Ctr; exact Htr|].
  split; [rewrite Cpres; exact Hpres|].
  split; [rewrite Crtc; exact Hrtc|].
  split; [rewrite Cal; exact Hal|exact Hclear].
Qed.

Lemma date_time_entry_witness :
  exists d' v,
    keypad_loop_enter kenv0
      (set_kp (mkKeypad (chars "102620151629" ++ [0; 0]) 11 0 false false
                        false 0 0) device0)
    = Ok (Returned d' v false) /\
    destinationTime (tc d') = mkClock 2015 10 26 16 29 0.
Proof.
  pose (d := set_kp (mkKeypad (chars "102620151629" ++ [0; 0]) 11 0 false
                              false false 0 0) device0).
  assert (Hbuf : dateBuffer (kp d)
                 = two_digits 10 ++ two_digits 26 ++ four_digits 2015
                   ++ two_digits 16 ++ two_digits 29 ++ 0 :: [0])
    by reflexivity.
  assert (Hlen : length [0] = 1%nat) by reflexivity.
  assert (Hauto : 0 <= autoTime (ai (tc d)) <= 7) by (change (0 <= 0 <= 7); lia).
  assert (Hm : 1 <= 10 <= 12) by lia.
  assert (Hdim : daysInMonth 10 2015 = Ok 31) by reflexivity.
  assert (Hd : 1 <= 26 <= 31) by lia.
  assert (Hy : 0 <= 2015 <= 9999) by lia.
  assert (Hh : 0 <= 16 <= 99) by lia.
  assert (Hmin : 0 <= 29 <= 99) by lia.
  destruct (date_time_entry kenv0 d 10 26 2015 16 29 31 [0]
              Hbuf Hlen Hauto Hm Hdim Hd Hy Hh Hmin)
    as (d' & v & Hrun & Hdest & _).
  exists d', v. split; [exact Hrun|exact Hdest].
Defined.
(** *** The idle report and the cancelled sequence *)

(** X20: the idle report after a key.  After [recordKey] at the time [now],
    [keypadIsIdle] at the time [t] answers true exactly when [now] is 0 or
    two minutes of the 32-bit millisecond clock have gone by since; the pass
    of [keypad_loop] at [t] discards the digits exactly when the two minutes
    have gone by, and the keypad is idle after that.  So a key recorded at
    the millisecond 0 leaves the keypad reported idle although the digit
    stays in the buffer. *)
Theorem idle_after_key (now t key : Z) (k k' : keypad) :
  buffer_ok k ->
  recordKey now key k = Ok k' ->
  keypadIsIdle t k'
  = (now =? 0) || (wrap32 (t - now) >=? 2 * 60 * 1000) /\
  exists k'',
    keypad_loop_discard t k' = Ok k'' /\
    if wrap32 (t - now) >=? 2 * 60 * 1000
    then buffer_clear k'' /\ keypadIsIdle t k'' = true
    else k'' = k'.
Proof.
  intros Hbuf Hrec.
  destruct (recordKey_ok now key k Hbuf) as (k1 & Hrec1 & Hbuf1).
  rewrite Hrec in Hrec1. injection Hrec1 as <-.
  assert (Hlast : lastKeyPressed k' = now).
  { revert Hrec. unfold recordKey.
    destruct (store (dateBuffer k) (dateIndex k) key) as [b1| |];
      cbn [bind]; try discriminate.
    destruct (store b1 (dateIndex k + 1) 0) as [b2| |];
      cbn [bind]; try discriminate.
    intros H. injection H as <-. reflexivity. }
  split; [unfold keypadIsIdle; rewrite Hlast; reflexivity|].
  destruct (discard_ok t k' Hbuf1) as (k2 & Hdis & _ & Hclear).
  exists k2. split; [exact Hdis|].
  rewrite Hlast in Hclear.
  destruct (Z.geb_spec (wrap32 (t - now)) (2 * 60 * 1000)) as [Hge|Hlt].
  - split; [exact (Hclear Hge)|].
    revert Hdis. unfold keypad_loop_discard. rewrite Hlast.
    destruct (Z.geb_spec (wrap32 (t - now)) (2 * 60 * 1000)); [|lia].
    destruct (store (dateBuffer k') 0 0) as [b| |]; cbn [bind];
      try discriminate.
    intros E. injection E as <-. unfold keypadIsIdle.
    cbn [lastKeyPressed].
    destruct (Z.geb_spec (wrap32 (t - now)) (2 * 60 * 1000)); [|lia].
    apply orb_true_r.
  - revert Hdis. unfold keypad_loop_discard. rewrite Hlast.
    destruct (Z.geb_spec (wrap32 (t - now)) (2 * 60 * 1000)); [lia|].
    intros E. injection E as <-. reflexivity.
Qed.

Lemma idle_after_key_witness :
  exists k',
    recordKey 0 49 keypad0 = Ok k' /\
    keypadIsIdle 5 k' = true /\ keypad_loop_discard 5 k' = Ok k'.
Proof.
  assert (Hbuf : buffer_ok keypad0).
  { split; [reflexivity|]. split; [change (0 <= 0 <= 11); lia|].
    exists 0. split; [reflexivity|change (0 <= 0 <= 12); lia]. }
  destruct (recordKey_ok 0 49 keypad0 Hbuf) as (k' & Hrec & _).
  destruct (idle_after_key 0 5 49 keypad0 k' Hbuf Hrec)
    as (Hidle & k'' & Hdis & Hk).
  exists k'. split; [exact Hrec|].
  split; [rewrite Hidle; reflexivity|].
  change (wrap32 (5 - 0) >=? 2 * 60 * 1000) with false in Hk.
  cbv iota in Hk. rewrite <- Hk at 2. exact Hdis.
Defined.


(** *** From the keypad to the time travel *)

(** The offset [timeTravel(false)] stores takes the count of the hardware
    clock to the count of the destination. *)
Lemma timeTravel_reaches (e : env) (s : tcd) (rtcTime newTime : Z) :
  dateToMins (dt_year (rtc s) - cd_yearOffset (presentTime s))
             (dt_month (rtc s)) (dt_day (rtc s)) (dt_hour (rtc s))
             (dt_minute (rtc s)) = Ok rtcTime ->
  dateToMins (cd_year (destinationTime s)) (cd_month (destinationTime s))
             (cd_day (destinationTime s)) (cd_hour (destinationTime s))
             (cd_minute (destinationTime s)) = Ok newTime ->
  0 <= rtcTime < 2^63 -> 0 <= newTime < 2^63 ->
  exists s',
    timeTravel e false s = Ok s' /\
    applyOffset (tr s') rtcTime = newTime /\
    destinationTime s' = destinationTime s /\
    presentTime s' = presentTime s.
Proof.
  intros Hrtc Hnew Hr Hn.
  destruct s as [p d dep t a r l]. cbn [presentTime destinationTime rtc] in *.
  unfold timeTravel, getYear, getMonth, getDay, getHour, getMinute,
    getYearOffset. cbv zeta.
  destruct (timetravelPersistent e);
    cbn [set_ai set_tr set_departedTime emit presentTime destinationTime
         departedTime tr ai rtc log myrtcnow negb];
    rewrite Hrtc; cbn [bind]; rewrite Hnew; cbn [bind];
    destruct (Z.ltb_spec rtcTime newTime) as [Hlt|Hge];
    eexists; (split; [reflexivity|]);
    cbn [presentTime destinationTime departedTime tr timeDifference timeDiffUp
         emit set_tr set_departedTime set_ai];
    unfold applyOffset; cbn [timeDifference timeDiffUp];
    rewrite wrap64_small by lia;
    (split; [lia|split; reflexivity]).
Qed.

(** X22: a date typed on the keypad is where the time travel goes.  With 12
    digits [mmddyyyyHHMM] of a date of the program's calendar in the buffer
    (year 1 to 9999, day within [daysInMonth], hour up to 23, minute up to
    59) and the hardware clock on such a date, too, the commit by ENTER
    returns, and [timeTravel(false)] on the state it leaves returns as
    well; the offset it stores takes the minute count of the hardware clock
    to a count that [minsToDate] turns into the typed date: the present
    time shown after the travel is the date typed. *)
Theorem typed_date_is_travelled_to (e : kenv) (et : env) (d : device)
    (month day year hour minute : Z) (rest : list Z) :
  dateBuffer (kp d)
  = two_digits month ++ two_digits day ++ four_digits year
    ++ two_digits hour ++ two_digits minute ++ 0 :: rest ->
  length rest = 1%nat ->
  0 <= autoTime (ai (tc d)) <= 7 ->
  valid_date (year, month, day, hour, minute) = true ->
  valid_date (dt_year (rtc (tc d)) - cd_yearOffset (presentTime (tc d)),
              dt_month (rtc (tc d)), dt_day (rtc (tc d)),
              dt_hour (rtc (tc d)), dt_minute (rtc (tc d))) = true ->
  exists d' v s' rtcTime,
    keypad_loop_enter e d = Ok (Returned d' v false) /\
    timeTravel et false (tc d') = Ok s' /\
    dateToMins (dt_year (rtc (tc d)) - cd_yearOffset (presentTime (tc d)))
               (dt_month (rtc (tc d))) (dt_day (rtc (tc d)))
               (dt_hour (rtc (tc d))) (dt_minute (rtc (tc d)))
    = Ok rtcTime /\
    minsToDate (applyOffset (tr s') rtcTime)
    = Ok (year, month, day, hour, minute) /\
    destinationTime s'
    = mkClock year month day hour minute
              (cd_yearOffset (destinationTime (tc d))).
Proof.
  intros Hbuf Hlen Hauto Hv Hrv.
  pose proof (valid_date_inv _ _ _ _ _ Hv)
    as (Hy & Hmo & (dim' & Hdim & Hd) & Hh & Hmi).
  destruct (commit_typed_date e d month day year hour minute dim' rest
              Hbuf Hlen Hauto Hmo Hdim Hd ltac:(lia) ltac:(lia) ltac:(lia))
    as (d1 & d' & v & Hrun
        & (Hdest1 & _ & _ & Hpres1 & Hrtc1 & _)
        & (Cdest & _ & _ & Cpres & Crtc & _) & _).
  assert (Hdest : destinationTime (tc d')
                  = mkClock year month day hour minute
                            (cd_yearOffset (destinationTime (tc d))))
    by (rewrite Cdest; exact Hdest1).
  assert (Hpres : presentTime (tc d') = presentTime (tc d))
    by (rewrite Cpres; exact Hpres1).
  assert (Hrtc : rtc (tc d') = rtc (tc d))
    by (rewrite Crtc; exact Hrtc1).
  destruct (roundtrip_program_calendar _ _ _ _ _ Hv)
    as (newTime & Hnew & Hnr & Hback).
  destruct (roundtrip_program_calendar _ _ _ _ _ Hrv)
    as (rtcTime & Hrt & Hrr & _).
  destruct (timeTravel_reaches et (tc d') rtcTime newTime)
    as (s' & Htt & Hoff & Hds & _).
  - rewrite Hpres, Hrtc. exact Hrt.
  - rewrite Hdest. exact Hnew.
  - lia.
  - lia.
  - exists d', v, s', rtcTime.
    split; [exact Hrun|]. split; [exact Htt|]. split; [exact Hrt|].
    split; [rewrite Hoff; exact Hback|].
    rewrite Hds. exact Hdest.
Qed.

Lemma typed_date_is_travelled_to_witness :
  exists d' v s' rtcTime,
    keypad_loop_enter kenv0
      (set_kp (mkKeypad (chars "102619850121" ++ [0; 0]) 11 0 false false
                        false 0 0) device0)
    = Ok (Returned d' v false) /\
    timeTravel env0 false (tc d') = Ok s' /\
    minsToDate (applyOffset (tr s') rtcTime) = Ok (1985, 10, 26, 1, 21).
Proof.
  pose (d := set_kp (mkKeypad (chars "102619850121" ++ [0; 0]) 11 0 false
                              false false 0 0) device0).
  assert (Hbuf : dateBuffer (kp d)
                 = two_digits 10 ++ two_digits 26 ++ four_digits 1985
                   ++ two_digits 1 ++ two_digits 21 ++ 0 :: [0])
    by reflexivity.
  assert (Hlen : length [0] = 1%nat) by reflexivity.
  assert (Hauto : 0 <= autoTime (ai (tc d)) <= 7)
    by (change (0 <= 0 <= 7); lia).
  assert (Hv : valid_date (1985, 10, 26, 1, 21) = true) by reflexivity.
  assert (Hrv : valid_date
                  (dt_year (rtc (tc d)) - cd_yearOffset (presentTime (tc d)),
                   dt_month (rtc (tc d)), dt_day (rtc (tc d)),
                   dt_hour (rtc (tc d)), dt_minute (rtc (tc d))) = true)
    by reflexivity.
  destruct (typed_date_is_travelled_to kenv0 env0 d 10 26 1985 1 21 [0]
              Hbuf Hlen Hauto Hv Hrv)
    as (d' & v & s' & rtcTime & Hrun & Htt & _ & Hback & _).
  exists d', v, s', rtcTime.
  split; [exact Hrun|]. split; [exact Htt|exact Hback].
Defined.

End KeypadEventsFacts.

(** ** The time of day typed on the keypad *)

Module TimeEntryFacts.
Import Codec Clock Time Keypad TimeLoop KeypadEvents CodecFacts KeypadFacts
  TimeLoopFacts KeypadEventsFacts.
(** *** A time of day is never checked *)

(** The branch of the dates on an entry that is no special date: it is
    confirmed, plays no sound of its own, and writes the fields parsed to
    the destination clock. *)
Lemma enter_date_plain e d strLen p :
  length (dateBuffer (kp d)) = 14%nat ->
  0 <= autoTime (ai (tc d)) <= 7 ->
  parse_date e strLen (dateBuffer (kp d)) = Ok p ->
  special p = 0 ->
  exists d',
    enter_date e strLen d = Ok (Continue d' true false true) /\
    dateBuffer (kp d') = dateBuffer (kp d) /\
    destinationTime (tc d')
    = copy_to_destination p (destinationTime (tc d)) /\
    (forall name, played name (log (tc d')) = played name (log (tc d))).
Proof.
  intros Hlen Hauto Hp Hsp. unfold enter_date.
  rewrite Hp. cbn [bind]. rewrite Hsp.
  change (0 =? 1) with false. change (0 =? 2) with false.
  change (0 =? 3) with false. change (0 =? 4) with false. cbv iota.
  destruct (preset_total departedTimes _ eq_refl Hauto) as [s Hs].
  destruct (timetravelPersistent (te e));
    destruct (TC_HAVETEMP e && isRcMode e && (haveHum e || isWcMode e));
    destruct (isWcMode e && WcHaveTZ1 e); cbn [bind];
    try (destruct (WcHaveTZ2 e); cbn [bind];
         try (destruct ((interval (te e) =? 0) || _); cbn [bind]));
    cbn [set_destination set_tc set_destinationTime call emit tc ai autoTime
         set_needDepTime set_kp kp];
    rewrite ?Hs; cbn [bind];
    eexists; (split; [reflexivity|]);
    (split; [reflexivity|]); (split; [reflexivity|]);
    intros name; cbn -[played]; rewrite ?played_same by reflexivity; reflexivity.
Qed.

(** The end of the entry logic after a branch that confirmed the entry:
    the confirmation sound, then the buffer cleared. *)
Lemma keypad_loop_enter_confirmed e d strLen d1 m :
  length (dateBuffer (kp d)) = 14%nat ->
  strlen (dateBuffer (kp d)) = Ok strLen ->
  enter_dispatch e strLen (enter_start e d) = Ok (Continue d1 true false m) ->
  dateBuffer (kp d1) = dateBuffer (kp d) ->
  exists d',
    keypad_loop_enter e d = Ok (Returned d' true false) /\
    log (tc d') = log (tc d1) ++ [PlayFile "/enter.mp3"] /\
    destinationTime (tc d') = destinationTime (tc d1) /\
    buffer_clear (kp d').
Proof.
  intros Hlen Hn Hb Hbuf. rewrite keypad_loop_enter_start.
  rewrite Hn. cbn [bind]. rewrite Hb. cbn [bind]. cbv zeta iota.
  rewrite store_Ok by (cbn; rewrite Hbuf, Hlen; lia).
  cbn [bind]. eexists. split; [reflexivity|].
  split; [reflexivity|]. split; [reflexivity|].
  split; [|reflexivity].
  cbn [kp set_kp dateBuffer]. apply strlen_cleared.
  cbn. rewrite Hbuf, Hlen. lia.
Qed.

(** C4, refuted by the code.  A committed entry of four digits [HHMM] that
    does not start with 44 is never found invalid, whatever the digits are:
    the commit returns with [validEntry] set and [invalidEntry] clear, the
    confirmation sound is played once and the error sound not at all, HH
    and MM are handed to the mutators of the destination clock for hour and
    minute, and the buffer is cleared.  So the entry "9960" is confirmed
    and written, while the program's own description says that an invalid
    time is answered by the error sound, and the entries for the alarm and
    the reminder do check the hour against 23 and the minute against 59. *)
Theorem time_entry_not_checked (e : kenv) (d : device) (h1 h2 m1 m2 : Z)
    (rest : list Z) :
  dateBuffer (kp d) = [48 + h1; 48 + h2; 48 + m1; 48 + m2] ++ 0 :: rest ->
  length rest = 9%nat ->
  0 <= autoTime (ai (tc d)) <= 7 ->
  0 <= h1 <= 9 -> 0 <= h2 <= 9 -> 0 <= m1 <= 9 -> 0 <= m2 <= 9 ->
  10 * h1 + h2 <> 44 ->
  exists d',
    keypad_loop_enter e d = Ok (Returned d' true false) /\
    played "/enter.mp3" (log (tc d'))
    = S (played "/enter.mp3" (log (tc d))) /\
    played "/baddate.mp3" (log (tc d')) = played "/baddate.mp3" (log (tc d)) /\
    destinationTime (tc d')
    = setMinute (10 * m1 + m2)
        (setHour (10 * h1 + h2) (destinationTime (tc d))) /\
    buffer_clear (kp d').
Proof.
  intros Hbuf Hrest Hauto Hh1 Hh2 Hm1 Hm2 H44.
  assert (Hlen : length (dateBuffer (kp d)) = 14%nat)
    by (rewrite Hbuf; cbn [length app]; lia).
  assert (Hn : strlen (dateBuffer (kp d)) = Ok 4).
  { rewrite Hbuf.
    apply (strlen_prefix [48 + h1; 48 + h2; 48 + m1; 48 + m2]).
    repeat constructor; lia. }
  assert (Hhh : read2digs (dateBuffer (kp d)) 0 = Ok (10 * h1 + h2))
    by (rewrite Hbuf; apply read2digs_digits; try lia; reflexivity).
  assert (Hmm : read2digs (dateBuffer (kp d)) 2 = Ok (10 * m1 + m2))
    by (rewrite Hbuf; apply read2digs_digits; try lia; reflexivity).
  assert (Hp : parse_date e 4 (dateBuffer (kp d))
               = Ok (mkParsed (-1) (-1) (-1) (10 * h1 + h2) (10 * m1 + m2) 0)).
  { unfold parse_date. rewrite Hhh, Hmm. reflexivity. }
  set (d0 := enter_start e d).
  destruct (enter_date_plain e d0 4 _ Hlen Hauto Hp eq_refl)
    as (d1 & Hd1 & B & Hdest & Hplayed).
  assert (Hdisp : enter_dispatch e 4 d0 = Ok (Continue d1 true false true)).
  { rewrite <- Hd1. apply (enter_dispatch_time e d0 (10 * h1 + h2)).
    - exact Hhh.
    - exact H44. }
  destruct (keypad_loop_enter_confirmed e d 4 d1 true Hlen Hn Hdisp B)
    as (d' & Hrun & Hlog & Hdest' & Hclear).
  exists d'. split; [exact Hrun|].
  assert (Hstart : forall name,
             played name (log (tc d0)) = played name (log (tc d))).
  { intros name. subst d0. unfold enter_start.
    cbn -[played]. rewrite ?played_same by reflexivity. reflexivity. }
  split.
  { rewrite Hlog, played_app, Hplayed, Hstart. cbn [is_play].
    change (String.eqb "/enter.mp3" "/enter.mp3") with true.
    cbv iota. lia. }
  split.
  { rewrite Hlog, played_app, Hplayed, Hstart. cbn [is_play].
    change (String.eqb "/enter.mp3" "/baddate.mp3") with false.
    cbv iota. lia. }
  split; [|exact Hclear].
  rewrite Hdest', Hdest. unfold copy_to_destination.
  cbn [_setYear _setMonth _setDay _setHour _setMin].
  change (-1 >=? 0) with false. change (-1 >? 0) with false. cbv iota.
  rewrite (geb_true (10 * h1 + h2) 0) by lia.
  rewrite (geb_true (10 * m1 + m2) 0) by lia.
  reflexivity.
Qed.

(** An instance: the entry "9960". *)
Lemma time_entry_not_checked_witness :
  exists d',
    keypad_loop_enter kenv0
      (set_kp (mkKeypad (chars "9960" ++ replicate 10 0) 4 0 false false
                        false 0 0) device0)
    = Ok (Returned d' true false) /\
    cd_hour (destinationTime (tc d')) = 99 /\
    cd_minute (destinationTime (tc d')) = 60.
Proof.
  pose (d := set_kp (mkKeypad (chars "9960" ++ replicate 10 0) 4 0 false
                              false false 0 0) device0).
  assert (Hbuf : dateBuffer (kp d)
                 = [48 + 9; 48 + 9; 48 + 6; 48 + 0] ++ 0 :: replicate 9 0)
    by reflexivity.
  assert (Hrest : length (replicate 9 0) = 9%nat) by reflexivity.
  assert (Hauto : 0 <= autoTime (ai (tc d)) <= 7)
    by (change (0 <= 0 <= 7); lia).
  assert (H9 : 0 <= 9 <= 9) by lia.
  assert (H6 : 0 <= 6 <= 9) by lia.
  assert (H0 : 0 <= 0 <= 9) by lia.
  assert (H44 : 10 * 9 + 9 <> 44) by lia.
  destruct (time_entry_not_checked kenv0 d 9 9 6 0 (replicate 9 0)
              Hbuf Hrest Hauto H9 H9 H6 H0 H44)
    as (d' & Hrun & _ & _ & Hdest & _).
  exists d'. split; [exact Hrun|].
  rewrite Hdest. split; reflexivity.
Defined.

End TimeEntryFacts.

(** ** More on the calendar codec *)

Module CodecLaws.
Import Codec CodecOrder CodecFacts.
(** The count of a date of the program's calendar, and where it lies in
    its month and year. *)
Lemma dateToMins_position year month day hour minute :
  valid_date (year, month, day, hour, minute) = true ->
  exists m,
    dateToMins year month day hour minute = Ok m /\
    m = (((year - 1) * 8760 + (yday0 month + day - 1) * 24 + hour) * 60)
        + minute /\
    1 <= year <= 9999 /\ 1 <= month <= 12 /\ 1 <= day /\
    0 <= yday0 month /\ yday0 month + day <= yday0 (month + 1) /\
    yday0 (month + 1) <= 365 /\ 0 <= hour <= 23 /\ 0 <= minute <= 59.
Proof.
  intros Hv.
  apply valid_date_inv in Hv as (Hy & Hmo & (dim & Hdim & Hd) & Hh & Hmi).
  rewrite daysInMonth_table in Hdim.
  destruct (yday0_next month Hmo) as (dim' & Hdim' & Hnext & Hrange).
  rewrite Hdim in Hdim'. injection Hdim' as <-.
  pose proof (yday0_range month ltac:(lia)) as Hyd.
  pose proof (yday0_range (month + 1) ltac:(lia)) as Hyd1.
  rewrite dateToMins_closed by lia. rewrite Z.max_l by lia.
  eexists. split; [reflexivity|]. split; [reflexivity|]. lia.
Qed.

(** X23: the minute count follows the calendar.  For two dates of the
    program's calendar (year 1 to 9999, day within [daysInMonth], hour up to
    23, minute up to 59), the count [dateToMins] returns for the first is
    below the count for the second exactly when the first date is the
    earlier one, comparing year, month, day, hour and minute in this order.
    So the comparison [rtcTime < newTime] by which [timeTravel] chooses the
    direction of the offset is the comparison of the two dates. *)
Theorem dateToMins_monotone (y1 mo1 d1 h1 mi1 y2 mo2 d2 h2 mi2 m n : Z) :
  valid_date (y1, mo1, d1, h1, mi1) = true ->
  valid_date (y2, mo2, d2, h2, mi2) = true ->
  dateToMins y1 mo1 d1 h1 mi1 = Ok m ->
  dateToMins y2 mo2 d2 h2 mi2 = Ok n ->
  (m <? n) = date_ltb (y1, mo1, d1, h1, mi1) (y2, mo2, d2, h2, mi2).
Proof.
  intros Ha Hb Hm Hn.
  destruct (dateToMins_position _ _ _ _ _ Ha)
    as (m' & Hm' & Em & Hy1 & Hmo1 & Hd1 & Hs1 & He1 & Hl1 & Hh1 & Hmi1).
  destruct (dateToMins_position _ _ _ _ _ Hb)
    as (n' & Hn' & En & Hy2 & Hmo2 & Hd2 & Hs2 & He2 & Hl2 & Hh2 & Hmi2).
  rewrite Hm in Hm'. injection Hm' as <-.
  rewrite Hn in Hn'. injection Hn' as <-.
  assert (Hmono : mo1 < mo2 -> yday0 (mo1 + 1) <= yday0 mo2)
    by (intros; apply yday0_mono; lia).
  assert (Hmono' : mo2 < mo1 -> yday0 (mo2 + 1) <= yday0 mo1)
    by (intros; apply yday0_mono; lia).
  unfold date_ltb.
  destruct (Z.lt_trichotomy y1 y2) as [Hy|[Hy|Hy]].
  - rewrite (proj2 (Z.ltb_lt y1 y2)) by lia. cbn [orb].
    apply Z.ltb_lt. lia.
  - subst y2. rewrite Z.ltb_irrefl, Z.eqb_refl. cbn [orb andb].
    destruct (Z.lt_trichotomy mo1 mo2) as [Hmo|[Hmo|Hmo]].
    + rewrite (proj2 (Z.ltb_lt mo1 mo2)) by lia. cbn [orb].
      apply Z.ltb_lt. specialize (Hmono Hmo). lia.
    + subst mo2. rewrite Z.ltb_irrefl, Z.eqb_refl. cbn [orb andb].
      destruct (Z.ltb_spec d1 d2), (Z.eqb_spec d1 d2),
        (Z.ltb_spec h1 h2), (Z.eqb_spec h1 h2), (Z.ltb_spec mi1 mi2);
        cbn [orb andb];
        first [apply Z.ltb_lt; lia | apply Z.ltb_ge; lia].
    + rewrite (proj2 (Z.ltb_ge mo1 mo2)) by lia.
      rewrite (proj2 (Z.eqb_neq mo1 mo2)) by lia. cbn [orb andb].
      apply Z.ltb_ge. specialize (Hmono' Hmo). lia.
  - rewrite (proj2 (Z.ltb_ge y1 y2)) by lia.
    rewrite (proj2 (Z.eqb_neq y1 y2)) by lia. cbn [orb andb].
    apply Z.ltb_ge. lia.
Qed.

Lemma dateToMins_monotone_witness :
  exists m n,
    dateToMins 1985 10 26 1 21 = Ok m /\ dateToMins 2015 10 21 16 29 = Ok n /\
    (m <? n) = true.
Proof.
  exists 1043219601, 1058981309.
  assert (Hm : dateToMins 1985 10 26 1 21 = Ok 1043219601) by reflexivity.
  assert (Hn : dateToMins 2015 10 21 16 29 = Ok 1058981309) by reflexivity.
  split; [exact Hm|]. split; [exact Hn|].
  exact (dateToMins_monotone 1985 10 26 1 21 2015 10 21 16 29 _ _
           eq_refl eq_refl Hm Hn).
Defined.

End CodecLaws.
